(** * Murder-mystery party generator: generation status, job trigger,
      content save, character guide and e-mail edge functions.

    A shallow embedding of
    - the package service ([saveStructuredPackageData],
      [generateCompletePackage], [resumePackageGeneration],
      [getPackageGenerationStatus]),
    - the status check of the mystery view ([checkGenerationStatus]),
    - the character guide of the package tab view
      ([buildCharacterGuideContent]),
    - the two e-mail edge functions (send-character-email, send-host-email),
    followed by the properties proved about them.

    The remote store is a value of type [Database] threaded through every
    operation.  Each call to the store client answers with a reply
    [{data, error}]; which calls answer with an error is decided by an
    oracle ([Faults]) indexed by the call site, so that every error branch
    of the source is reachable.  Every write request sent to the store and
    every outbound function call is appended to a log. *)

From Stdlib Require Import String Ascii List Bool ZArith Lia PeanoNat DecimalString.
Import ListNotations.
Open Scope string_scope.

(** ** JavaScript values as the services read them *)

Module Js.

(** A value read from a duck-typed object where text is expected. *)
Inductive Text :=
| Undefined
| Null
| Str (s : string).

(** Truthiness of [v] in [if (v)], [!v], [v || w]. *)
Definition truthy (v : Text) : bool :=
  match v with
  | Str s => negb (s =? "")
  | _ => false
  end.

(** [a || b] *)
Definition or (a b : Text) : Text := if truthy a then a else b.

(** A plain object with text properties, in insertion order. *)
Definition Object := list (string * Text).

(** [o.k]; a missing key reads as [undefined]. *)
Fixpoint get (o : Object) (k : string) : Text :=
  match o with
  | [] => Undefined
  | (k', v) :: rest => if k' =? k then v else get rest k
  end.

(** Truthiness of a nullable text column ([null] or a string). *)
Definition present (c : option string) : bool :=
  match c with
  | Some s => negb (s =? "")
  | None => false
  end.

(** The value a nullable column takes when [v] is sent for it in an
    insert: [undefined] keys are dropped from the payload and the column
    stays [null]. *)
Definition column (v : Text) : option string :=
  match v with
  | Str s => Some s
  | _ => None
  end.

(** The value a nullable column takes when [v] is sent for it in an
    update of a row whose column holds [old]: a key whose value is
    [undefined] is dropped from the payload and leaves the column alone. *)
Definition column_update (v : Text) (old : option string) : option string :=
  match v with
  | Undefined => old
  | Null => None
  | Str s => Some s
  end.

End Js.

(** ** The store *)

(** Instants, in milliseconds. *)
Definition Time := Z.
Definition PackageId := nat.

(** The JSON object kept in [mystery_packages.generation_status]. *)
Module Stored.
Record Status := {
  status : option string;
  progress : option Z;
  currentStep : option string;
  error : option string;
  resumable : option bool;
  sections : option (list (string * bool))
}.
End Stored.

(** The JSON value of the [generation_status] column: [null], a value that
    is not an object (a string, a number, a boolean; only its truthiness is
    ever read), or an object.  An array reads as an object without any of
    the properties. *)
Inductive StatusJson :=
| SNull
| SScalar (truthy : bool)
| SObject (o : Stored.Status).

(** The content columns of a [mystery_packages] row (PackageContent). *)
Record PackageContent := {
  title : option string;
  game_overview : option string;
  host_guide : option string;
  materials : option string;
  preparation_instructions : option string;
  timeline : option string;
  hosting_tips : option string;
  evidence_cards : option string;
  relationship_matrix : option string;
  detective_script : option string
}.

(** A row of [mystery_packages]: the content columns are grouped in
    [content], the other columns are the generation job. *)
Record PackageRow := {
  id : PackageId;
  conversation_id : string;
  content : PackageContent;
  generation_status : StatusJson;
  generation_started_at : option Time;
  generation_completed_at : option Time;
  created_at : Time;
  updated_at : Time
}.

(** A row of [mystery_characters], with the columns the service writes. *)
Record CharacterRow := {
  package_id : PackageId;
  character_name : option string;
  description : option string;
  background : option string;
  secret : option string;
  introduction : option string;
  rumors : option string;
  round2_questions : option string;
  round2_innocent : option string;
  round2_guilty : option string;
  round2_accomplice : option string;
  round3_questions : option string;
  round3_innocent : option string;
  round3_guilty : option string;
  round3_accomplice : option string;
  round4_questions : option string;
  round4_innocent : option string;
  round4_guilty : option string;
  round4_accomplice : option string;
  final_innocent : option string;
  final_guilty : option string;
  final_accomplice : option string;
  character_created_at : Time;
  character_updated_at : Time
}.

(** A row of [conversations], with the columns the services read or write. *)
Record ConversationRow := {
  conversation : string;
  needs_package_generation : bool;
  has_complete_package : bool;
  is_paid : bool;
  display_status : option string;
  conversation_status : option string;
  conversation_updated_at : Time
}.

Record Database := {
  mystery_packages : list PackageRow;
  mystery_characters : list CharacterRow;
  conversations : list ConversationRow
}.

(** The job row of conversation [conv] with id [p] is in the store. *)
Definition job_stored (d : Database) (conv : string) (p : PackageId) : Prop :=
  exists r, In r (mystery_packages d) /\ id r = p /\ conversation_id r = conv.

(** Write requests sent to the store, and outbound function calls. *)
Inductive Write :=
| UpdatePackageById (target : PackageId) (s : StatusJson)
| UpdatePackageByConversation (target : string) (s : StatusJson)
| InsertPackage (conv : string) (s : StatusJson)
| DeleteCharacters (target : PackageId)
| InsertCharacters (rows : list CharacterRow)
| UpdateConversation (target : string).

Inductive Event :=
| StoreWrite (w : Write)
| Invoke (function_name : string) (conversationId : string) (testMode : bool).

Record World := {
  db : Database;
  log : list Event
}.

Definition is_outbound (e : Event) : bool :=
  match e with
  | Invoke _ _ _ => true
  | StoreWrite _ => false
  end.

(** The number of outbound function calls in a log. *)
Definition outbound_calls (l : list Event) : nat := length (filter is_outbound l).

(** The number of write requests in a log. *)
Definition store_writes (l : list Event) : nat :=
  length (filter (fun e => negb (is_outbound e)) l).

(** ** Asynchronous code that may throw *)

Inductive Outcome (A : Type) :=
| Returned (a : A)
| Thrown (message : string).
Arguments Returned {A} a.
Arguments Thrown {A} message.

(** A computation over a state [S]; a throw keeps the state reached. *)
Definition Async (S A : Type) := S -> Outcome A * S.

Definition ret {S A} (a : A) : Async S A := fun s => (Returned a, s).

Definition throw {S A} (message : string) : Async S A :=
  fun s => (Thrown message, s).

Definition bind {S A B} (c : Async S A) (k : A -> Async S B) : Async S B :=
  fun s =>
    match c s with
    | (Returned a, s') => k a s'
    | (Thrown m, s') => (Thrown m, s')
    end.

(** [try { c } catch (e) { handler e }], [e.message] being what is bound. *)
Definition try_catch {S A} (c : Async S A) (handler : string -> Async S A)
  : Async S A :=
  fun s =>
    match c s with
    | (Returned a, s') => (Returned a, s')
    | (Thrown m, s') => handler m s'
    end.

Declare Scope async_scope.
Delimit Scope async_scope with async.
Notation "x <- c ;; k" := (bind c (fun x => k))
  (at level 100, c at next level, right associativity) : async_scope.
Notation "c ;;; k" := (bind c (fun _ => k))
  (at level 100, right associativity) : async_scope.

(** ** The store client *)

(** The call sites of the store client and of the function client. *)
Inductive Site :=
(* saveStructuredPackageData *)
| SaveFetchPackage | SaveCreatePackage | SaveUpdatePackage
| SaveDeleteCharacters | SaveInsertCharacters | SaveUpdateConversation
(* generateCompletePackage *)
| GenExistingPackage | GenConversation | GenCheckPackage
| GenInitialUpdate | GenCreatePackage | GenWebhook
| GenFailedUpdate | GenProgressUpdate | GenCatchUpdate
(* getPackageGenerationStatus *)
| StatusFetch | StatusCorrect
(* checkGenerationStatus *)
| ViewFetchPackage | ViewFetchConversation | ViewForceUpdate
| ViewUpdateConversation.

(** An error answered at a call site. *)
Record ClientError := {
  message : string;
  code : string
}.

(** Which call sites answer with an error during one call of a service. *)
Definition Faults := Site -> option ClientError.

Definition no_faults : Faults := fun _ => None.

(** The reply [{data, error}] of a read. *)
Record Reply (D : Type) := {
  data : option D;
  reply_error : option ClientError
}.
Arguments data {D} r.
Arguments reply_error {D} r.

Module Client.

Definition of_conversation (conv : string) (r : PackageRow) : bool :=
  conversation_id r =? conv.

(** The first row of [rows] ordered by [updated_at] descending; among
    rows with the same [updated_at] the earliest in the table is taken. *)
Fixpoint latest (rows : list PackageRow) : option PackageRow :=
  match rows with
  | [] => None
  | r :: rest =>
      match latest rest with
      | Some r' => if (updated_at r <? updated_at r')%Z then Some r' else Some r
      | None => Some r
      end
  end.

(** [.eq("conversation_id", conv).order('updated_at', {ascending: false})
     .limit(1)] *)
Definition latest_package (d : Database) (conv : string) : option PackageRow :=
  latest (filter (of_conversation conv) (mystery_packages d)).

Definition characters_of (d : Database) (p : PackageId) : list CharacterRow :=
  filter (fun c => (package_id c =? p)%nat) (mystery_characters d).

Definition find_conversation (d : Database) (conv : string)
  : option ConversationRow :=
  find (fun c => conversation c =? conv) (conversations d).

Definition log_event (e : Event) (w : World) : World :=
  {| db := db w; log := log w ++ [e] |}.

Definition with_db (f : Database -> Database) (w : World) : World :=
  {| db := f (db w); log := log w |}.

Definition set_packages (f : list PackageRow -> list PackageRow)
  (d : Database) : Database :=
  {| mystery_packages := f (mystery_packages d);
     mystery_characters := mystery_characters d;
     conversations := conversations d |}.

Definition set_characters (f : list CharacterRow -> list CharacterRow)
  (d : Database) : Database :=
  {| mystery_packages := mystery_packages d;
     mystery_characters := f (mystery_characters d);
     conversations := conversations d |}.

Definition set_conversations (f : list ConversationRow -> list ConversationRow)
  (d : Database) : Database :=
  {| mystery_packages := mystery_packages d;
     mystery_characters := mystery_characters d;
     conversations := f (conversations d) |}.

(** Apply [change] to the rows selected by [sel]. *)
Definition update_where {R} (sel : R -> bool) (change : R -> R) (rows : list R)
  : list R :=
  map (fun r => if sel r then change r else r) rows.

(** The id given to an inserted package row. *)
Definition fresh_id (rows : list PackageRow) : PackageId :=
  S (list_max (map id rows)).

Section Calls.
Variable faults : Faults.

(** A read of the latest package row of a conversation
    ([.maybeSingle()]: no row is [data = null] without an error). *)
Definition read_latest_package (site : Site) (d : Database) (conv : string)
  : Reply PackageRow :=
  match faults site with
  | Some e => {| data := None; reply_error := Some e |}
  | None => {| data := latest_package d conv; reply_error := None |}
  end.

(** A read of one conversation ([.single()]: no row is an error). *)
Definition read_conversation (site : Site) (d : Database) (conv : string)
  : Reply ConversationRow :=
  match faults site with
  | Some e => {| data := None; reply_error := Some e |}
  | None =>
      match find_conversation d conv with
      | Some c => {| data := Some c; reply_error := None |}
      | None =>
          {| data := None;
             reply_error := Some {| message := "no rows returned";
                                    code := "PGRST116" |} |}
      end
  end.

Definition select_latest_package (site : Site) (conv : string)
  : Async World (Reply PackageRow) :=
  fun w => (Returned (read_latest_package site (db w) conv), w).

Definition select_conversation (site : Site) (conv : string)
  : Async World (Reply ConversationRow) :=
  fun w => (Returned (read_conversation site (db w) conv), w).

(** A write request: it is logged, and takes effect unless the call
    site answers with an error, which is what the call returns. *)
Definition write (site : Site) (request : Write) (effect : Database -> Database)
  : Async World (option ClientError) :=
  fun w =>
    let w' := log_event (StoreWrite request) w in
    match faults site with
    | Some e => (Returned (Some e), w')
    | None => (Returned None, with_db effect w')
    end.

(** [.insert(row).select("id").single()]: the request is logged; unless
    the call site answers with an error the row is added under a fresh
    id, which is the data of the reply. *)
Definition insert_package (site : Site) (request : Write)
  (row : PackageId -> PackageRow) : Async World (Reply PackageId) :=
  fun w =>
    let w' := log_event (StoreWrite request) w in
    match faults site with
    | Some e => (Returned {| data := None; reply_error := Some e |}, w')
    | None =>
        let new_id := fresh_id (mystery_packages (db w')) in
        (Returned {| data := Some new_id; reply_error := None |},
         with_db (set_packages (fun rows => (rows ++ [row new_id])%list)) w')
    end.

(** [supabase.functions.invoke(name, {body: {conversationId, testMode}})] *)
Definition functions_invoke (site : Site) (name conv : string) (testMode : bool)
  : Async World (option ClientError) :=
  fun w => (Returned (faults site), log_event (Invoke name conv testMode) w).

End Calls.

End Client.

(** ** The package service *)

(** [GenerationStatus], as [getPackageGenerationStatus] returns it. *)
Record GenerationStatus := {
  status : string;
  progress : Z;
  currentStep : string;
  resumable : option bool;
  sections : list (string * bool)
}.

(** The [jsonData] given to [saveStructuredPackageData]: its text
    properties, and its [characters] when that is an array. *)
Record PackageJson := {
  properties : Js.Object;
  character_list : option (list Js.Object)
}.

(** [normalizedData] of [saveStructuredPackageData].  [characters] is
    [jsonData.characters || []]; a value that is not an array is taken as
    the empty array, both being skipped by the test that follows. *)
Module Normalized.
Record Data := {
  title : Js.Text;
  gameOverview : Js.Text;
  hostGuide : Js.Text;
  materials : Js.Text;
  preparation : Js.Text;
  timeline : Js.Text;
  hostingTips : Js.Text;
  evidenceCards : Js.Text;
  relationshipMatrix : Js.Text;
  detectiveScript : Js.Text;
  characters : list Js.Object
}.
End Normalized.

Module Service.

Definition with_job (r : PackageRow) (s : StatusJson)
  (started completed : option Time) (updated : Time) : PackageRow :=
  {| id := id r;
     conversation_id := conversation_id r;
     content := content r;
     generation_status := s;
     generation_started_at := started;
     generation_completed_at := completed;
     created_at := created_at r;
     updated_at := updated |}.

Definition no_content : PackageContent :=
  {| title := None; game_overview := None; host_guide := None;
     materials := None; preparation_instructions := None; timeline := None;
     hosting_tips := None; evidence_cards := None;
     relationship_matrix := None; detective_script := None |}.

(** [currentStatus.status], [undefined] when there is no such property. *)
Definition status_of (j : StatusJson) : option string :=
  match j with
  | SObject o => Stored.status o
  | _ => None
  end.

(** [j?.status === s] *)
Definition status_is (j : StatusJson) (s : string) : bool :=
  match status_of j with
  | Some s' => s' =? s
  | None => false
  end.

(** The values of the [status] union of [GenerationStatus]. *)
Definition recognized (s : string) : bool :=
  (s =? "not_started") || (s =? "in_progress") || (s =? "completed")
  || (s =? "failed").

(** Truthiness of the JSON value. *)
Definition json_truthy (j : StatusJson) : bool :=
  match j with
  | SNull => false
  | SScalar t => t
  | SObject _ => true
  end.

Definition all_sections : list (string * bool) :=
  [("hostGuide", true); ("characters", true); ("clues", true);
   ("inspectorScript", true); ("characterMatrix", true)].

(** [completedStatus] of [getPackageGenerationStatus]. *)
Definition completedStatus : GenerationStatus :=
  {| status := "completed";
     progress := 100;
     currentStep := "Package generation completed";
     resumable := None;
     sections := all_sections |}.

(** [completedStatus] as the JSON object written to the store. *)
Definition completedStatus_json : Stored.Status :=
  {| Stored.status := Some "completed";
     Stored.progress := Some 100%Z;
     Stored.currentStep := Some "Package generation completed";
     Stored.error := None;
     Stored.resumable := None;
     Stored.sections := Some all_sections |}.

Definition defaultStatus : GenerationStatus :=
  {| status := "not_started"; progress := 0; currentStep := "Not started";
     resumable := None; sections := [] |}.

Definition inProgressStatus : GenerationStatus :=
  {| status := "in_progress"; progress := 50;
     currentStep := "Package generation in progress...";
     resumable := None; sections := [] |}.

Definition notStartedStatus : GenerationStatus := defaultStatus.

Definition errorStatus : GenerationStatus :=
  {| status := "not_started"; progress := 0;
     currentStep := "Error checking status";
     resumable := None; sections := [] |}.

(** [normalizedStatus]: the stored object with its missing fields
    defaulted ([x || d]). *)
Definition normalizedStatus (o : Stored.Status) : GenerationStatus :=
  {| status :=
       match Stored.status o with
       | Some s => if s =? "" then "not_started" else s
       | None => "not_started"
       end;
     progress :=
       match Stored.progress o with
       | Some p => p
       | None => 0%Z
       end;
     currentStep :=
       match Stored.currentStep o with
       | Some s => if s =? "" then "Unknown step" else s
       | None => "Unknown step"
       end;
     resumable := Stored.resumable o;
     sections :=
       match Stored.sections o with
       | Some s => s
       | None => []
       end |}.

(** One object of the embedded [characters:mystery_characters(count)]. *)
Record CountEntry := { count : nat }.

(** The answer of the store to the embedded
    [characters:mystery_characters(count)]: an array of one object, whose
    [count] is the number of character rows of the package. *)
Definition characters_count (d : Database) (p : PackageId) : list CountEntry :=
  [{| count := length (Client.characters_of d p) |}].

(** The row read by [getPackageGenerationStatus], with the embedded
    [characters]. *)
Record StatusData := {
  row : PackageRow;
  characters : list CountEntry
}.

Definition hasContent (d : StatusData) : bool :=
  Js.present (title (content (row d))) && Js.present (host_guide (content (row d))).

Definition hasCharacters (d : StatusData) : bool :=
  (0 <? length (characters d))%nat.

Definition contentComplete (d : StatusData) : bool :=
  hasContent d && hasCharacters d.

Definition isSome {A} (o : option A) : bool :=
  match o with
  | Some _ => true
  | None => false
  end.

Section Calls.
Variable faults : Faults.
Variable now : Time.

Local Open Scope async_scope.

Definition fetch_status_data (mysteryId : string)
  : Async World (Reply StatusData) :=
  reply <- Client.select_latest_package faults StatusFetch mysteryId ;;
  fun w =>
    (Returned
       {| data :=
            match data reply with
            | Some r =>
                Some {| row := r; characters := characters_count (db w) (id r) |}
            | None => None
            end;
          reply_error := reply_error reply |}, w).

(** [getPackageGenerationStatus(mysteryId)] *)
Definition getPackageGenerationStatus (mysteryId : string)
  : Async World GenerationStatus :=
  try_catch
    (reply <- fetch_status_data mysteryId ;;
     match reply_error reply with
     | Some e => throw ("Failed to fetch generation status: " ++ message e)
     | None =>
         match data reply with
         | None => ret defaultStatus
         | Some d =>
             currentStatus <-
               (let currentStatus := generation_status (row d) in
                if contentComplete d && json_truthy currentStatus
                   && negb (status_is currentStatus "completed")
                then
                  updateError <-
                    Client.write faults StatusCorrect
                      (UpdatePackageByConversation mysteryId
                         (SObject completedStatus_json))
                      (Client.set_packages
                         (Client.update_where
                            (Client.of_conversation mysteryId)
                            (fun r =>
                               with_job r (SObject completedStatus_json)
                                 (generation_started_at r) (Some now) now))) ;;
                  match updateError with
                  | Some _ => ret currentStatus
                  | None => ret (SObject completedStatus_json)
                  end
                else ret currentStatus) ;;
             match currentStatus with
             | SObject o => ret (normalizedStatus o)
             | _ =>
                 if isSome (generation_completed_at (row d)) || contentComplete d
                 then ret completedStatus
                 else if isSome (generation_started_at (row d))
                      then ret inProgressStatus
                      else ret notStartedStatus
             end
         end
     end)
    (fun _ => ret errorStatus).

(** *** [generateCompletePackage] *)

Definition initialStatus : Stored.Status :=
  {| Stored.status := Some "in_progress";
     Stored.progress := Some 10%Z;
     Stored.currentStep := Some "Sending to external generation service...";
     Stored.error := None;
     Stored.resumable := None;
     Stored.sections :=
       Some [("hostGuide", false); ("characters", false); ("clues", false);
             ("inspectorScript", false); ("characterMatrix", false);
             ("solution", false)] |}.

Definition triggerFailedStatus (reason : string) : Stored.Status :=
  {| Stored.status := Some "failed";
     Stored.progress := Some 0%Z;
     Stored.currentStep := Some "Failed to trigger generation";
     Stored.error := Some reason;
     Stored.resumable := Some true;
     Stored.sections := None |}.

Definition processingStatus : Stored.Status :=
  {| Stored.status := Some "in_progress";
     Stored.progress := Some 20%Z;
     Stored.currentStep := Some "Processing by external service...";
     Stored.error := None;
     Stored.resumable := None;
     Stored.sections := None |}.

Definition unexpectedFailedStatus (reason : string) : Stored.Status :=
  {| Stored.status := Some "failed";
     Stored.progress := Some 0%Z;
     Stored.currentStep := Some "Unexpected error during generation";
     Stored.error := Some reason;
     Stored.resumable := Some true;
     Stored.sections := None |}.

(** [.update({generation_status: s, updated_at: now}).eq("id", p)] *)
Definition update_status_by_id (site : Site) (p : PackageId) (s : Stored.Status)
  : Async World (option ClientError) :=
  Client.write faults site (UpdatePackageById p (SObject s))
    (Client.set_packages
       (Client.update_where (fun r => (id r =? p)%nat)
          (fun r =>
             with_job r (SObject s) (generation_started_at r)
               (generation_completed_at r) now))).

(** The local [let packageId] of [generateCompletePackage], assigned in
    the [try] block and read in the [catch] block. *)
Record Frame := {
  packageId : option PackageId;
  world : World
}.

Definition in_world {A} (c : Async World A) : Async Frame A :=
  fun fr =>
    let (o, w) := c (world fr) in
    (o, {| packageId := packageId fr; world := w |}).

Definition assign_packageId (p : PackageId) : Async Frame unit :=
  fun fr => (Returned tt, {| packageId := Some p; world := world fr |}).

Definition read_packageId : Async Frame (option PackageId) :=
  fun fr => (Returned (packageId fr), fr).

(** The duplicate-generation guard: the value returned at once, if any.
    An error of the read is logged and the guard is passed. *)
Definition duplicate_guard (existing : Reply PackageRow) : option string :=
  match reply_error existing with
  | Some _ => None
  | None =>
      match data existing with
      | Some existingPackage =>
          if status_is (generation_status existingPackage) "completed"
          then Some "already_completed"
          else if status_is (generation_status existingPackage) "in_progress"
               then Some "already_in_progress"
               else None
      | None => None
      end
  end.

(** "Create or update mystery_packages record with initial status": the
    value assigned to [packageId]. *)
Definition create_or_update_package (mysteryId : string) : Async Frame PackageId :=
  check <- in_world (Client.select_latest_package faults GenCheckPackage mysteryId) ;;
  match reply_error check with
  | Some checkError =>
      if negb (code checkError =? "PGRST116")
      then throw "Failed to check existing package"
      else ret tt
  | None => ret tt
  end ;;;
  match data check with
  | Some packageData =>
      assign_packageId (id packageData) ;;;
      in_world
        (Client.write faults GenInitialUpdate
           (UpdatePackageById (id packageData) (SObject initialStatus))
           (Client.set_packages
              (Client.update_where
                 (fun r => (id r =? id packageData)%nat)
                 (fun r =>
                    with_job r (SObject initialStatus) (Some now)
                      (generation_completed_at r) now)))) ;;;
      ret (id packageData)
  | None =>
      created <-
        in_world
          (Client.insert_package faults GenCreatePackage
             (InsertPackage mysteryId (SObject initialStatus))
             (fun new_id =>
                {| id := new_id;
                   conversation_id := mysteryId;
                   content := no_content;
                   generation_status := SObject initialStatus;
                   generation_started_at := Some now;
                   generation_completed_at := None;
                   created_at := now;
                   updated_at := now |})) ;;
      match reply_error created, data created with
      | None, Some newPackage =>
          assign_packageId newPackage ;;; ret newPackage
      | _, _ => throw "Failed to create package record"
      end
  end.

(** "Call Supabase Edge Function instead of direct webhook", and the rest
    of the [try] block, [p] being the value of [packageId]. *)
Definition call_trigger (p : PackageId) (mysteryId : string) (testMode : bool)
  : Async Frame (option string) :=
  webhookError <-
    in_world
      (Client.functions_invoke faults GenWebhook "mystery-webhook-trigger"
         mysteryId testMode) ;;
  match webhookError with
  | Some e =>
      in_world (update_status_by_id GenFailedUpdate p
                  (triggerFailedStatus (message e))) ;;;
      throw ("Failed to trigger generation: " ++ message e)
  | None =>
      in_world (update_status_by_id GenProgressUpdate p processingStatus) ;;;
      ret None
  end.

(** The [try] block; [Some s] is a [return s] from inside it.  The
    conversation is read for its existence only: the text and the messages
    the source builds from it are used by nothing that follows. *)
Definition generate_try (mysteryId : string) (testMode : bool)
  : Async Frame (option string) :=
  existing <- in_world (Client.select_latest_package faults GenExistingPackage mysteryId) ;;
  match duplicate_guard existing with
  | Some answer => ret (Some answer)
  | None =>
      conversationReply <- in_world (Client.select_conversation faults GenConversation mysteryId) ;;
      if isSome (reply_error conversationReply) || negb (isSome (data conversationReply))
      then throw "Failed to fetch conversation data"
      else
        p <- create_or_update_package mysteryId ;;
        call_trigger p mysteryId testMode
  end.

(** The [catch] block. *)
Definition generate_catch (e : string) : Async Frame (option string) :=
  p <- read_packageId ;;
  match p with
  | Some p =>
      in_world (update_status_by_id GenCatchUpdate p (unexpectedFailedStatus e)) ;;;
      ret tt
  | None => ret tt
  end ;;;
  throw ("Package generation failed: " ++ e).

(** [generateCompletePackage(mysteryId, testMode)] *)
Definition generateCompletePackage (mysteryId : string) (testMode : bool)
  : Async World string :=
  fun w =>
    let (o, fr) :=
      (returned <- try_catch (generate_try mysteryId testMode) generate_catch ;;
       match returned with
       | Some answer => ret answer
       | None => ret "Package generation started successfully"
       end) {| packageId := None; world := w |} in
    (o, world fr).

(** [resumePackageGeneration(mysteryId)] *)
Definition resumePackageGeneration (mysteryId : string) : Async World string :=
  generateCompletePackage mysteryId false.

(** *** [saveStructuredPackageData] *)

Definition savedStatus : Stored.Status :=
  {| Stored.status := Some "completed";
     Stored.progress := Some 100%Z;
     Stored.currentStep := Some "Package generation completed";
     Stored.error := None;
     Stored.resumable := None;
     Stored.sections := None |}.

Definition normalize (jsonData : PackageJson) : Normalized.Data :=
  let o := properties jsonData in
  {| Normalized.title := Js.get o "title";
     Normalized.gameOverview := Js.or (Js.get o "gameOverview") (Js.get o "game_overview");
     Normalized.hostGuide := Js.or (Js.get o "hostGuide") (Js.get o "host_guide");
     Normalized.materials := Js.get o "materials";
     Normalized.preparation :=
       Js.or (Js.get o "preparation") (Js.get o "preparation_instructions");
     Normalized.timeline := Js.get o "timeline";
     Normalized.hostingTips := Js.or (Js.get o "hostingTips") (Js.get o "hosting_tips");
     Normalized.evidenceCards :=
       Js.or (Js.get o "evidenceCards") (Js.get o "evidence_cards");
     Normalized.relationshipMatrix :=
       Js.or (Js.get o "relationshipMatrix") (Js.get o "relationship_matrix");
     Normalized.detectiveScript :=
       Js.or (Js.get o "detectiveScript") (Js.get o "detective_script");
     Normalized.characters :=
       match character_list jsonData with
       | Some l => l
       | None => []
       end |}.

(** The content columns of the payload, sent over a row whose content
    columns hold [old]. *)
Definition saved_content (n : Normalized.Data) (old : PackageContent)
  : PackageContent :=
  {| title := Js.column_update (Normalized.title n) (title old);
     game_overview := Js.column_update (Normalized.gameOverview n) (game_overview old);
     host_guide := Js.column_update (Normalized.hostGuide n) (host_guide old);
     materials := Js.column (Js.or (Normalized.materials n) Js.Null);
     preparation_instructions := Js.column (Js.or (Normalized.preparation n) Js.Null);
     timeline := Js.column (Js.or (Normalized.timeline n) Js.Null);
     hosting_tips := Js.column (Js.or (Normalized.hostingTips n) Js.Null);
     evidence_cards := Js.column (Js.or (Normalized.evidenceCards n) Js.Null);
     relationship_matrix := Js.column (Js.or (Normalized.relationshipMatrix n) Js.Null);
     detective_script := Js.column (Js.or (Normalized.detectiveScript n) Js.Null) |}.

(** [a || b || null] as a column value. *)
Definition either (char : Js.Object) (a b : string) : option string :=
  Js.column (Js.or (Js.or (Js.get char a) (Js.get char b)) Js.Null).

(** [a || null] as a column value. *)
Definition only (char : Js.Object) (a : string) : option string :=
  Js.column (Js.or (Js.get char a) Js.Null).

(** One element of [charactersToInsert]. *)
Definition character_row (p : PackageId) (char : Js.Object) : CharacterRow :=
  {| package_id := p;
     character_name := Js.column (Js.or (Js.get char "name") (Js.get char "character_name"));
     description := only char "description";
     background := only char "background";
     secret := only char "secret";
     introduction := only char "introduction";
     rumors := only char "rumors";
     round2_questions := either char "round2Questions" "round2_questions";
     round2_innocent := either char "round2Innocent" "round2_innocent";
     round2_guilty := either char "round2Guilty" "round2_guilty";
     round2_accomplice := either char "round2Accomplice" "round2_accomplice";
     round3_questions := either char "round3Questions" "round3_questions";
     round3_innocent := either char "round3Innocent" "round3_innocent";
     round3_guilty := either char "round3Guilty" "round3_guilty";
     round3_accomplice := either char "round3Accomplice" "round3_accomplice";
     round4_questions := either char "round4Questions" "round4_questions";
     round4_innocent := either char "round4Innocent" "round4_innocent";
     round4_guilty := either char "round4Guilty" "round4_guilty";
     round4_accomplice := either char "round4Accomplice" "round4_accomplice";
     final_innocent := either char "finalInnocent" "final_innocent";
     final_guilty := either char "finalGuilty" "final_guilty";
     final_accomplice := either char "finalAccomplice" "final_accomplice";
     character_created_at := now;
     character_updated_at := now |}.

Definition purchased (c : ConversationRow) : ConversationRow :=
  {| conversation := conversation c;
     needs_package_generation := false;
     has_complete_package := true;
     is_paid := true;
     display_status := Some "purchased";
     conversation_status := conversation_status c;
     conversation_updated_at := now |}.

(** Throw [prefix ++ error.message] when the call answered an error. *)
Definition throw_on (prefix : string) (e : option ClientError)
  : Async World unit :=
  match e with
  | Some e => throw (prefix ++ message e)
  | None => ret tt
  end.

(** [saveStructuredPackageData(mysteryId, jsonData)]; [None] is a
    falsy [jsonData]. *)
Definition saveStructuredPackageData (mysteryId : string)
  (jsonData : option PackageJson) : Async World unit :=
  try_catch
    (match jsonData with
     | None => throw "No JSON data provided"
     | Some jsonData =>
         let normalizedData := normalize jsonData in
         fetched <- Client.select_latest_package faults SaveFetchPackage mysteryId ;;
         throw_on "Failed to fetch package record: " (reply_error fetched) ;;;
         p <-
           match data fetched with
           | None =>
               created <-
                 Client.insert_package faults SaveCreatePackage
                   (InsertPackage mysteryId (SObject savedStatus))
                   (fun new_id =>
                      {| id := new_id;
                         conversation_id := mysteryId;
                         content := saved_content normalizedData no_content;
                         generation_status := SObject savedStatus;
                         generation_started_at := None;
                         generation_completed_at := Some now;
                         created_at := now;
                         updated_at := now |}) ;;
               match reply_error created, data created with
               | None, Some newPackage => ret newPackage
               | Some createError, _ =>
                   throw ("Failed to create package record: " ++ message createError)
               | None, None => throw "Failed to create package record: undefined"
               end
           | Some packageData =>
               upsertError <-
                 Client.write faults SaveUpdatePackage
                   (UpdatePackageById (id packageData) (SObject savedStatus))
                   (Client.set_packages
                      (Client.update_where
                         (fun r => (id r =? id packageData)%nat)
                         (fun r =>
                            {| id := id r;
                               conversation_id := conversation_id r;
                               content := saved_content normalizedData (content r);
                               generation_status := SObject savedStatus;
                               generation_started_at := generation_started_at r;
                               generation_completed_at := Some now;
                               created_at := created_at r;
                               updated_at := now |}))) ;;
               throw_on "Failed to save package data: " upsertError ;;;
               ret (id packageData)
           end ;;
         match Normalized.characters normalizedData with
         | [] => ret tt
         | _ :: _ =>
             deleteError <-
               Client.write faults SaveDeleteCharacters (DeleteCharacters p)
                 (Client.set_characters
                    (filter (fun c => negb (package_id c =? p)%nat))) ;;
             throw_on "Failed to delete existing characters: " deleteError ;;;
             let charactersToInsert :=
               map (character_row p) (Normalized.characters normalizedData) in
             charactersError <-
               Client.write faults SaveInsertCharacters
                 (InsertCharacters charactersToInsert)
                 (Client.set_characters
                    (fun rows => (rows ++ charactersToInsert)%list)) ;;
             throw_on "Failed to save characters data: " charactersError
         end ;;;
         conversationError <-
           Client.write faults SaveUpdateConversation (UpdateConversation mysteryId)
             (Client.set_conversations
                (Client.update_where (fun c => conversation c =? mysteryId)
                   purchased)) ;;
         throw_on "Failed to update conversation status: " conversationError
     end)
    (fun e => throw e).

End Calls.

End Service.

(** ** The status check of the mystery view *)

Module View.

(** The state of the view read or set by [checkGenerationStatus].  The
    package data and the characters loaded by
    [fetchStructuredPackageData] when completion is first seen, the
    notifications shown and the reload of the page are not part of it.
    [captured] is the value of [generationStatus] that the callback
    [checkGenerationStatus] in use has in its closure: the callback is
    memoised, and of the state it depends on [generationStatus?.status]
    only. *)
Record State := {
  generationStatus : option GenerationStatus;
  captured : option GenerationStatus;
  generating : bool;
  lastStatusCheck : Time;
  packageReadyNotified : bool
}.

(** [generationStatus?.status], the dependency of the callback. *)
Definition status_dependency (g : option GenerationStatus) : option string :=
  option_map status g.

(** The two values of a dependency are the same. *)
Definition same_dependency (a b : option string) : bool :=
  match a, b with
  | Some x, Some y => x =? y
  | None, None => true
  | _, _ => false
  end.

(** What the callback of the render that follows
    [setGenerationStatus(s)] has in its closure: the callback is created
    anew, over the new value, when [generationStatus?.status] has
    changed, and is kept otherwise. *)
Definition recaptured (v : State) (s : GenerationStatus) : option GenerationStatus :=
  if same_dependency (status_dependency (generationStatus v)) (Some (status s))
  then captured v
  else Some s.

Definition completedStatus : GenerationStatus :=
  {| status := "completed";
     progress := 100;
     currentStep := "Package generation completed";
     resumable := Some false;
     sections := [("hostGuide", true); ("characters", true); ("clues", true)] |}.

Definition completedStatus_json : Stored.Status :=
  {| Stored.status := Some "completed";
     Stored.progress := Some 100%Z;
     Stored.currentStep := Some "Package generation completed";
     Stored.error := None;
     Stored.resumable := Some false;
     Stored.sections :=
       Some [("hostGuide", true); ("characters", true); ("clues", true)] |}.

Definition hasActualContent (packageData : option PackageRow) : bool :=
  match packageData with
  | Some p =>
      Js.present (title (content p)) || Js.present (host_guide (content p))
      || Service.isSome (generation_completed_at p)
  | None => false
  end.

Definition conversationIndicatesComplete (conversationData : option ConversationRow)
  : bool :=
  match conversationData with
  | Some c => has_complete_package c || is_paid c
  | None => false
  end.

Definition packageStatusComplete (packageData : option PackageRow) : bool :=
  match packageData with
  | Some p => Service.status_is (generation_status p) "completed"
  | None => false
  end.

(** [previousStatus === s], [previousStatus] being
    [generationStatus?.status] as the callback has it. *)
Definition previously (v : State) (s : string) : bool :=
  match captured v with
  | Some g => status g =? s
  | None => false
  end.

Definition marked_purchased (c : ConversationRow) : ConversationRow :=
  {| conversation := conversation c;
     needs_package_generation := false;
     has_complete_package := true;
     is_paid := true;
     display_status := Some "purchased";
     conversation_status := Some "purchased";
     conversation_updated_at := conversation_updated_at c |}.

Section Calls.
Variable faults : Faults.
Variable now : Time.

(** [checkGenerationStatus()]; [mysteryId] is the route parameter [id]
    of the view. *)
Definition checkGenerationStatus (mysteryId : option string) (v : State)
  (w : World) : option GenerationStatus * State * World :=
  match mysteryId with
  | None => (None, v, w)
  | Some mysteryId =>
      if (now - lastStatusCheck v <? 10000)%Z
      then (captured v, v, w)
      else
        let packageData :=
          data (Client.read_latest_package faults ViewFetchPackage (db w) mysteryId) in
        let conversationData :=
          data (Client.read_conversation faults ViewFetchConversation (db w) mysteryId) in
        if hasActualContent packageData
           || conversationIndicatesComplete conversationData
           || packageStatusComplete packageData
        then
          let w1 :=
            match packageData with
            | Some p =>
                snd (Client.write faults ViewForceUpdate
                       (UpdatePackageById (id p)
                          (SObject completedStatus_json))
                       (Client.set_packages
                          (Client.update_where
                             (fun r => (id r =? id p)%nat)
                             (fun r =>
                                Service.with_job r (SObject completedStatus_json)
                                  (generation_started_at r)
                                  (generation_completed_at r) (updated_at r))))
                       w)
            | None => w
            end in
          if previously v "completed"
          then
            (Some completedStatus,
             {| generationStatus := Some completedStatus;
                captured := recaptured v completedStatus;
                generating := generating v;
                lastStatusCheck := now;
                packageReadyNotified := packageReadyNotified v |},
             w1)
          else
            (Some completedStatus,
             {| generationStatus := Some completedStatus;
                captured := recaptured v completedStatus;
                generating := false;
                lastStatusCheck := now;
                packageReadyNotified := true |},
             snd (Client.write faults ViewUpdateConversation (UpdateConversation mysteryId)
                    (Client.set_conversations
                       (Client.update_where (fun c => conversation c =? mysteryId)
                          marked_purchased))
                    w1))
        else
          match Service.getPackageGenerationStatus faults now mysteryId w with
          | (Returned s, w1) =>
              (Some s,
               {| generationStatus := Some s;
                  captured := recaptured v s;
                  generating :=
                    if (status s =? "failed") && negb (previously v "failed")
                    then false
                    else generating v;
                  lastStatusCheck := now;
                  packageReadyNotified := packageReadyNotified v |},
               w1)
          | (Thrown _, w1) =>
              (None,
               {| generationStatus := generationStatus v;
                  captured := captured v;
                  generating := generating v;
                  lastStatusCheck := now;
                  packageReadyNotified := packageReadyNotified v |},
               w1)
          end
  end.

End Calls.

(** [title.replace(/\*\*/g, '')]: every pair of stars is removed, scanning
    from the left. *)
Fixpoint remove_bold (s : string) : string :=
  match s with
  | String "*" (String "*" rest) => remove_bold rest
  | String c rest => String c (remove_bold rest)
  | EmptyString => EmptyString
  end.

(** [a || b] for a text that may be absent and a text. *)
Definition or_else (a : option string) (b : string) : string :=
  match a with
  | Some text => if text =? "" then b else text
  | None => b
  end.

(** [getMysteryTitle()]: [aiGeneratedTitle] is what [extractedTitle()]
    returns, [mysteryTitle] is [mystery?.title] and [theme] is
    [mystery?.mystery_data?.theme]. *)
Definition getMysteryTitle (aiGeneratedTitle mysteryTitle theme : option string)
  : string :=
  remove_bold
    (or_else aiGeneratedTitle (or_else mysteryTitle (or_else theme "Mystery Package"))).

End View.


(** ** The character guide of the package tab view *)

Module TabView.

(** The line feed character. *)
Definition lf : ascii := ascii_of_nat 10.

(** A blank line after a paragraph: two line feeds. *)
Definition blank_line : string := String lf (String lf "").

(** [character.relationships]: absent, a text, or an array, each of its
    items given by its string form. *)
Inductive Relationships :=
| NoRelationships
| RelationshipsText (s : string)
| RelationshipsArray (items : list string).

(** Modelled from the spec: the interface [MysteryCharacter]
    (interfaces/mystery) is not among the sources.  The fields are those
    [buildCharacterGuideContent] reads: the name of the character, and
    optional text for the others, [None] being an absent field. *)
Record MysteryCharacter := {
  character_name : string;
  description : option string;
  background : option string;
  relationships : Relationships;
  rumors : option string;
  secret : option string;
  introduction : option string;
  round2_questions : option string;
  round2_innocent : option string;
  round2_guilty : option string;
  round3_questions : option string;
  round3_innocent : option string;
  round3_guilty : option string;
  round4_questions : option string;
  round4_innocent : option string;
  round4_guilty : option string;
  final_innocent : option string;
  final_guilty : option string
}.

(** [if (field) { content += `${field}\n\n`; }] *)
Definition add (content : string) (field : option string) : string :=
  match field with
  | Some text => if text =? "" then content else content ++ text ++ blank_line
  | None => content
  end.

(** The same for [relationships]; an array is truthy even when empty, and
    its string form joins the items with commas. *)
Definition add_relationships (content : string) (r : Relationships) : string :=
  match r with
  | NoRelationships => content
  | RelationshipsText text => if text =? "" then content else content ++ text ++ blank_line
  | RelationshipsArray items => content ++ String.concat "," items ++ blank_line
  end.

(** [content.replace(/\\n/g, '\n')]: every backslash followed by [n]
    becomes a line feed, scanning from the left. *)
Fixpoint unescape_newlines (s : string) : string :=
  match s with
  | String "\" (String "n" rest) => String lf (unescape_newlines rest)
  | String c rest => String c (unescape_newlines rest)
  | EmptyString => EmptyString
  end.

(** [buildCharacterGuideContent(character)] *)
Definition buildCharacterGuideContent (character : MysteryCharacter) : string :=
  let content := "# " ++ character_name character ++ " - Character Guide" ++ blank_line in
  let content := add content (description character) in
  let content := add content (background character) in
  let content := add_relationships content (relationships character) in
  let content := add content (rumors character) in
  let content := add content (secret character) in
  let content := add content (introduction character) in
  let content := add content (round2_questions character) in
  let content := add content (round2_innocent character) in
  let content := add content (round2_guilty character) in
  let content := add content (round3_questions character) in
  let content := add content (round3_innocent character) in
  let content := add content (round3_guilty character) in
  let content := add content (round4_questions character) in
  let content := add content (round4_innocent character) in
  let content := add content (round4_guilty character) in
  let content := add content (final_innocent character) in
  let content := add content (final_guilty character) in
  unescape_newlines content.

(** The texts [buildCharacterGuideContent] appends, in its order: every
    field that is present and not empty, and the string form of
    [relationships] when it is truthy. *)
Definition text_of (field : option string) : list string :=
  match field with
  | Some text => if text =? "" then [] else [text]
  | None => []
  end.

Definition relationships_text (r : Relationships) : list string :=
  match r with
  | NoRelationships => []
  | RelationshipsText text => if text =? "" then [] else [text]
  | RelationshipsArray items => [String.concat "," items]
  end.

Definition paragraphs (character : MysteryCharacter) : list string :=
  (text_of (description character)
   ++ text_of (background character)
   ++ relationships_text (relationships character)
   ++ text_of (rumors character)
   ++ text_of (secret character)
   ++ text_of (introduction character)
   ++ text_of (round2_questions character)
   ++ text_of (round2_innocent character)
   ++ text_of (round2_guilty character)
   ++ text_of (round3_questions character)
   ++ text_of (round3_innocent character)
   ++ text_of (round3_guilty character)
   ++ text_of (round4_questions character)
   ++ text_of (round4_innocent character)
   ++ text_of (round4_guilty character)
   ++ text_of (final_innocent character)
   ++ text_of (final_guilty character))%list.

(** [MysteryPackageData], the [packageData] property of the tab view. *)
Module PackageData.
Record t := {
  title : option string;
  gameOverview : option string;
  hostGuide : option string;
  materials : option string;
  preparation : option string;
  timeline : option string;
  hostingTips : option string;
  evidenceCards : option string;
  relationshipMatrix : option string;
  detectiveScript : option string
}.
End PackageData.

(** [a || b] for a text that may be absent and a text. *)
Definition or_else (a : option string) (b : string) : string :=
  match a with
  | Some text => if text =? "" then b else text
  | None => b
  end.

(** [buildCompleteHostGuide()], [packageData] and [mysteryTitle] being
    properties of the view.  The [title] it computes first is used by
    nothing that follows. *)
Definition buildCompleteHostGuide (packageData : option PackageData.t)
  (mysteryTitle : string) : string :=
  match packageData with
  | None => ""
  | Some d =>
      let title := or_else (PackageData.title d)
                     (if mysteryTitle =? "" then "Mystery" else mysteryTitle) in
      let content := "# Host Guide" ++ blank_line in
      let content := add content (PackageData.gameOverview d) in
      let content := add content (PackageData.materials d) in
      let content := add content (PackageData.preparation d) in
      let content := add content (PackageData.timeline d) in
      let content := add content (PackageData.hostGuide d) in
      let content := add content (PackageData.hostingTips d) in
      content
  end.

(** The memo [hostGuide]; [extracted] is what [extractHostGuide()] finds in
    the package content. *)
Definition hostGuide (packageData : option PackageData.t) (mysteryTitle : string)
  (extracted : string) : string :=
  match packageData with
  | Some _ => buildCompleteHostGuide packageData mysteryTitle
  | None =>
      match packageData with
      | Some d =>
          match PackageData.hostGuide d with
          | Some text => if text =? "" then extracted else text
          | None => extracted
          end
      | None => extracted
      end
  end.

(** The memo [detectiveScript]; [extracted] is what
    [extractInspectorScript()] finds. *)
Definition detectiveScript (packageData : option PackageData.t) (extracted : string)
  : string :=
  match packageData with
  | Some d => or_else (PackageData.detectiveScript d) extracted
  | None => extracted
  end.

(** [arr.join(sep)] *)
Fixpoint join (sep : string) (items : list string) : string :=
  match items with
  | [] => ""
  | [x] => x
  | x :: rest => x ++ sep ++ join sep rest
  end.

(** The memo [evidenceCards]; [clues] is what [extractClues()] finds, the
    title and the content of each. *)
Definition evidenceCards (packageData : option PackageData.t)
  (clues : list (string * string)) : string :=
  let stored :=
    match packageData with
    | Some d => or_else (PackageData.evidenceCards d) ""
    | None => ""
    end in
  if negb (stored =? "") then stored
  else
    match clues with
    | [] => ""
    | _ :: _ =>
        join (blank_line ++ "---" ++ blank_line)
          (map (fun clue => "## " ++ fst clue ++ blank_line ++ snd clue) clues)
    end.

(** Truthiness of the memo [canShareMystery]. *)
Definition canShareMystery (packageData : option PackageData.t)
  (shownHostGuide shownDetectiveScript shownEvidenceCards : string)
  (characters : list MysteryCharacter) : bool :=
  (match packageData with
   | Some _ =>
       negb (shownHostGuide =? "") || negb (shownDetectiveScript =? "")
       || negb (shownEvidenceCards =? "")
   | None => false
   end)
  || (0 <? length characters)%nat.

End TabView.

(** ** The e-mail edge functions *)

Module Email.

(** The request: its method, and what [await req.json()] followed by the
    destructuring gives, either the object or the message of the error
    thrown. *)
Record Request := {
  method : string;
  json : string + Js.Object
}.

(** The answer of the e-mail provider to one [fetch]: the call throws, or
    there is a response, whose [json()] may throw in turn. *)
Inductive FetchOutcome :=
| NetworkError (reason : string)
| HttpResponse (ok : bool) (status : nat) (text : string) (json_error : option string).

Inductive Body :=
| Plain (text : string)
| Json (success : bool) (text : string).

Record Response := {
  status : nat;
  body : Body
}.

(** The status of [new Response(body, init)] when [init] gives none. *)
Definition default_status : nat := 200.

(** [`${n}`] for a status code. *)
Definition decimal (n : nat) : string :=
  DecimalString.NilZero.string_of_uint (Nat.to_uint n).

(** [!resendApiKey] is false. *)
Definition configured (key : option string) : bool := Js.present key.

(** send-character-email: the handler given to [serve].
    [resendApiKey] is [Deno.env.get("RESEND_API_KEY")], [resend] the
    outcome of the one call to the provider. *)
Definition send_character_email (resendApiKey : option string)
  (resend : FetchOutcome) (req : Request) : Response :=
  if method req =? "OPTIONS"
  then {| status := default_status; body := Plain "ok" |}
  else
    let attempt : Outcome string :=
      match json req with
      | inl reason => Thrown reason
      | inr _ =>
          if negb (configured resendApiKey)
          then Thrown "RESEND_API_KEY not configured"
          else
            match resend with
            | NetworkError reason => Thrown reason
            | HttpResponse ok code _ json_error =>
                if negb ok
                then Thrown ("Failed to send email: " ++ decimal code)
                else
                  match json_error with
                  | Some reason => Thrown reason
                  | None => Returned "Email sent successfully"
                  end
            end
      end in
    match attempt with
    | Returned m => {| status := default_status; body := Json true m |}
    | Thrown reason => {| status := 200; body := Json false reason |}
    end.

(** [sendEmail] of send-host-email, for one of the two messages. *)
Definition sendEmail (resend : FetchOutcome) : Outcome unit :=
  match resend with
  | NetworkError reason => Thrown reason
  | HttpResponse ok code text json_error =>
      if negb ok
      then Thrown ("Failed to send email: " ++ decimal code ++ " - " ++ text)
      else
        match json_error with
        | Some reason => Thrown reason
        | None => Returned tt
        end
  end.

(** [await Promise.all([a, b])]: when both reject, the rejection is the
    one that came first. *)
Definition promise_all (a b : Outcome unit) (b_rejects_first : bool) : Outcome unit :=
  match a, b with
  | Thrown ra, Thrown rb => Thrown (if b_rejects_first then rb else ra)
  | Thrown ra, Returned _ => Thrown ra
  | Returned _, Thrown rb => Thrown rb
  | Returned _, Returned _ => Returned tt
  end.

(** send-host-email: the handler given to [serve]. *)
Definition send_host_email (resendApiKey : option string)
  (guide detective : FetchOutcome) (detective_first : bool) (req : Request)
  : Response :=
  if method req =? "OPTIONS"
  then {| status := default_status; body := Plain "ok" |}
  else
    let attempt : Outcome string :=
      match json req with
      | inl reason => Thrown reason
      | inr _ =>
          if negb (configured resendApiKey)
          then Thrown "RESEND_API_KEY not configured"
          else
            match promise_all (sendEmail guide) (sendEmail detective) detective_first with
            | Thrown reason => Thrown reason
            | Returned _ => Returned "Host emails sent successfully"
            end
      end in
    match attempt with
    | Returned m => {| status := default_status; body := Json true m |}
    | Thrown reason => {| status := 200; body := Json false reason |}
    end.

(** The e-mail was not sent, or the handler could not tell that it was. *)
Definition failed (r : Response) : bool :=
  match body r with
  | Json false _ => true
  | _ => false
  end.

End Email.


(** ** The inference of the specification *)

Module Specified.

(** The fallback of the specification, in its words: [completedAt]
    present, or [contentComplete], or [has_complete_package] or [is_paid]
    infers [completed]; else [startedAt] present infers [in_progress];
    else [not_started]. *)
Definition inferred_status (completedAt startedAt : option Time)
  (contentComplete has_complete_package is_paid : bool) : string :=
  if Service.isSome completedAt || contentComplete || has_complete_package || is_paid
  then "completed"
  else if Service.isSome startedAt then "in_progress" else "not_started".

End Specified.

(** ** Sample stores *)

Module Samples.

Definition timeout : ClientError := {| message := "timeout"; code := "504" |}.

(** Title "X", host guide "Y", nothing else. *)
Definition contentXY : PackageContent :=
  {| title := Some "X"; game_overview := None; host_guide := Some "Y";
     materials := None; preparation_instructions := None; timeline := None;
     hosting_tips := None; evidence_cards := None;
     relationship_matrix := None; detective_script := None |}.

Definition job (p : PackageId) (conv : string) (c : PackageContent) (s : StatusJson)
  (started completed : option Time) (updated : Time) : PackageRow :=
  {| id := p; conversation_id := conv; content := c; generation_status := s;
     generation_started_at := started; generation_completed_at := completed;
     created_at := 1%Z; updated_at := updated |}.

Definition guest (p : PackageId) (name : string) : CharacterRow :=
  Service.character_row 2%Z p [("name", Js.Str name)].

Definition talk (conv : string) (paid : bool) : ConversationRow :=
  {| conversation := conv; needs_package_generation := true;
     has_complete_package := false; is_paid := paid; display_status := None;
     conversation_status := None; conversation_updated_at := 1%Z |}.

Definition store (rows : list PackageRow) (guests : list CharacterRow)
  (talks : list ConversationRow) : World :=
  {| db := {| mystery_packages := rows; mystery_characters := guests;
              conversations := talks |};
     log := [] |}.

Definition three_guests : list CharacterRow :=
  [guest 1 "Ann"; guest 1 "Bob"; guest 1 "Cy"].

(** Status [in_progress], but title, host guide and three characters. *)
Definition drifted_row : PackageRow :=
  job 1 "c1" contentXY (SObject Service.processingStatus) (Some 2%Z) None 3%Z.

Definition drifted : World := store [drifted_row] three_guests [talk "c1" false].

(** Status [completed]. *)
Definition finished_row : PackageRow :=
  job 1 "c1" contentXY (SObject Service.completedStatus_json) (Some 2%Z) (Some 3%Z) 3%Z.

Definition finished : World := store [finished_row] three_guests [talk "c1" false].

(** Status [in_progress], no content yet. *)
Definition running_row : PackageRow :=
  job 1 "c1" Service.no_content (SObject Service.processingStatus) (Some 2%Z) None 3%Z.

Definition running : World := store [running_row] [] [talk "c1" false].

(** No package row at all for conversation "c2". *)
Definition fresh : World := store [] [] [talk "c2" false].

(** Status [failed] after a trigger failure, no content. *)
Definition failed_row : PackageRow :=
  job 1 "c1" Service.no_content
    (SObject (Service.unexpectedFailedStatus "Failed to trigger generation: timeout"))
    (Some 2%Z) None 3%Z.

Definition failed_once : World := store [failed_row] [] [talk "c1" false].

(** No [generation_status] at all, generation started, no content; the
    conversation is paid. *)
Definition paid_row : PackageRow :=
  job 1 "c1" Service.no_content SNull (Some 2%Z) None 3%Z.

Definition paid_started : World := store [paid_row] [] [talk "c1" true].

(** A [generation_status] object without a [status] property. *)
Definition unlabelled_status : Stored.Status :=
  {| Stored.status := None; Stored.progress := Some 30%Z;
     Stored.currentStep := None; Stored.error := None;
     Stored.resumable := None; Stored.sections := None |}.

(** That object, a start date, no completion date and no content; the
    conversation is neither paid nor complete. *)
Definition unlabelled_started_row : PackageRow :=
  job 1 "c1" Service.no_content (SObject unlabelled_status) (Some 2%Z) None 3%Z.

Definition unlabelled_started : World :=
  store [unlabelled_started_row] [] [talk "c1" false].

(** A [generation_status] object whose [status] is not a known value, a
    start date, no completion date and no content. *)
Definition unknown_status : Stored.Status :=
  {| Stored.status := Some "paused"; Stored.progress := Some 40%Z;
     Stored.currentStep := Some "Paused"; Stored.error := None;
     Stored.resumable := None; Stored.sections := None |}.

Definition unknown_started_row : PackageRow :=
  job 1 "c1" Service.no_content (SObject unknown_status) (Some 2%Z) None 3%Z.

Definition unknown_started : World :=
  store [unknown_started_row] [] [talk "c1" false].

Definition idle_view : View.State :=
  {| View.generationStatus := None; View.captured := None; View.generating := true;
     View.lastStatusCheck := 0%Z; View.packageReadyNotified := false |}.

(** The character {description: d, background: b, secret: s}. *)
Definition described (name d b s : string) : TabView.MysteryCharacter :=
  {| TabView.character_name := name;
     TabView.description := Some d;
     TabView.background := Some b;
     TabView.relationships := TabView.NoRelationships;
     TabView.rumors := None;
     TabView.secret := Some s;
     TabView.introduction := None;
     TabView.round2_questions := None;
     TabView.round2_innocent := None;
     TabView.round2_guilty := None;
     TabView.round3_questions := None;
     TabView.round3_innocent := None;
     TabView.round3_guilty := None;
     TabView.round4_questions := None;
     TabView.round4_innocent := None;
     TabView.round4_guilty := None;
     TabView.final_innocent := None;
     TabView.final_guilty := None |}.

(** The character {description: "D", background: "B", secret: "S"}. *)
Definition dbs (name : string) : TabView.MysteryCharacter :=
  {| TabView.character_name := name;
     TabView.description := Some "D";
     TabView.background := Some "B";
     TabView.relationships := TabView.NoRelationships;
     TabView.rumors := None;
     TabView.secret := Some "S";
     TabView.introduction := None;
     TabView.round2_questions := None;
     TabView.round2_innocent := None;
     TabView.round2_guilty := None;
     TabView.round3_questions := None;
     TabView.round3_innocent := None;
     TabView.round3_guilty := None;
     TabView.round4_questions := None;
     TabView.round4_innocent := None;
     TabView.round4_guilty := None;
     TabView.final_innocent := None;
     TabView.final_guilty := None |}.

(** Data to save: a title, a host guide and two characters. *)
Definition new_cast : PackageJson :=
  {| properties := [("title", Js.Str "T"); ("host_guide", Js.Str "H")];
     character_list :=
       Some [[("name", Js.Str "Dee"); ("secret", Js.Str "s1")];
             [("character_name", Js.Str "Eve"); ("round2_questions", Js.Str "q")]] |}.

Definition fetch_fails : Faults :=
  fun site => match site with StatusFetch => Some timeout | _ => None end.

Definition correction_fails : Faults :=
  fun site => match site with StatusCorrect => Some timeout | _ => None end.

Definition guard_read_fails : Faults :=
  fun site => match site with GenExistingPackage => Some timeout | _ => None end.

Definition webhook_fails : Faults :=
  fun site => match site with GenWebhook => Some timeout | _ => None end.

End Samples.

(** ** Occurrences in a text *)

Module Text.

(** A backslash followed by the letter n occurs in [s]. *)
Fixpoint has_escape (s : string) : bool :=
  match s with
  | String "\" (String "n" _) => true
  | String _ rest => has_escape rest
  | EmptyString => false
  end.

(** Two stars in a row occur in [s]. *)
Fixpoint has_bold (s : string) : bool :=
  match s with
  | String "*" (String "*" _) => true
  | String _ rest => has_bold rest
  | EmptyString => false
  end.

(** [s] starts with the character [c]. *)
Definition starts_with (c : ascii) (s : string) : bool :=
  match s with
  | String d _ => (d =? c)%char
  | EmptyString => false
  end.

(** [s] without its first character. *)
Definition tail (s : string) : string :=
  match s with
  | String _ rest => rest
  | EmptyString => EmptyString
  end.

(** [content] followed by [text] and a blank line. *)
Definition paragraph (content text : string) : string :=
  content ++ text ++ TabView.blank_line.

End Text.

(** ** Relations between stores *)

Module Effects.

(** [d'] is [d] after updates by id [p] of the table of packages that keep
    the id and the conversation of every row; the other tables are the
    same. *)
Definition updated_by_id (p : PackageId) (d d' : Database) : Prop :=
  mystery_characters d' = mystery_characters d
  /\ conversations d' = conversations d
  /\ exists change : PackageRow -> PackageRow,
       (forall x, id (change x) = id x /\ conversation_id (change x) = conversation_id x)
       /\ mystery_packages d'
          = Client.update_where (fun x => (id x =? p)%nat) change (mystery_packages d).

(** [d'] is [d] with one more package row, [row], for conversation [conv]
    under the fresh id. *)
Definition inserted (conv : string) (row : PackageRow) (d d' : Database) : Prop :=
  mystery_characters d' = mystery_characters d
  /\ conversations d' = conversations d
  /\ id row = Client.fresh_id (mystery_packages d)
  /\ conversation_id row = conv
  /\ mystery_packages d' = (mystery_packages d ++ [row])%list.

(** The outbound calls of a log, in order. *)
Definition calls (l : list Event) : list Event := filter is_outbound l.

End Effects.

(** ** Further sample stores *)

Module More.

(** A status the interface does not know, with complete content. *)
Definition paused_status : Stored.Status :=
  {| Stored.status := Some "paused"; Stored.progress := Some 40%Z;
     Stored.currentStep := Some "Paused"; Stored.error := None;
     Stored.resumable := None; Stored.sections := None |}.

Definition paused_row : PackageRow :=
  Samples.job 1 "c1" Samples.contentXY (SObject paused_status) (Some 2%Z) None 3%Z.

Definition paused : World :=
  Samples.store [paused_row] Samples.three_guests [Samples.talk "c1" false].

(** Two package rows for "c1", the older one failed, and one for "c2". *)
Definition old_row : PackageRow :=
  Samples.job 1 "c1" Service.no_content
    (SObject (Service.unexpectedFailedStatus "boom")) (Some 1%Z) None 2%Z.

Definition new_row : PackageRow :=
  Samples.job 2 "c1" Samples.contentXY (SObject Service.processingStatus)
    (Some 3%Z) None 4%Z.

Definition other_row : PackageRow :=
  Samples.job 3 "c2" Service.no_content (SObject Service.processingStatus)
    (Some 3%Z) None 5%Z.

Definition crowded : World :=
  Samples.store [old_row; new_row; other_row]
    [Samples.guest 2 "Ann"; Samples.guest 3 "Zed"]
    [Samples.talk "c1" false; Samples.talk "c2" false].

(** A view that shows the job in progress at 10 percent. *)
Definition watched_status : GenerationStatus :=
  {| status := "in_progress"; progress := 10;
     currentStep := "Initializing package generation...";
     resumable := None; sections := [] |}.

Definition watching_view : View.State :=
  {| View.generationStatus := Some watched_status;
     View.captured := Some watched_status; View.generating := true;
     View.lastStatusCheck := 0%Z; View.packageReadyNotified := false |}.

(** A view that already shows the completed status. *)
Definition completed_view : View.State :=
  {| View.generationStatus := Some View.completedStatus;
     View.captured := Some View.completedStatus; View.generating := false;
     View.lastStatusCheck := 0%Z; View.packageReadyNotified := true |}.

Definition save_read_fails : Faults :=
  fun site => match site with SaveFetchPackage => Some Samples.timeout | _ => None end.

Definition insert_fails : Faults :=
  fun site => match site with SaveInsertCharacters => Some Samples.timeout | _ => None end.

End More.

(** ** Properties *)

(** *** The latest row of a conversation *)

Lemma latest_in (rows : list PackageRow) (r : PackageRow) :
  Client.latest rows = Some r -> In r rows.
Proof.
  revert r. induction rows as [|a rows IH]; simpl; intros r H; [discriminate|].
  destruct (Client.latest rows) as [r'|] eqn:E.
  - destruct (updated_at a <? updated_at r')%Z; inversion H; subst; auto.
  - inversion H; auto.
Qed.

Lemma latest_none (rows : list PackageRow) :
  Client.latest rows = None -> rows = [].
Proof.
  destruct rows as [|a rows]; simpl; [reflexivity|].
  destruct (Client.latest rows) as [r'|];
    [destruct (updated_at a <? updated_at r')%Z|]; discriminate.
Qed.

Lemma latest_is_latest (rows : list PackageRow) (r : PackageRow) :
  Client.latest rows = Some r ->
  forall x, In x rows -> (updated_at x <= updated_at r)%Z.
Proof.
  revert r. induction rows as [|a rows IH]; simpl; intros r H x Hx; [contradiction|].
  destruct (Client.latest rows) as [r'|] eqn:E.
  - destruct (updated_at a <? updated_at r')%Z eqn:L.
    + inversion H; subst. destruct Hx as [<-|Hx].
      * apply Z.ltb_lt in L. lia.
      * apply IH; auto.
    + inversion H; subst. apply Z.ltb_ge in L. destruct Hx as [<-|Hx].
      * lia.
      * specialize (IH r' eq_refl x Hx). lia.
  - inversion H; subst. apply latest_none in E. subst rows.
    destruct Hx as [<-|[]]. lia.
Qed.

Lemma latest_package_in (d : Database) (conv : string) (r : PackageRow) :
  Client.latest_package d conv = Some r ->
  In r (mystery_packages d) /\ conversation_id r = conv.
Proof.
  unfold Client.latest_package. intros H. apply latest_in in H.
  apply filter_In in H. destruct H as [H1 H2]. split; [assumption|].
  unfold Client.of_conversation in H2. now apply String.eqb_eq in H2.
Qed.

(** Rows selected by a test that the change does not affect. *)
Lemma filter_update_where {R} (sel : R -> bool) (change : R -> R) (rows : list R) :
  (forall r, sel (change r) = sel r) ->
  filter sel (Client.update_where sel change rows) = map change (filter sel rows).
Proof.
  intros Hsel. unfold Client.update_where.
  induction rows as [|a rows IH]; simpl; [reflexivity|].
  destruct (sel a) eqn:E; simpl.
  - rewrite Hsel, E. simpl. now rewrite IH.
  - rewrite E. exact IH.
Qed.

Lemma latest_map_in (change : PackageRow -> PackageRow) (rows : list PackageRow)
  (r : PackageRow) :
  Client.latest rows = Some r ->
  exists r0 r', Client.latest (map change rows) = Some r' /\ In r0 rows /\ r' = change r0.
Proof.
  intros H. destruct (Client.latest (map change rows)) as [r'|] eqn:E.
  - pose proof (latest_in _ _ E) as Hin. apply in_map_iff in Hin.
    destruct Hin as [r0 [H1 H2]]. exists r0, r'. auto.
  - apply latest_none in E. apply map_eq_nil in E. subst rows. discriminate.
Qed.

(** *** [getPackageGenerationStatus] *)

Ltac unfold_status :=
  unfold Service.getPackageGenerationStatus, Service.fetch_status_data,
    Client.select_latest_package, Client.read_latest_package, Client.write,
    try_catch, bind, ret, throw.

Lemma status_fetch_error faults now mysteryId w e :
  faults StatusFetch = Some e ->
  Service.getPackageGenerationStatus faults now mysteryId w
  = (Returned Service.errorStatus, w).
Proof. intros H. unfold_status. rewrite H. reflexivity. Qed.

Lemma status_no_row faults now mysteryId w :
  faults StatusFetch = None ->
  Client.latest_package (db w) mysteryId = None ->
  Service.getPackageGenerationStatus faults now mysteryId w
  = (Returned Service.defaultStatus, w).
Proof. intros H1 H2. unfold_status. rewrite H1. simpl. rewrite H2. reflexivity. Qed.

Lemma status_completed_row faults now mysteryId w r :
  faults StatusFetch = None ->
  Client.latest_package (db w) mysteryId = Some r ->
  Service.status_of (generation_status r) = Some "completed" ->
  exists o, generation_status r = SObject o
    /\ Service.getPackageGenerationStatus faults now mysteryId w
       = (Returned (Service.normalizedStatus o), w)
    /\ status (Service.normalizedStatus o) = "completed".
Proof.
  intros H1 H2 H3. destruct (generation_status r) as [| t | o] eqn:G;
    simpl in H3; try discriminate.
  exists o. split; [reflexivity|]. split.
  - unfold_status. rewrite H1. simpl. rewrite H2. simpl. rewrite G.
    unfold Service.status_is. simpl. rewrite H3. simpl.
    rewrite andb_false_r. reflexivity.
  - unfold Service.normalizedStatus. simpl. rewrite H3. reflexivity.
Qed.

(** C7.  [getPackageGenerationStatus] always returns a value and never
    throws, whatever the store holds and whichever calls to the store
    fail.  For a conversation without a package row the status returned is
    [not_started] with progress 0, and nothing is written.  When the read
    of the store fails, the value returned is the fallback [not_started],
    progress 0, step "Error checking status". *)
Theorem getPackageGenerationStatus_never_throws faults now mysteryId w :
  (exists s w',
      Service.getPackageGenerationStatus faults now mysteryId w = (Returned s, w'))
  /\ (Client.latest_package (db w) mysteryId = None ->
      exists s,
        Service.getPackageGenerationStatus faults now mysteryId w = (Returned s, w)
        /\ status s = "not_started" /\ progress s = 0%Z)
  /\ (forall e, faults StatusFetch = Some e ->
      Service.getPackageGenerationStatus faults now mysteryId w
      = (Returned {| status := "not_started"; progress := 0;
                     currentStep := "Error checking status";
                     resumable := None; sections := [] |}, w)).
Proof.
  split; [|split].
  - unfold_status. destruct (faults StatusFetch); simpl; [eauto|].
    destruct (Client.latest_package (db w) mysteryId) as [r|]; simpl; [|eauto].
    match goal with |- context [if ?c then _ else _] => destruct c end; simpl.
    + destruct (faults StatusCorrect); simpl; [|eauto].
      destruct (generation_status r); simpl; eauto;
        repeat match goal with |- context [if ?c then _ else _] => destruct c end;
        simpl; eauto.
    + destruct (generation_status r); simpl; eauto;
        repeat match goal with |- context [if ?c then _ else _] => destruct c end;
        simpl; eauto.
  - intros Hnone. destruct (faults StatusFetch) as [e|] eqn:F.
    + exists Service.errorStatus. rewrite (status_fetch_error _ _ _ _ e F). auto.
    + exists Service.defaultStatus. rewrite status_no_row by assumption. auto.
  - intros e F. now apply status_fetch_error with (e := e).
Qed.

Lemma getPackageGenerationStatus_never_throws_witness :
  (exists s,
      Service.getPackageGenerationStatus no_faults 10%Z "c1" Samples.fresh
      = (Returned s, Samples.fresh)
      /\ status s = "not_started" /\ progress s = 0%Z)
  /\ Service.getPackageGenerationStatus Samples.fetch_fails 10%Z "c1" Samples.finished
     = (Returned Service.errorStatus, Samples.finished).
Proof.
  split.
  - apply (proj1 (proj2 (getPackageGenerationStatus_never_throws
                           no_faults 10%Z "c1" Samples.fresh))).
    reflexivity.
  - apply (proj2 (proj2 (getPackageGenerationStatus_never_throws
                           Samples.fetch_fails 10%Z "c1" Samples.finished))
             Samples.timeout).
    reflexivity.
Defined.

(** What the corrective write does to a row of the conversation. *)
Lemma corrected_row_status now r :
  generation_status
    (Service.with_job r (SObject Service.completedStatus_json)
       (generation_started_at r) (Some now) now)
  = SObject Service.completedStatus_json.
Proof. reflexivity. Qed.

Lemma latest_after_correction now mysteryId d r :
  Client.latest_package d mysteryId = Some r ->
  exists r',
    Client.latest_package
      (Client.set_packages
         (Client.update_where (Client.of_conversation mysteryId)
            (fun r => Service.with_job r (SObject Service.completedStatus_json)
                        (generation_started_at r) (Some now) now)) d) mysteryId
    = Some r'
    /\ generation_status r' = SObject Service.completedStatus_json.
Proof.
  unfold Client.latest_package. simpl. intros H.
  rewrite filter_update_where by reflexivity.
  destruct (latest_map_in
              (fun r => Service.with_job r (SObject Service.completedStatus_json)
                          (generation_started_at r) (Some now) now) _ _ H)
    as [r0 [r' [H1 [_ H3]]]].
  exists r'. split; [assumption|]. subst r'. reflexivity.
Qed.

Lemma status_drifted_row faults now mysteryId w r :
  faults StatusFetch = None ->
  Client.latest_package (db w) mysteryId = Some r ->
  Service.contentComplete
    {| Service.row := r; Service.characters := Service.characters_count (db w) (id r) |}
  = true ->
  Service.json_truthy (generation_status r) = true ->
  Service.status_is (generation_status r) "completed" = false ->
  Service.getPackageGenerationStatus faults now mysteryId w
  = match faults StatusCorrect with
    | None =>
        (Returned Service.completedStatus,
         Client.with_db
           (Client.set_packages
              (Client.update_where (Client.of_conversation mysteryId)
                 (fun r => Service.with_job r (SObject Service.completedStatus_json)
                             (generation_started_at r) (Some now) now)))
           (Client.log_event
              (StoreWrite (UpdatePackageByConversation mysteryId
                             (SObject Service.completedStatus_json))) w))
    | Some _ =>
        (Returned
           match generation_status r with
           | SObject o => Service.normalizedStatus o
           | _ => Service.completedStatus
           end,
         Client.log_event
           (StoreWrite (UpdatePackageByConversation mysteryId
                          (SObject Service.completedStatus_json))) w)
    end.
Proof.
  intros H1 H2 H3 H4 H5. unfold_status. rewrite H1.
  cbn [data reply_error]. rewrite H2. cbv beta iota.
  cbn [Service.row]. rewrite H3, H4, H5. cbn [andb negb].
  destruct (faults StatusCorrect); cbv beta iota; [|reflexivity].
  destruct (generation_status r); try reflexivity;
    rewrite orb_true_r; reflexivity.
Qed.

(** C1, as stated, fails when the corrective write is refused by the
    store: the content of the row is complete and its status is
    [in_progress], yet the stored status is what is returned.  It fails
    as well when the read of the store fails: the fallback [not_started]
    is returned and no write is sent. *)
Lemma stale_status_when_correction_fails :
  Client.latest_package (db Samples.drifted) "c1" = Some Samples.drifted_row
  /\ Service.contentComplete
       {| Service.row := Samples.drifted_row;
          Service.characters := Service.characters_count (db Samples.drifted) 1 |} = true
  /\ length (Client.characters_of (db Samples.drifted) 1) = 3
  /\ Service.status_of (generation_status Samples.drifted_row) = Some "in_progress"
  /\ (exists s w',
         Service.getPackageGenerationStatus Samples.correction_fails 10%Z "c1"
           Samples.drifted = (Returned s, w')
         /\ status s = "in_progress" /\ status s <> "completed"
         /\ db w' = db Samples.drifted)
  /\ (exists s,
         Service.getPackageGenerationStatus Samples.fetch_fails 10%Z "c1"
           Samples.drifted = (Returned s, Samples.drifted)
         /\ status s = "not_started" /\ status s <> "completed").
Proof.
  repeat split; try reflexivity.
  - eexists; eexists. repeat split; try reflexivity. simpl. discriminate.
  - eexists. repeat split; try reflexivity. simpl. discriminate.
Qed.

(** C1, amended.  When the latest package row of the conversation has a
    title, a host guide and at least one character, and its stored status
    is a recognized value other than [completed], a call of
    [getPackageGenerationStatus] whose read and corrective write both
    succeed returns [completed], progress 100, "Package generation
    completed", the five section flags true, and sends exactly one write,
    which stores that status on the rows of the conversation.  A second
    call whose read succeeds returns the same value and leaves the store
    and the log as they are: no further write is sent. *)
Theorem getPackageGenerationStatus_self_heals
  faults1 faults2 now1 now2 mysteryId w r s :
  faults1 StatusFetch = None ->
  faults1 StatusCorrect = None ->
  faults2 StatusFetch = None ->
  Client.latest_package (db w) mysteryId = Some r ->
  Js.present (title (content r)) = true ->
  Js.present (host_guide (content r)) = true ->
  0 < length (Client.characters_of (db w) (id r)) ->
  Service.status_of (generation_status r) = Some s ->
  Service.recognized s = true ->
  s <> "completed" ->
  exists w1 r1,
    Service.getPackageGenerationStatus faults1 now1 mysteryId w
    = (Returned {| status := "completed"; progress := 100;
                   currentStep := "Package generation completed";
                   resumable := None;
                   sections := [("hostGuide", true); ("characters", true);
                                ("clues", true); ("inspectorScript", true);
                                ("characterMatrix", true)] |}, w1)
    /\ log w1 = (log w ++ [StoreWrite (UpdatePackageByConversation mysteryId
                                         (SObject Service.completedStatus_json))])%list
    /\ Client.latest_package (db w1) mysteryId = Some r1
    /\ generation_status r1 = SObject Service.completedStatus_json
    /\ Service.getPackageGenerationStatus faults2 now2 mysteryId w1
       = (fst (Service.getPackageGenerationStatus faults1 now1 mysteryId w), w1).
Proof.
  intros F1 F2 F3 L T G C S R N.
  assert (Hc : Service.contentComplete
                 {| Service.row := r;
                    Service.characters := Service.characters_count (db w) (id r) |} = true).
  { unfold Service.contentComplete, Service.hasContent, Service.hasCharacters. simpl.
    rewrite T, G. reflexivity. }
  assert (Ht : Service.json_truthy (generation_status r) = true).
  { destruct (generation_status r); simpl in S; try discriminate. reflexivity. }
  assert (Hs : Service.status_is (generation_status r) "completed" = false).
  { unfold Service.status_is. rewrite S. now apply String.eqb_neq. }
  rewrite (status_drifted_row faults1 now1 mysteryId w r F1 L Hc Ht Hs), F2.
  destruct (latest_after_correction now1 mysteryId (db w) r L) as [r1 [L1 G1]].
  eexists. exists r1. split; [reflexivity|]. split; [reflexivity|].
  split; [exact L1|]. split; [exact G1|].
  simpl fst.
  match goal with |- Service.getPackageGenerationStatus _ _ _ ?w1 = _ =>
    destruct (status_completed_row faults2 now2 mysteryId w1 r1 F3 L1) as [o [Go [Run _]]]
  end.
  { rewrite G1. reflexivity. }
  rewrite Run. rewrite G1 in Go. inversion Go. reflexivity.
Qed.

Lemma getPackageGenerationStatus_self_heals_witness :
  exists w1 r1,
    Service.getPackageGenerationStatus no_faults 10%Z "c1" Samples.drifted
    = (Returned Service.completedStatus, w1)
    /\ log w1 = [StoreWrite (UpdatePackageByConversation "c1"
                               (SObject Service.completedStatus_json))]
    /\ Client.latest_package (db w1) "c1" = Some r1
    /\ generation_status r1 = SObject Service.completedStatus_json
    /\ Service.getPackageGenerationStatus no_faults 20%Z "c1" w1
       = (fst (Service.getPackageGenerationStatus no_faults 10%Z "c1" Samples.drifted), w1).
Proof.
  apply (getPackageGenerationStatus_self_heals no_faults no_faults 10%Z 20%Z "c1"
           Samples.drifted Samples.drifted_row "in_progress");
    try reflexivity.
  - simpl. lia.
  - discriminate.
Defined.

(** The only change [getPackageGenerationStatus] can make to the table of
    packages is the corrective write. *)
Lemma status_store_effect faults now mysteryId w :
  db (snd (Service.getPackageGenerationStatus faults now mysteryId w)) = db w
  \/ db (snd (Service.getPackageGenerationStatus faults now mysteryId w))
     = Client.set_packages
         (Client.update_where (Client.of_conversation mysteryId)
            (fun r => Service.with_job r (SObject Service.completedStatus_json)
                        (generation_started_at r) (Some now) now)) (db w).
Proof.
  unfold_status. destruct (faults StatusFetch); simpl; [now left|].
  destruct (Client.latest_package (db w) mysteryId) as [r|]; simpl; [|now left].
  match goal with |- context [if ?c then _ else _] => destruct c end; simpl.
  - destruct (faults StatusCorrect); simpl.
    + left. destruct (generation_status r); simpl; try reflexivity;
        repeat match goal with |- context [if ?c then _ else _] => destruct c end;
        reflexivity.
    + now right.
  - left. destruct (generation_status r); simpl; try reflexivity;
      repeat match goal with |- context [if ?c then _ else _] => destruct c end;
      reflexivity.
Qed.

Lemma Forall2_update_where {R} (P : R -> R -> Prop) (sel : R -> bool)
  (change : R -> R) (rows : list R) :
  (forall r, P r r) -> (forall r, P r (change r)) ->
  Forall2 P rows (Client.update_where sel change rows).
Proof.
  intros Hrefl Hchange. unfold Client.update_where.
  induction rows as [|a rows IH]; simpl; constructor; auto.
  destruct (sel a); auto.
Qed.

Lemma Forall2_same {R} (P : R -> R -> Prop) (rows : list R) :
  (forall r, P r r) -> Forall2 P rows rows.
Proof. intros H. induction rows; constructor; auto. Qed.

(** C2, as stated, fails when the read of the store fails: the stored
    status is [completed] and the status returned is [not_started]. *)
Lemma completed_reported_not_started_on_read_failure :
  Client.latest_package (db Samples.finished) "c1" = Some Samples.finished_row
  /\ Service.status_of (generation_status Samples.finished_row) = Some "completed"
  /\ exists s,
       Service.getPackageGenerationStatus Samples.fetch_fails 10%Z "c1"
         Samples.finished = (Returned s, Samples.finished)
       /\ status s = "not_started" /\ status s <> "completed".
Proof.
  repeat split. eexists. repeat split. simpl. discriminate.
Qed.

(** C2, amended.  When the stored status of the latest package row is
    [completed] and the read of the store succeeds,
    [getPackageGenerationStatus] returns [completed] and writes nothing.
    Whatever the store holds and whichever calls fail, a call of
    [getPackageGenerationStatus] leaves every package row that is stored as
    [completed] stored as [completed]: row by row, the table after the
    call has the same ids and conversations, and no [completed] status has
    been replaced by another one. *)
Theorem getPackageGenerationStatus_keeps_completed faults now mysteryId w :
  (forall r,
      faults StatusFetch = None ->
      Client.latest_package (db w) mysteryId = Some r ->
      Service.status_of (generation_status r) = Some "completed" ->
      exists s,
        Service.getPackageGenerationStatus faults now mysteryId w = (Returned s, w)
        /\ status s = "completed")
  /\ Forall2
       (fun before after =>
          id after = id before
          /\ conversation_id after = conversation_id before
          /\ (Service.status_of (generation_status before) = Some "completed" ->
              Service.status_of (generation_status after) = Some "completed"))
       (mystery_packages (db w))
       (mystery_packages
          (db (snd (Service.getPackageGenerationStatus faults now mysteryId w)))).
Proof.
  split.
  - intros r F L S.
    destruct (status_completed_row faults now mysteryId w r F L S) as [o [_ [Run St]]].
    eauto.
  - destruct (status_store_effect faults now mysteryId w) as [E|E]; rewrite E.
    + apply Forall2_same. auto.
    + simpl. apply Forall2_update_where; intros r; auto.
Qed.

Lemma getPackageGenerationStatus_keeps_completed_witness :
  exists s,
    Service.getPackageGenerationStatus no_faults 10%Z "c1" Samples.finished
    = (Returned s, Samples.finished)
    /\ status s = "completed".
Proof.
  apply (proj1 (getPackageGenerationStatus_keeps_completed
                  no_faults 10%Z "c1" Samples.finished) Samples.finished_row);
    reflexivity.
Defined.

(** *** [generateCompletePackage] *)

Ltac unfold_generate :=
  unfold Service.generateCompletePackage, Service.generate_try,
    Service.create_or_update_package, Service.call_trigger,
    Service.generate_catch, Service.in_world, Service.assign_packageId,
    Service.read_packageId, Service.update_status_by_id,
    Client.select_latest_package, Client.select_conversation,
    Client.read_latest_package, Client.read_conversation,
    Client.insert_package, Client.functions_invoke, Client.write,
    try_catch, bind, ret, throw.

Lemma generate_short_circuit faults now mysteryId testMode w r answer :
  faults GenExistingPackage = None ->
  Client.latest_package (db w) mysteryId = Some r ->
  Service.duplicate_guard {| data := Some r; reply_error := None |} = Some answer ->
  Service.generateCompletePackage faults now mysteryId testMode w
  = (Returned answer, w).
Proof.
  intros F L G. unfold_generate. rewrite F. cbn [Service.world].
  rewrite L, G. reflexivity.
Qed.

(** C3, as stated, fails when the read of the duplicate guard fails: the
    stored status is [completed], yet the call goes on, overwrites the
    status with [in_progress] and calls the external trigger. *)
Lemma completed_job_restarted_on_guard_read_failure :
  Client.latest_package (db Samples.finished) "c1" = Some Samples.finished_row
  /\ Service.status_of (generation_status Samples.finished_row) = Some "completed"
  /\ exists w',
       Service.generateCompletePackage Samples.guard_read_fails 10%Z "c1" false
         Samples.finished
       = (Returned "Package generation started successfully", w')
       /\ outbound_calls (log w') = 1
       /\ store_writes (log w') = 2
       /\ option_map (fun r => Service.status_of (generation_status r))
            (Client.latest_package (db w') "c1") = Some (Some "in_progress").
Proof.
  repeat split. eexists. repeat split.
Qed.

(** C3, amended.  When the read of the duplicate guard succeeds and the
    stored status of the latest package row of the conversation is
    [completed], [generateCompletePackage] returns "already_completed":
    the store is left as it is, no write is sent and the external trigger
    is not called. *)
Theorem generateCompletePackage_already_completed
  faults now mysteryId testMode w r :
  faults GenExistingPackage = None ->
  Client.latest_package (db w) mysteryId = Some r ->
  Service.status_of (generation_status r) = Some "completed" ->
  Service.generateCompletePackage faults now mysteryId testMode w
  = (Returned "already_completed", w).
Proof.
  intros F L S. apply (generate_short_circuit _ _ _ _ _ r); auto.
  unfold Service.duplicate_guard, Service.status_is. simpl. rewrite S. reflexivity.
Qed.

Lemma generateCompletePackage_already_completed_witness :
  Service.generateCompletePackage no_faults 10%Z "c1" false Samples.finished
  = (Returned "already_completed", Samples.finished).
Proof.
  apply (generateCompletePackage_already_completed no_faults 10%Z "c1" false
           Samples.finished Samples.finished_row); reflexivity.
Defined.

Lemma outbound_calls_app l e :
  outbound_calls (l ++ [e]) = outbound_calls l + (if is_outbound e then 1 else 0).
Proof.
  unfold outbound_calls. rewrite filter_app, length_app. simpl.
  destruct (is_outbound e); reflexivity.
Qed.

Lemma filter_update_where_commute {R} (keep sel : R -> bool) (change : R -> R)
  (rows : list R) :
  (forall r, keep (change r) = keep r) ->
  filter keep (Client.update_where sel change rows)
  = Client.update_where sel change (filter keep rows).
Proof.
  intros Hkeep. unfold Client.update_where.
  induction rows as [|a rows IH]; simpl; [reflexivity|].
  destruct (sel a) eqn:E.
  - rewrite Hkeep. destruct (keep a); simpl; [rewrite E|]; now rewrite IH.
  - destruct (keep a); simpl; [rewrite E|]; now rewrite IH.
Qed.

Lemma update_where_twice {R} (sel : R -> bool) (first second : R -> R)
  (rows : list R) :
  (forall r, sel (first r) = sel r) ->
  Client.update_where sel second (Client.update_where sel first rows)
  = Client.update_where sel (fun r => second (first r)) rows.
Proof.
  intros Hsel. unfold Client.update_where. rewrite map_map.
  apply map_ext. intros r. destruct (sel r) eqn:E.
  - now rewrite Hsel, E.
  - now rewrite E.
Qed.

(** After an update by id that stamps the rows with an instant later than
    every row of the conversation, the latest row of the conversation is
    one of the rows updated. *)
Lemma latest_after_update_by_id conv (change : PackageRow -> PackageRow)
  (now : Time) (s : StatusJson) (rows : list PackageRow) (r : PackageRow) :
  (forall x, conversation_id (change x) = conversation_id x) ->
  (forall x, updated_at (change x) = now) ->
  (forall x, generation_status (change x) = s) ->
  Client.latest (filter (Client.of_conversation conv) rows) = Some r ->
  (forall x, In x rows -> conversation_id x = conv -> (updated_at x < now)%Z) ->
  exists r',
    Client.latest
      (filter (Client.of_conversation conv)
         (Client.update_where (fun x => (id x =? id r)%nat) change rows)) = Some r'
    /\ generation_status r' = s.
Proof.
  intros Hconv Hnow Hs L Hclock.
  rewrite filter_update_where_commute
    by (intros x; unfold Client.of_conversation; now rewrite Hconv).
  set (l := filter (Client.of_conversation conv) rows) in *.
  set (touch := fun x => if (id x =? id r)%nat then change x else x).
  change (Client.update_where (fun x => (id x =? id r)%nat) change l) with (map touch l).
  destruct (latest_map_in touch l r L) as [x [r' [L' [Hx Hr']]]].
  exists r'. split; [assumption|].
  pose proof (latest_in _ _ L) as Hr.
  assert (Hin : In (touch r) (map touch l)) by now apply in_map.
  pose proof (latest_is_latest _ _ L' _ Hin) as Hle.
  unfold touch in Hle at 1. rewrite Nat.eqb_refl, Hnow in Hle.
  subst r'. unfold touch in *. destruct (id x =? id r)%nat.
  - apply Hs.
  - exfalso. unfold l in Hx. apply filter_In in Hx. destruct Hx as [Hx1 Hx2].
    unfold Client.of_conversation in Hx2. apply String.eqb_eq in Hx2.
    specialize (Hclock x Hx1 Hx2). lia.
Qed.

Lemma generate_started_existing faults now mysteryId testMode w r c :
  (forall site, faults site = None) ->
  Client.find_conversation (db w) mysteryId = Some c ->
  Client.latest_package (db w) mysteryId = Some r ->
  Service.duplicate_guard {| data := Some r; reply_error := None |} = None ->
  Service.generateCompletePackage faults now mysteryId testMode w
  = (Returned "Package generation started successfully",
     {| db :=
          Client.set_packages
            (fun rows =>
               Client.update_where (fun x => (id x =? id r)%nat)
                 (fun x =>
                    Service.with_job x (SObject Service.processingStatus)
                      (generation_started_at x) (generation_completed_at x) now)
                 (Client.update_where (fun x => (id x =? id r)%nat)
                    (fun x =>
                       Service.with_job x (SObject Service.initialStatus)
                         (Some now) (generation_completed_at x) now) rows))
            (db w);
        log :=
          (log w
           ++ [StoreWrite (UpdatePackageById (id r) (SObject Service.initialStatus))]
           ++ [Invoke "mystery-webhook-trigger" mysteryId testMode]
           ++ [StoreWrite (UpdatePackageById (id r) (SObject Service.processingStatus))])%list
     |}).
Proof.
  intros F C L G. unfold_generate. rewrite !F. cbn [Service.world].
  rewrite L, G. cbn [Service.world]. rewrite C.
  cbn -[Client.latest_package Client.update_where Nat.eqb].
  rewrite L. cbn -[Client.latest_package Client.update_where Nat.eqb].
  unfold Client.with_db, Client.log_event, Client.set_packages. simpl.
  rewrite <- !app_assoc. reflexivity.
Qed.

Lemma generate_started_fresh faults now mysteryId testMode w c :
  (forall site, faults site = None) ->
  Client.find_conversation (db w) mysteryId = Some c ->
  Client.latest_package (db w) mysteryId = None ->
  Service.generateCompletePackage faults now mysteryId testMode w
  = (Returned "Package generation started successfully",
     {| db :=
          Client.set_packages
            (fun rows =>
               Client.update_where
                 (fun x => (id x =? Client.fresh_id rows)%nat)
                 (fun x =>
                    Service.with_job x (SObject Service.processingStatus)
                      (generation_started_at x) (generation_completed_at x) now)
                 (rows ++ [{| id := Client.fresh_id rows;
                              conversation_id := mysteryId;
                              content := Service.no_content;
                              generation_status := SObject Service.initialStatus;
                              generation_started_at := Some now;
                              generation_completed_at := None;
                              created_at := now;
                              updated_at := now |}]))
            (db w);
        log :=
          (log w
           ++ [StoreWrite (InsertPackage mysteryId (SObject Service.initialStatus))]
           ++ [Invoke "mystery-webhook-trigger" mysteryId testMode]
           ++ [StoreWrite (UpdatePackageById (Client.fresh_id (mystery_packages (db w)))
                             (SObject Service.processingStatus))])%list
     |}).
Proof.
  intros F C L. unfold_generate. rewrite !F. cbn [Service.world].
  rewrite L. cbn [Service.duplicate_guard reply_error data Service.world]. rewrite C.
  cbn -[Client.latest_package Client.update_where Nat.eqb Client.fresh_id].
  rewrite L. cbn -[Client.latest_package Client.update_where Nat.eqb Client.fresh_id].
  unfold Client.with_db, Client.log_event, Client.set_packages. simpl.
  rewrite <- !app_assoc. reflexivity.
Qed.

Lemma outbound_calls_started l a b c :
  is_outbound a = false -> is_outbound b = true -> is_outbound c = false ->
  outbound_calls (l ++ [a] ++ [b] ++ [c]) = S (outbound_calls l).
Proof.
  intros Ha Hb Hc. unfold outbound_calls. rewrite !filter_app, !length_app.
  simpl. rewrite Ha, Hb, Hc. simpl. lia.
Qed.

Lemma in_progress_answer r :
  Service.status_of (generation_status r) = Some "in_progress" ->
  Service.duplicate_guard {| data := Some r; reply_error := None |}
  = Some "already_in_progress".
Proof.
  intros S. unfold Service.duplicate_guard, Service.status_is. simpl.
  rewrite S. reflexivity.
Qed.

(** C4, as stated, fails: when the stored status is [in_progress], two
    calls in a row both stop at the guard and no outbound call is made by
    either of them, where the claim counts exactly one. *)
Lemma no_outbound_call_when_already_in_progress :
  Client.latest_package (db Samples.running) "c1" = Some Samples.running_row
  /\ Service.status_of (generation_status Samples.running_row) = Some "in_progress"
  /\ exists w1 w2,
       Service.generateCompletePackage no_faults 10%Z "c1" false Samples.running
       = (Returned "already_in_progress", w1)
       /\ Service.generateCompletePackage no_faults 11%Z "c1" false w1
          = (Returned "already_in_progress", w2)
       /\ outbound_calls (log w2) = 0
       /\ outbound_calls (log w2) <> 1.
Proof.
  repeat split. eexists; eexists. repeat split. simpl. discriminate.
Qed.

(** C4, amended.  The read of the duplicate guard succeeding:
    - when the stored status of the latest package row is [in_progress],
      two calls of [generateCompletePackage] in a row both return
      "already_in_progress", which is a returned value and not an error,
      and leave the store and the log as they are: neither makes an
      outbound call;
    - when the guard lets the first call through (no package row, or a
      status that is neither [completed] nor [in_progress]), the
      conversation exists, no call of the first run fails and its instant
      is later than the last update of every package row of the
      conversation, the first call returns "Package generation started
      successfully" and makes exactly one outbound call, and the second
      call returns "already_in_progress" and makes none: one outbound call
      over the two calls. *)
Theorem generateCompletePackage_duplicate_guard
  faults1 faults2 now1 now2 mysteryId testMode1 testMode2 w :
  faults2 GenExistingPackage = None ->
  (forall r,
      faults1 GenExistingPackage = None ->
      Client.latest_package (db w) mysteryId = Some r ->
      Service.status_of (generation_status r) = Some "in_progress" ->
      Service.generateCompletePackage faults1 now1 mysteryId testMode1 w
      = (Returned "already_in_progress", w)
      /\ Service.generateCompletePackage faults2 now2 mysteryId testMode2 w
         = (Returned "already_in_progress", w))
  /\ (forall c,
         (forall site, faults1 site = None) ->
         Client.find_conversation (db w) mysteryId = Some c ->
         Service.duplicate_guard
           {| data := Client.latest_package (db w) mysteryId; reply_error := None |}
         = None ->
         (forall x, In x (mystery_packages (db w)) -> conversation_id x = mysteryId ->
                    (updated_at x < now1)%Z) ->
         exists w1,
           Service.generateCompletePackage faults1 now1 mysteryId testMode1 w
           = (Returned "Package generation started successfully", w1)
           /\ outbound_calls (log w1) = S (outbound_calls (log w))
           /\ Service.generateCompletePackage faults2 now2 mysteryId testMode2 w1
              = (Returned "already_in_progress", w1)
           /\ outbound_calls
                (log (snd (Service.generateCompletePackage faults2 now2 mysteryId
                             testMode2 w1)))
              = S (outbound_calls (log w))).
Proof.
  intros F2. split.
  - intros r F1 L S. split; apply (generate_short_circuit _ _ _ _ _ r); auto;
      now apply in_progress_answer.
  - intros c F1 C G Hclock.
    assert (Hsecond : forall w1 r1,
               Client.latest_package (db w1) mysteryId = Some r1 ->
               generation_status r1 = SObject Service.processingStatus ->
               Service.generateCompletePackage faults2 now2 mysteryId testMode2 w1
               = (Returned "already_in_progress", w1)).
    { intros w1 r1 L1 G1. apply (generate_short_circuit _ _ _ _ _ r1); auto.
      apply in_progress_answer. rewrite G1. reflexivity. }
    destruct (Client.latest_package (db w) mysteryId) as [r|] eqn:L.
    + rewrite (generate_started_existing faults1 now1 mysteryId testMode1 w r c F1 C L G).
      eexists. split; [reflexivity|].
      assert (Hcalls : forall l a b, outbound_calls
                (l ++ [StoreWrite a] ++ [Invoke "mystery-webhook-trigger" mysteryId testMode1]
                   ++ [StoreWrite b]) = S (outbound_calls l))
        by (intros; now apply outbound_calls_started).
      split; [apply Hcalls|].
      match goal with |- ?run = _ /\ _ =>
        assert (Hrun : run = (Returned "already_in_progress",
          {| db := Client.set_packages
            (fun rows =>
               Client.update_where (fun x => (id x =? id r)%nat)
                 (fun x =>
                    Service.with_job x (SObject Service.processingStatus)
                      (generation_started_at x) (generation_completed_at x) now1)
                 (Client.update_where (fun x => (id x =? id r)%nat)
                    (fun x =>
                       Service.with_job x (SObject Service.initialStatus)
                         (Some now1) (generation_completed_at x) now1) rows))
            (db w);
        log :=
          (log w
           ++ [StoreWrite (UpdatePackageById (id r) (SObject Service.initialStatus))]
           ++ [Invoke "mystery-webhook-trigger" mysteryId testMode1]
           ++ [StoreWrite (UpdatePackageById (id r) (SObject Service.processingStatus))])%list
     |}))
      end.
      { unfold Client.latest_package in L.
        destruct (latest_after_update_by_id mysteryId
                    (fun x =>
                       Service.with_job
                         (Service.with_job x (SObject Service.initialStatus)
                            (Some now1) (generation_completed_at x) now1)
                         (SObject Service.processingStatus)
                         (generation_started_at
                            (Service.with_job x (SObject Service.initialStatus)
                               (Some now1) (generation_completed_at x) now1))
                         (generation_completed_at
                            (Service.with_job x (SObject Service.initialStatus)
                               (Some now1) (generation_completed_at x) now1)) now1)
                    now1 (SObject Service.processingStatus)
                    (mystery_packages (db w)) r) as [r1 [L1 G1]]; auto.
        apply (Hsecond _ r1); [|exact G1].
        unfold Client.latest_package. simpl.
        rewrite update_where_twice by reflexivity. exact L1. }
      rewrite Hrun. split; [reflexivity|]. simpl snd. apply Hcalls.
    + rewrite (generate_started_fresh faults1 now1 mysteryId testMode1 w c F1 C L).
      eexists. split; [reflexivity|].
      assert (Hcalls : forall l a b, outbound_calls
                (l ++ [StoreWrite a] ++ [Invoke "mystery-webhook-trigger" mysteryId testMode1]
                   ++ [StoreWrite b]) = S (outbound_calls l))
        by (intros; now apply outbound_calls_started).
      split; [apply Hcalls|].
      match goal with |- Service.generateCompletePackage _ _ _ _ ?w1 = _ /\ _ =>
        assert (Hrun : Service.generateCompletePackage faults2 now2 mysteryId testMode2 w1
                       = (Returned "already_in_progress", w1))
      end.
      { eapply Hsecond;
          [ unfold Client.latest_package in *; simpl;
            rewrite filter_update_where_commute by reflexivity;
            rewrite filter_app; apply latest_none in L; rewrite L; simpl;
            unfold Client.of_conversation at 1; simpl; rewrite String.eqb_refl; simpl;
            rewrite Nat.eqb_refl; reflexivity
          | reflexivity ]. }
      rewrite Hrun. split; [reflexivity|]. simpl snd. apply Hcalls.
Qed.

Lemma generateCompletePackage_duplicate_guard_witness :
  (Service.generateCompletePackage no_faults 10%Z "c1" false Samples.running
   = (Returned "already_in_progress", Samples.running)
   /\ Service.generateCompletePackage no_faults 11%Z "c1" false Samples.running
      = (Returned "already_in_progress", Samples.running))
  /\ (exists w1,
         Service.generateCompletePackage no_faults 10%Z "c2" false Samples.fresh
         = (Returned "Package generation started successfully", w1)
         /\ outbound_calls (log w1) = 1
         /\ Service.generateCompletePackage no_faults 11%Z "c2" false w1
            = (Returned "already_in_progress", w1)
         /\ outbound_calls
              (log (snd (Service.generateCompletePackage no_faults 11%Z "c2" false w1)))
            = 1)
  /\ (exists w1,
         Service.generateCompletePackage no_faults 10%Z "c1" false Samples.failed_once
         = (Returned "Package generation started successfully", w1)
         /\ outbound_calls (log w1) = 1
         /\ Service.generateCompletePackage no_faults 11%Z "c1" false w1
            = (Returned "already_in_progress", w1)
         /\ outbound_calls
              (log (snd (Service.generateCompletePackage no_faults 11%Z "c1" false w1)))
            = 1).
Proof.
  split; [|split].
  - apply (proj1 (generateCompletePackage_duplicate_guard no_faults no_faults
                    10%Z 11%Z "c1" false false Samples.running eq_refl)
             Samples.running_row); reflexivity.
  - apply (proj2 (generateCompletePackage_duplicate_guard no_faults no_faults
                    10%Z 11%Z "c2" false false Samples.fresh eq_refl)
             (Samples.talk "c2" false)); try reflexivity.
    intros x [].
  - apply (proj2 (generateCompletePackage_duplicate_guard no_faults no_faults
                    10%Z 11%Z "c1" false false Samples.failed_once eq_refl)
             (Samples.talk "c1" false)); try reflexivity.
    intros x [<-|[]] _. reflexivity.
Defined.

(** *** A failing trigger *)

Lemma in_update_where_kept {R} (sel : R -> bool) (change : R -> R) (rows : list R)
  (P : R -> Prop) r :
  (forall x, P x -> P (change x)) ->
  In r rows -> P r -> exists r', In r' (Client.update_where sel change rows) /\ P r'.
Proof.
  intros HP Hin Hr. unfold Client.update_where.
  exists (if sel r then change r else r). split.
  - apply in_map_iff. exists r. auto.
  - destruct (sel r); auto.
Qed.

Lemma in_update_where_changed {R} (sel : R -> bool) (change : R -> R)
  (rows : list R) r :
  (forall x, sel (change x) = sel x) ->
  In r (Client.update_where sel change rows) -> sel r = true ->
  exists x, r = change x.
Proof.
  intros Hsel Hin Hr. unfold Client.update_where in Hin.
  apply in_map_iff in Hin. destruct Hin as [x [Hx _]].
  destruct (sel x) eqn:E.
  - exists x. auto.
  - subst r. congruence.
Qed.

Lemma update_status_by_id_effect faults now site p s w :
  exists w',
    Service.update_status_by_id faults now site p s w = (Returned (faults site), w')
    /\ log w' = (log w ++ [StoreWrite (UpdatePackageById p (SObject s))])%list
    /\ (forall conv q, job_stored (db w) conv q -> job_stored (db w') conv q)
    /\ (faults site = None ->
        forall r, In r (mystery_packages (db w')) -> id r = p ->
                  generation_status r = SObject s).
Proof.
  unfold Service.update_status_by_id, Client.write.
  destruct (faults site) eqn:F; eexists; (split; [reflexivity|]);
    (split; [reflexivity|]); split; try discriminate; simpl.
  - auto.
  - intros conv q [r [H1 [H2 H3]]].
    destruct (in_update_where_kept (fun r => (id r =? p)%nat)
                (fun r => Service.with_job r (SObject s) (generation_started_at r)
                            (generation_completed_at r) now)
                (mystery_packages (db w))
                (fun r => id r = q /\ conversation_id r = conv) r) as [r' [Hin [Hq Hc]]];
      auto.
    exists r'. auto.
  - intros _ r Hin Hid.
    apply in_update_where_changed in Hin;
      [|intros; reflexivity|now apply Nat.eqb_eq].
    destruct Hin as [x ->]. reflexivity.
Qed.

Lemma call_trigger_fails faults now p mysteryId testMode fr e :
  faults GenWebhook = Some e ->
  exists w1,
    Service.call_trigger faults now p mysteryId testMode fr
    = (Thrown ("Failed to trigger generation: " ++ message e),
       {| Service.packageId := Service.packageId fr; Service.world := w1 |})
    /\ log w1
       = (log (Service.world fr)
          ++ [Invoke "mystery-webhook-trigger" mysteryId testMode;
              StoreWrite (UpdatePackageById p
                            (SObject (Service.triggerFailedStatus (message e))))])%list
    /\ (forall conv q, job_stored (db (Service.world fr)) conv q ->
                       job_stored (db w1) conv q).
Proof.
  intros F. unfold Service.call_trigger, Service.in_world, Client.functions_invoke,
              bind, throw.
  cbn [Service.world Service.packageId]. rewrite F.
  cbn [Service.world Service.packageId].
  destruct (update_status_by_id_effect faults now GenFailedUpdate p
              (Service.triggerFailedStatus (message e))
              (Client.log_event (Invoke "mystery-webhook-trigger" mysteryId testMode)
                 (Service.world fr))) as [w1 [Run [Hlog [Hjob _]]]].
  rewrite Run. exists w1. split; [reflexivity|]. split.
  - rewrite Hlog. simpl. rewrite <- app_assoc. reflexivity.
  - intros conv q H. apply Hjob. exact H.
Qed.

Lemma generate_catch_with_package faults now reason p w :
  exists w2,
    Service.generate_catch faults now reason
      {| Service.packageId := Some p; Service.world := w |}
    = (Thrown ("Package generation failed: " ++ reason),
       {| Service.packageId := Some p; Service.world := w2 |})
    /\ log w2
       = (log w ++ [StoreWrite (UpdatePackageById p
                                  (SObject (Service.unexpectedFailedStatus reason)))])%list
    /\ (forall conv q, job_stored (db w) conv q -> job_stored (db w2) conv q)
    /\ (faults GenCatchUpdate = None ->
        forall r, In r (mystery_packages (db w2)) -> id r = p ->
                  generation_status r
                  = SObject (Service.unexpectedFailedStatus reason)).
Proof.
  unfold Service.generate_catch, Service.read_packageId, Service.in_world, bind, ret, throw.
  cbn [Service.world Service.packageId].
  destruct (update_status_by_id_effect faults now GenCatchUpdate p
              (Service.unexpectedFailedStatus reason) w) as [w2 [Run H]].
  rewrite Run. exists w2. split; [reflexivity|]. exact H.
Qed.

Lemma generate_catch_without_package faults now reason w :
  Service.generate_catch faults now reason
    {| Service.packageId := None; Service.world := w |}
  = (Thrown ("Package generation failed: " ++ reason),
     {| Service.packageId := None; Service.world := w |}).
Proof. reflexivity. Qed.

(** What the creation or update of the package row leaves behind: either
    the id of the job row, assigned to [packageId] and stored for the
    conversation, after write requests only; or a throw with [packageId]
    unset, after write requests only. *)
Lemma create_or_update_package_effect faults now mysteryId w :
  exists o w1 before,
    Service.create_or_update_package faults now mysteryId
      {| Service.packageId := None; Service.world := w |}
    = (o, {| Service.packageId :=
               match o with
               | Returned p => Some p
               | Thrown _ => None
               end;
             Service.world := w1 |})
    /\ log w1 = (log w ++ before)%list
    /\ outbound_calls before = 0
    /\ match o with
       | Returned p => job_stored (db w1) mysteryId p
       | Thrown _ => True
       end.
Proof.
  unfold Service.create_or_update_package, Service.in_world, Service.assign_packageId,
    Client.select_latest_package, Client.read_latest_package, Client.insert_package,
    Client.write, bind, ret, throw.
  cbn [Service.world Service.packageId].
  assert (Hupdate : forall r,
             Client.latest_package (db w) mysteryId = Some r ->
             forall change : PackageRow -> PackageRow,
               (forall x, id (change x) = id x /\ conversation_id (change x) = conversation_id x) ->
               job_stored
                 (Client.set_packages
                    (Client.update_where (fun x => (id x =? id r)%nat) change) (db w))
                 mysteryId (id r)).
  { intros r L change Hchange. apply latest_package_in in L. destruct L as [L1 L2].
    destruct (in_update_where_kept (fun x => (id x =? id r)%nat) change
                (mystery_packages (db w))
                (fun x => id x = id r /\ conversation_id x = mysteryId) r)
      as [r' [Hin [Hq Hc]]]; auto.
    - intros x [H1 H2]. destruct (Hchange x) as [H3 H4]. split; congruence.
    - exists r'. auto. }
  assert (Hinsert :
            job_stored
              (Client.set_packages
                 (fun rows =>
                    (rows ++ [{| id := Client.fresh_id (mystery_packages (db w));
                                 conversation_id := mysteryId;
                                 content := Service.no_content;
                                 generation_status := SObject Service.initialStatus;
                                 generation_started_at := Some now;
                                 generation_completed_at := None;
                                 created_at := now;
                                 updated_at := now |}])%list)
                 (db w))
              mysteryId (Client.fresh_id (mystery_packages (db w)))).
  { eexists. split; [simpl; apply in_or_app; right; left; reflexivity|].
    split; reflexivity. }
  destruct (faults GenCheckPackage) as [checkError|] eqn:F; cbn [reply_error data].
  - destruct (negb (code checkError =? "PGRST116")).
    + exists (Thrown "Failed to check existing package"), w, [].
      rewrite app_nil_r. auto.
    + cbn [Service.world Service.packageId].
      destruct (faults GenCreatePackage) eqn:Fc; cbn [reply_error data].
      * eexists (Thrown _), _, [_]. repeat split.
      * eexists (Returned _), _, [_]. split; [reflexivity|].
        split; [reflexivity|]. split; [reflexivity|].
        unfold Client.with_db, Client.log_event; cbn [db Service.world].
        exact Hinsert.
  - destruct (Client.latest_package (db w) mysteryId) as [r|] eqn:L;
      cbn [Service.world Service.packageId].
    + destruct (faults GenInitialUpdate) eqn:Fi.
      * eexists (Returned _), _, [_]. split; [reflexivity|].
        split; [reflexivity|]. split; [reflexivity|].
        apply latest_package_in in L. destruct L as [L1 L2].
        exists r. auto.
      * eexists (Returned _), _, [_]. split; [reflexivity|].
        split; [reflexivity|]. split; [reflexivity|].
        unfold Client.with_db, Client.log_event; cbn [db Service.world].
        apply (Hupdate r eq_refl). intros x. split; reflexivity.
    + destruct (faults GenCreatePackage) eqn:Fc; cbn [reply_error data].
      * eexists (Thrown _), _, [_]. repeat split.
      * eexists (Returned _), _, [_]. split; [reflexivity|].
        split; [reflexivity|]. split; [reflexivity|].
        unfold Client.with_db, Client.log_event; cbn [db Service.world].
        exact Hinsert.
Qed.

Lemma outbound_calls_append l l' :
  outbound_calls (l ++ l') = outbound_calls l + outbound_calls l'.
Proof. unfold outbound_calls. now rewrite filter_app, length_app. Qed.

(** C5.  In every execution of [generateCompletePackage] in which the
    external trigger is called and the call fails, two write requests
    follow the call, both for the job row of the conversation and both
    with status [failed], progress 0 and [resumable] true, and only then
    the failure is thrown to the caller.  The job row is in the store, and
    unless the store refuses the last write, it holds the failed status at
    the end. *)
Theorem generateCompletePackage_records_trigger_failure
  faults now mysteryId testMode w e :
  faults GenWebhook = Some e ->
  outbound_calls (log w)
  < outbound_calls
      (log (snd (Service.generateCompletePackage faults now mysteryId testMode w))) ->
  exists p before w',
    Service.generateCompletePackage faults now mysteryId testMode w
    = (Thrown ("Package generation failed: Failed to trigger generation: "
               ++ message e), w')
    /\ log w'
       = (log w ++ before
          ++ [Invoke "mystery-webhook-trigger" mysteryId testMode;
              StoreWrite
                (UpdatePackageById p
                   (SObject
                      {| Stored.status := Some "failed";
                         Stored.progress := Some 0%Z;
                         Stored.currentStep := Some "Failed to trigger generation";
                         Stored.error := Some (message e);
                         Stored.resumable := Some true;
                         Stored.sections := None |}));
              StoreWrite
                (UpdatePackageById p
                   (SObject
                      {| Stored.status := Some "failed";
                         Stored.progress := Some 0%Z;
                         Stored.currentStep := Some "Unexpected error during generation";
                         Stored.error :=
                           Some ("Failed to trigger generation: " ++ message e)%string;
                         Stored.resumable := Some true;
                         Stored.sections := None |}))])%list
    /\ outbound_calls before = 0
    /\ job_stored (db w') mysteryId p
    /\ (faults GenCatchUpdate = None ->
        forall r, In r (mystery_packages (db w')) -> id r = p ->
                  Service.status_of (generation_status r) = Some "failed"
                  /\ generation_status r
                     = SObject (Service.unexpectedFailedStatus
                                  ("Failed to trigger generation: " ++ message e))).
Proof.
  intros F. unfold Service.generateCompletePackage, Service.generate_try.
  unfold try_catch, bind, Service.in_world, Client.select_latest_package,
    Client.select_conversation.
  cbn [Service.world Service.packageId].
  destruct (Service.duplicate_guard
              (Client.read_latest_package faults GenExistingPackage (db w) mysteryId))
    as [answer|] eqn:G.
  { cbn. intros H. exfalso. lia. }
  cbn [Service.world Service.packageId].
  destruct (Service.isSome
              (reply_error (Client.read_conversation faults GenConversation (db w) mysteryId))
            || negb (Service.isSome
                       (data (Client.read_conversation faults GenConversation (db w)
                                mysteryId)))).
  { cbn. intros H. exfalso. lia. }
  destruct (create_or_update_package_effect faults now mysteryId w)
    as [o [w1 [before [Run [Hlog [Hout Hjob]]]]]].
  rewrite Run. destruct o as [p|reason].
  - destruct (call_trigger_fails faults now p mysteryId testMode
                {| Service.packageId := Some p; Service.world := w1 |} e F)
      as [w2 [Run2 [Hlog2 Hjob2]]].
    rewrite Run2. cbn [Service.world Service.packageId].
    destruct (generate_catch_with_package faults now
                ("Failed to trigger generation: " ++ message e) p w2)
      as [w3 [Run3 [Hlog3 [Hjob3 Hrow3]]]].
    rewrite Run3. cbn [Service.world Service.packageId snd]. intros _.
    exists p, before, w3. split; [reflexivity|]. split.
    { rewrite Hlog3, Hlog2. cbn [Service.world]. rewrite Hlog.
      rewrite <- !app_assoc. reflexivity. }
    split; [exact Hout|]. split.
    { apply Hjob3, Hjob2. exact Hjob. }
    intros Fc r Hin Hid. rewrite (Hrow3 Fc r Hin Hid). split; reflexivity.
  - cbn [Service.world Service.packageId]. rewrite generate_catch_without_package.
    cbn [Service.world snd]. rewrite Hlog, outbound_calls_append, Hout.
    intros H. exfalso. lia.
Qed.

Lemma generateCompletePackage_records_trigger_failure_witness :
  exists p before w',
    Service.generateCompletePackage Samples.webhook_fails 10%Z "c1" false
      Samples.failed_once
    = (Thrown "Package generation failed: Failed to trigger generation: timeout", w')
    /\ log w'
       = (log Samples.failed_once ++ before
          ++ [Invoke "mystery-webhook-trigger" "c1" false;
              StoreWrite
                (UpdatePackageById p
                   (SObject
                      {| Stored.status := Some "failed";
                         Stored.progress := Some 0%Z;
                         Stored.currentStep := Some "Failed to trigger generation";
                         Stored.error := Some "timeout";
                         Stored.resumable := Some true;
                         Stored.sections := None |}));
              StoreWrite
                (UpdatePackageById p
                   (SObject
                      {| Stored.status := Some "failed";
                         Stored.progress := Some 0%Z;
                         Stored.currentStep := Some "Unexpected error during generation";
                         Stored.error := Some "Failed to trigger generation: timeout";
                         Stored.resumable := Some true;
                         Stored.sections := None |}))])%list
    /\ outbound_calls before = 0
    /\ job_stored (db w') "c1" p
    /\ (Samples.webhook_fails GenCatchUpdate = None ->
        forall r, In r (mystery_packages (db w')) -> id r = p ->
                  Service.status_of (generation_status r) = Some "failed"
                  /\ generation_status r
                     = SObject (Service.unexpectedFailedStatus
                                  "Failed to trigger generation: timeout")).
Proof.
  apply (generateCompletePackage_records_trigger_failure Samples.webhook_fails 10%Z
           "c1" false Samples.failed_once Samples.timeout).
  - reflexivity.
  - vm_compute. lia.
Defined.

(** *** The fallback inference *)

(** C6, as stated, fails on a [generation_status] object that has no
    [status] property: with a start date, no completion date, no content
    and a conversation that is neither paid nor complete, the specified
    inference is [in_progress] with progress 50, while
    [getPackageGenerationStatus] returns the stored object with its status
    defaulted to [not_started] and its progress 30, and
    [checkGenerationStatus] of the view, which finds no sign of
    completion, answers the same.  It fails in the same way on an object
    whose [status] is not among the known values: that value is what both
    answer. *)
Lemma inference_differs_from_specification :
  (Client.latest_package (db Samples.unlabelled_started) "c1"
   = Some Samples.unlabelled_started_row
   /\ Service.status_of (generation_status Samples.unlabelled_started_row) = None
   /\ Client.find_conversation (db Samples.unlabelled_started) "c1"
      = Some (Samples.talk "c1" false)
   /\ Specified.inferred_status
        (generation_completed_at Samples.unlabelled_started_row)
        (generation_started_at Samples.unlabelled_started_row) false false false
      = "in_progress"
   /\ Service.getPackageGenerationStatus no_faults 20000%Z "c1"
        Samples.unlabelled_started
      = (Returned {| status := "not_started"; progress := 30;
                     currentStep := "Unknown step";
                     resumable := None; sections := [] |},
         Samples.unlabelled_started)
   /\ fst (fst (View.checkGenerationStatus no_faults 20000%Z (Some "c1")
                  Samples.idle_view Samples.unlabelled_started))
      = Some {| status := "not_started"; progress := 30;
                currentStep := "Unknown step";
                resumable := None; sections := [] |})
  /\ (Client.latest_package (db Samples.unknown_started) "c1"
      = Some Samples.unknown_started_row
      /\ Service.status_of (generation_status Samples.unknown_started_row)
         = Some "paused"
      /\ Service.recognized "paused" = false
      /\ Client.find_conversation (db Samples.unknown_started) "c1"
         = Some (Samples.talk "c1" false)
      /\ Specified.inferred_status
           (generation_completed_at Samples.unknown_started_row)
           (generation_started_at Samples.unknown_started_row) false false false
         = "in_progress"
      /\ Service.getPackageGenerationStatus no_faults 20000%Z "c1"
           Samples.unknown_started
         = (Returned {| status := "paused"; progress := 40;
                        currentStep := "Paused";
                        resumable := None; sections := [] |},
            Samples.unknown_started)
      /\ fst (fst (View.checkGenerationStatus no_faults 20000%Z (Some "c1")
                     Samples.idle_view Samples.unknown_started))
         = Some {| status := "paused"; progress := 40;
                   currentStep := "Paused";
                   resumable := None; sections := [] |}).
Proof. repeat split. Qed.

Lemma status_ignores_conversations faults now mysteryId w talks :
  fst (Service.getPackageGenerationStatus faults now mysteryId
         (Client.with_db (Client.set_conversations (fun _ => talks)) w))
  = fst (Service.getPackageGenerationStatus faults now mysteryId w).
Proof.
  unfold_status.
  unfold Client.latest_package, Service.characters_count, Client.characters_of.
  cbn [db Client.with_db Client.set_conversations mystery_packages mystery_characters].
  destruct (faults StatusFetch); cbn [data reply_error]; [reflexivity|].
  destruct (Client.latest (filter (Client.of_conversation mysteryId) (mystery_packages (db w))))
    as [r|]; [|reflexivity].
  cbv beta iota. cbn [Service.row].
  match goal with |- context [if ?c then _ else _] => destruct c end.
  - destruct (faults StatusCorrect); cbv beta iota; [|reflexivity].
    destruct (generation_status r); try reflexivity;
      repeat match goal with |- context [if ?c then _ else _] => destruct c end;
      reflexivity.
  - destruct (generation_status r); try reflexivity;
      repeat match goal with |- context [if ?c then _ else _] => destruct c end;
      reflexivity.
Qed.

Lemma content_complete_read (d : Database) (r : PackageRow) :
  Service.contentComplete
    {| Service.row := r; Service.characters := Service.characters_count d (id r) |}
  = Js.present (title (content r)) && Js.present (host_guide (content r)).
Proof.
  unfold Service.contentComplete, Service.hasContent, Service.hasCharacters.
  cbn [Service.row Service.characters]. apply andb_true_r.
Qed.

(** C6, amended.  The read of the store succeeding, for the latest
    package row of the conversation:
    - when the stored [generation_status] value is absent or is not an
      object, and the row is not one with a title and a host guide but no
      character, [getPackageGenerationStatus] infers [completed] if the
      completion date is present or the content is complete (title, host
      guide, at least one character), otherwise [in_progress] with
      progress 50 and "Package generation in progress..." if the start
      date is present, otherwise [not_started];
    - when it is an object and the title or the host guide is missing,
      there is no inference: the object is returned with its missing
      fields defaulted, whatever its [status] property, and nothing is
      written;
    - the flags of the conversation are never read by
      [getPackageGenerationStatus]: its result is the same whatever the
      table of conversations holds;
    - [checkGenerationStatus] of the view, when it is not throttled,
      answers [completed] whenever the conversation is read with
      [has_complete_package] or [is_paid] true;
    - more generally, its read of the package succeeding, it answers
      [completed] when the row has a title, a host guide or a completion
      date, or the stored status [completed], or the conversation is read
      with one of the two flags true, and otherwise answers what
      [getPackageGenerationStatus] returns. *)
Theorem getPackageGenerationStatus_fallback_inference faults now mysteryId w r :
  faults StatusFetch = None ->
  Client.latest_package (db w) mysteryId = Some r ->
  ((forall o, generation_status r <> SObject o) ->
   (Js.present (title (content r)) && Js.present (host_guide (content r)) = true ->
    0 < length (Client.characters_of (db w) (id r))) ->
   fst (Service.getPackageGenerationStatus faults now mysteryId w)
   = Returned
       (if Service.isSome (generation_completed_at r)
           || (Js.present (title (content r)) && Js.present (host_guide (content r))
               && (0 <? length (Client.characters_of (db w) (id r)))%nat)
        then {| status := "completed"; progress := 100;
                currentStep := "Package generation completed";
                resumable := None; sections := Service.all_sections |}
        else if Service.isSome (generation_started_at r)
             then {| status := "in_progress"; progress := 50;
                     currentStep := "Package generation in progress...";
                     resumable := None; sections := [] |}
             else {| status := "not_started"; progress := 0;
                     currentStep := "Not started";
                     resumable := None; sections := [] |}))
  /\ (forall o,
         generation_status r = SObject o ->
         Js.present (title (content r)) && Js.present (host_guide (content r)) = false ->
         Service.getPackageGenerationStatus faults now mysteryId w
         = (Returned (Service.normalizedStatus o), w))
  /\ (forall talks,
         fst (Service.getPackageGenerationStatus faults now mysteryId
                (Client.with_db (Client.set_conversations (fun _ => talks)) w))
         = fst (Service.getPackageGenerationStatus faults now mysteryId w))
  /\ (forall v c,
         (10000 <= now - View.lastStatusCheck v)%Z ->
         faults ViewFetchConversation = None ->
         Client.find_conversation (db w) mysteryId = Some c ->
         has_complete_package c = true \/ is_paid c = true ->
         fst (fst (View.checkGenerationStatus faults now (Some mysteryId) v w))
         = Some View.completedStatus)
  /\ (forall v,
         (10000 <= now - View.lastStatusCheck v)%Z ->
         faults ViewFetchPackage = None ->
         fst (fst (View.checkGenerationStatus faults now (Some mysteryId) v w))
         = if Js.present (title (content r)) || Js.present (host_guide (content r))
              || Service.isSome (generation_completed_at r)
              || View.conversationIndicatesComplete
                   (data (Client.read_conversation faults ViewFetchConversation (db w)
                            mysteryId))
              || Service.status_is (generation_status r) "completed"
           then Some View.completedStatus
           else match fst (Service.getPackageGenerationStatus faults now mysteryId w) with
                | Returned s => Some s
                | Thrown _ => None
                end).
Proof.
  intros F L. split; [|split; [|split; [|split]]].
  - intros Hnot Hcount. unfold_status. rewrite F. cbn [data reply_error]. rewrite L.
    cbv beta iota. cbn [Service.row]. rewrite content_complete_read.
    destruct (Js.present (title (content r)) && Js.present (host_guide (content r)))
      eqn:C.
    + apply Nat.ltb_lt in Hcount; [|reflexivity]. rewrite Hcount.
      cbn [andb]. rewrite !orb_true_r.
      destruct (generation_status r) as [|t|o] eqn:G; [| |exfalso; now apply (Hnot o)].
      * reflexivity.
      * destruct t; [|reflexivity].
        cbn [Service.json_truthy Service.status_is Service.status_of negb andb].
        destruct (faults StatusCorrect); reflexivity.
    + cbn [andb]. rewrite !orb_false_r.
      destruct (generation_status r) as [|t|o] eqn:G; [| |exfalso; now apply (Hnot o)].
      * destruct (Service.isSome (generation_completed_at r)); [reflexivity|].
        destruct (Service.isSome (generation_started_at r)); reflexivity.
      * destruct (Service.isSome (generation_completed_at r)); [reflexivity|].
        destruct (Service.isSome (generation_started_at r)); reflexivity.
  - intros o G C. unfold_status. rewrite F. cbn [data reply_error]. rewrite L.
    cbv beta iota. cbn [Service.row]. rewrite content_complete_read.
    rewrite C, G. reflexivity.
  - intros talks. apply status_ignores_conversations.
  - intros v c Hdue Fc C Hflag. unfold View.checkGenerationStatus.
    replace (now - View.lastStatusCheck v <? 10000)%Z with false
      by (symmetry; apply Z.ltb_ge; lia).
    unfold Client.read_conversation at 1. rewrite Fc, C. cbn [data].
    assert (Hc : View.conversationIndicatesComplete (Some c) = true).
    { unfold View.conversationIndicatesComplete.
      destruct Hflag as [-> | ->]; [reflexivity|apply orb_true_r]. }
    rewrite Hc, orb_true_r. cbn [orb].
    destruct (View.previously v "completed"); reflexivity.
  - intros v Hdue Fp. unfold View.checkGenerationStatus.
    replace (now - View.lastStatusCheck v <? 10000)%Z with false
      by (symmetry; apply Z.ltb_ge; lia).
    unfold Client.read_latest_package. rewrite Fp. cbn [data]. rewrite L.
    cbv zeta. unfold View.hasActualContent, View.packageStatusComplete.
    destruct (Js.present (title (content r)) || Js.present (host_guide (content r))
              || Service.isSome (generation_completed_at r)) eqn:A; cbn [orb].
    + destruct (View.previously v "completed"); reflexivity.
    + destruct (View.conversationIndicatesComplete _) eqn:B; cbn [orb].
      * destruct (View.previously v "completed"); reflexivity.
      * destruct (Service.status_is (generation_status r) "completed").
        -- destruct (View.previously v "completed"); reflexivity.
        -- destruct (Service.getPackageGenerationStatus faults now mysteryId w)
             as [[s|m] w1]; reflexivity.
Qed.

Lemma getPackageGenerationStatus_fallback_inference_witness :
  fst (Service.getPackageGenerationStatus no_faults 10%Z "c1" Samples.paid_started)
  = Returned {| status := "in_progress"; progress := 50;
                currentStep := "Package generation in progress...";
                resumable := None; sections := [] |}
  /\ Service.getPackageGenerationStatus no_faults 10%Z "c1" Samples.unlabelled_started
     = (Returned {| status := "not_started"; progress := 30;
                    currentStep := "Unknown step";
                    resumable := None; sections := [] |}, Samples.unlabelled_started)
  /\ fst (fst (View.checkGenerationStatus no_faults 20000%Z (Some "c1")
                 Samples.idle_view Samples.paid_started))
     = Some View.completedStatus
  /\ fst (fst (View.checkGenerationStatus no_faults 20000%Z (Some "c1")
                 Samples.idle_view Samples.unlabelled_started))
     = Some {| status := "not_started"; progress := 30;
               currentStep := "Unknown step";
               resumable := None; sections := [] |}.
Proof.
  split; [|split; [|split]].
  - apply (proj1 (getPackageGenerationStatus_fallback_inference no_faults 10%Z "c1"
                    Samples.paid_started Samples.paid_row eq_refl eq_refl)).
    + intros o. discriminate.
    + discriminate.
  - apply (proj1 (proj2 (getPackageGenerationStatus_fallback_inference no_faults 10%Z
                           "c1" Samples.unlabelled_started
                           Samples.unlabelled_started_row eq_refl eq_refl))
             Samples.unlabelled_status);
      reflexivity.
  - apply (proj1 (proj2 (proj2 (proj2 (getPackageGenerationStatus_fallback_inference
                                         no_faults 20000%Z "c1" Samples.paid_started
                                         Samples.paid_row eq_refl eq_refl))))
             Samples.idle_view (Samples.talk "c1" true)).
    + vm_compute. discriminate.
    + reflexivity.
    + reflexivity.
    + right. reflexivity.
  - apply (proj2 (proj2 (proj2 (proj2 (getPackageGenerationStatus_fallback_inference
                                         no_faults 20000%Z "c1"
                                         Samples.unlabelled_started
                                         Samples.unlabelled_started_row
                                         eq_refl eq_refl))))
             Samples.idle_view).
    + vm_compute. discriminate.
    + reflexivity.
Defined.

(** *** The character guide *)

(** Unescaping goes through a concatenation whose second part does not
    start with the letter of the escape. *)
Lemma unescape_newlines_app (a : string) (c : ascii) (b : string) :
  c <> "n"%char ->
  TabView.unescape_newlines (a ++ String c b)
  = TabView.unescape_newlines a ++ TabView.unescape_newlines (String c b).
Proof.
  intros Hc.
  assert (H : forall a z,
             TabView.unescape_newlines (String z a ++ String c b)
             = TabView.unescape_newlines (String z a)
               ++ TabView.unescape_newlines (String c b)
             /\ TabView.unescape_newlines (a ++ String c b)
                = TabView.unescape_newlines a ++ TabView.unescape_newlines (String c b)).
  { clear a. induction a as [|y a IH]; intros z.
    - split; [|reflexivity].
      cbn [append]. cbn [TabView.unescape_newlines].
      destruct (ascii_dec z "\"%char) as [->|Hz].
      + destruct (ascii_dec c "n"%char) as [->|_]; [contradiction|].
        destruct c as [[] [] [] [] [] [] [] []]; try reflexivity. contradiction.
      + destruct z as [[] [] [] [] [] [] [] []]; try reflexivity. contradiction.
    - destruct (IH y) as [IH1 IH2]. split; [|exact IH1].
      cbn [append] in *.
      destruct (ascii_dec z "\"%char) as [->|Hz].
      + destruct (ascii_dec y "n"%char) as [->|Hy].
        * cbn [TabView.unescape_newlines]. rewrite IH2. reflexivity.
        * transitivity (String "\" (TabView.unescape_newlines (String y (a ++ String c b)))).
          { destruct y as [[] [] [] [] [] [] [] []]; try reflexivity. contradiction. }
          rewrite IH1.
          destruct y as [[] [] [] [] [] [] [] []]; try reflexivity. contradiction.
      + transitivity (String z (TabView.unescape_newlines (String y (a ++ String c b)))).
        { destruct z as [[] [] [] [] [] [] [] []]; try reflexivity. contradiction. }
        rewrite IH1.
        destruct z as [[] [] [] [] [] [] [] []]; try reflexivity. contradiction. }
  apply H. exact "a"%char.
Qed.

Lemma string_append_assoc (a b c : string) : (a ++ b) ++ c = a ++ b ++ c.
Proof. induction a as [|x a IH]; simpl; [reflexivity|]. now rewrite IH. Qed.

(** *** Saving the content *)

Lemma filter_out_then_in {R} (sel : R -> bool) (rows : list R) :
  filter sel (filter (fun r => negb (sel r)) rows) = [].
Proof.
  induction rows as [|a rows IH]; simpl; [reflexivity|].
  destruct (sel a) eqn:E; simpl; [exact IH|]. rewrite E. exact IH.
Qed.

Lemma filter_out_other {R} (sel other : R -> bool) (rows : list R) :
  (forall r, other r = true -> sel r = false) ->
  filter other (filter (fun r => negb (sel r)) rows) = filter other rows.
Proof.
  intros H. induction rows as [|a rows IH]; simpl; [reflexivity|].
  destruct (sel a) eqn:E; simpl.
  - destruct (other a) eqn:O; [|exact IH]. rewrite (H a O) in E. discriminate.
  - rewrite IH. reflexivity.
Qed.

Lemma characters_of_inserted now p chars :
  filter (fun c => (package_id c =? p)%nat) (map (Service.character_row now p) chars)
  = map (Service.character_row now p) chars.
Proof.
  induction chars as [|a chars IH]; simpl; [reflexivity|].
  rewrite Nat.eqb_refl, IH. reflexivity.
Qed.

Lemma characters_of_others now p q chars :
  q <> p ->
  filter (fun c => (package_id c =? q)%nat) (map (Service.character_row now p) chars)
  = [].
Proof.
  intros H. induction chars as [|a chars IH]; simpl; [reflexivity|].
  destruct (Nat.eqb_spec p q); [congruence|]. exact IH.
Qed.

(** What the deletion followed by the insertion does to the table of
    characters: the rows of the package are exactly the rows built from
    the input, the rows of the other packages are kept. *)
Lemma replaced_characters now p chars (rows : list CharacterRow) :
  filter (fun c => (package_id c =? p)%nat)
    (filter (fun c => negb (package_id c =? p)%nat) rows
     ++ map (Service.character_row now p) chars)
  = map (Service.character_row now p) chars
  /\ forall q, q <> p ->
       filter (fun c => (package_id c =? q)%nat)
         (filter (fun c => negb (package_id c =? p)%nat) rows
          ++ map (Service.character_row now p) chars)
       = filter (fun c => (package_id c =? q)%nat) rows.
Proof.
  split.
  - rewrite filter_app, characters_of_inserted.
    rewrite (filter_out_then_in (fun c => (package_id c =? p)%nat)). reflexivity.
  - intros q Hq. rewrite filter_app, characters_of_others, app_nil_r by assumption.
    apply filter_out_other. intros r Hr. apply Nat.eqb_eq in Hr.
    apply Nat.eqb_neq. congruence.
Qed.

(** C9, as stated, fails for a save without characters: the call
    succeeds, the three rows of the package stay, and the character set
    of the package is not the (empty) one of the data supplied. *)
Lemma characters_kept_when_none_supplied :
  exists w',
    Service.saveStructuredPackageData no_faults 20%Z "c1"
      (Some {| properties := [("title", Js.Str "T")]; character_list := Some [] |})
      Samples.finished = (Returned tt, w')
    /\ Client.characters_of (db w') 1 = Samples.three_guests
    /\ Client.characters_of (db w') 1
       <> map (Service.character_row 20%Z 1) (@nil Js.Object)
    /\ store_writes (log w') = 2.
Proof.
  eexists. repeat split. simpl. discriminate.
Qed.

(** C9, amended.  After every successful call of
    [saveStructuredPackageData], the package row of the conversation (the
    latest one, or the one created by the call) is in the store; when the
    data supplied holds a non-empty array of characters, the character
    rows of that package are exactly the rows built from the array, in its
    order, none of the former rows of the package being left, and the rows
    of the other packages are as before; when it holds no character, the
    table of characters is left as it is. *)
Theorem saveStructuredPackageData_replaces_characters
  faults now mysteryId jsonData w w' :
  Service.saveStructuredPackageData faults now mysteryId jsonData w
  = (Returned tt, w') ->
  exists j p,
    jsonData = Some j
    /\ p = match Client.latest_package (db w) mysteryId with
           | Some r => id r
           | None => Client.fresh_id (mystery_packages (db w))
           end
    /\ job_stored (db w') mysteryId p
    /\ (Normalized.characters (Service.normalize j) <> [] ->
        Client.characters_of (db w') p
        = map (Service.character_row now p) (Normalized.characters (Service.normalize j))
        /\ forall q, q <> p ->
             Client.characters_of (db w') q = Client.characters_of (db w) q)
    /\ (Normalized.characters (Service.normalize j) = [] ->
        mystery_characters (db w') = mystery_characters (db w)).
Proof.
  unfold Service.saveStructuredPackageData, Service.throw_on,
    Client.select_latest_package, Client.read_latest_package, Client.insert_package,
    Client.write, try_catch, bind, ret, throw.
  destruct jsonData as [j|]; [|discriminate].
  destruct (faults SaveFetchPackage); cbn [reply_error data]; [discriminate|].
  destruct (Client.latest_package (db w) mysteryId) as [r|] eqn:L.
  - destruct (faults SaveUpdatePackage); [discriminate|].
    assert (Hjob : forall d, mystery_packages d
                   = Client.update_where (fun x => (id x =? id r)%nat)
                       (fun x =>
                          {| id := id x;
                             conversation_id := conversation_id x;
                             content := Service.saved_content (Service.normalize j) (content x);
                             generation_status := SObject Service.savedStatus;
                             generation_started_at := generation_started_at x;
                             generation_completed_at := Some now;
                             created_at := created_at x;
                             updated_at := now |}) (mystery_packages (db w)) ->
                   job_stored d mysteryId (id r)).
    { intros d Hd. apply latest_package_in in L. destruct L as [L1 L2].
      destruct (in_update_where_kept (fun x => (id x =? id r)%nat)
                  (fun x =>
                     {| id := id x;
                        conversation_id := conversation_id x;
                        content := Service.saved_content (Service.normalize j) (content x);
                        generation_status := SObject Service.savedStatus;
                        generation_started_at := generation_started_at x;
                        generation_completed_at := Some now;
                        created_at := created_at x;
                        updated_at := now |})
                  (mystery_packages (db w))
                  (fun x => id x = id r /\ conversation_id x = mysteryId) r)
        as [r' [Hin [Hq Hc]]]; auto.
      exists r'. rewrite Hd. auto. }
    destruct (Normalized.characters (Service.normalize j)) as [|ch chs] eqn:C.
    + destruct (faults SaveUpdateConversation); [discriminate|].
      intros H. inversion H; subst w'; clear H. exists j, (id r). rewrite C.
      split; [reflexivity|]. split; [reflexivity|]. split; [now apply Hjob|].
      split; [intros Hne; now elim Hne|]. reflexivity.
    + destruct (faults SaveDeleteCharacters); [discriminate|].
      destruct (faults SaveInsertCharacters); [discriminate|].
      destruct (faults SaveUpdateConversation); [discriminate|].
      intros H. inversion H; subst w'; clear H. exists j, (id r). rewrite C.
      split; [reflexivity|]. split; [reflexivity|]. split; [now apply Hjob|].
      split; [|discriminate]. intros Hne.
      unfold Client.characters_of, Client.with_db, Client.log_event,
        Client.set_conversations, Client.set_characters, Client.set_packages.
      cbn [db mystery_characters].
      apply (replaced_characters now (id r) (ch :: chs)).
  - destruct (faults SaveCreatePackage); cbn [reply_error data]; [discriminate|].
    assert (Hjob : forall d row,
               mystery_packages d = (mystery_packages (db w) ++ [row])%list ->
               id row = Client.fresh_id (mystery_packages (db w)) ->
               conversation_id row = mysteryId ->
               job_stored d mysteryId (Client.fresh_id (mystery_packages (db w)))).
    { intros d row Hd Hid Hconv. exists row. rewrite Hd. split; [|auto].
      apply in_or_app. right. now left. }
    destruct (Normalized.characters (Service.normalize j)) as [|ch chs] eqn:C.
    + destruct (faults SaveUpdateConversation); [discriminate|].
      intros H. inversion H; subst w'; clear H.
      exists j, (Client.fresh_id (mystery_packages (db w))). rewrite C.
      split; [reflexivity|]. split; [reflexivity|].
      split; [eapply Hjob; reflexivity|].
      split; [intros Hne; now elim Hne|]. reflexivity.
    + destruct (faults SaveDeleteCharacters); [discriminate|].
      destruct (faults SaveInsertCharacters); [discriminate|].
      destruct (faults SaveUpdateConversation); [discriminate|].
      intros H. inversion H; subst w'; clear H.
      exists j, (Client.fresh_id (mystery_packages (db w))). rewrite C.
      split; [reflexivity|]. split; [reflexivity|].
      split; [eapply Hjob; reflexivity|].
      split; [|discriminate]. intros Hne.
      unfold Client.characters_of, Client.with_db, Client.log_event,
        Client.set_conversations, Client.set_characters, Client.set_packages.
      cbn [db mystery_characters].
      apply (replaced_characters now (Client.fresh_id (mystery_packages (db w)))
               (ch :: chs)).
Qed.

Lemma saveStructuredPackageData_replaces_characters_witness :
  exists j p,
    Some Samples.new_cast = Some j
    /\ p = match Client.latest_package (db Samples.finished) "c1" with
           | Some r => id r
           | None => Client.fresh_id (mystery_packages (db Samples.finished))
           end
    /\ job_stored
         (db (snd (Service.saveStructuredPackageData no_faults 20%Z "c1"
                     (Some Samples.new_cast) Samples.finished))) "c1" p
    /\ (Normalized.characters (Service.normalize j) <> [] ->
        Client.characters_of
          (db (snd (Service.saveStructuredPackageData no_faults 20%Z "c1"
                      (Some Samples.new_cast) Samples.finished))) p
        = map (Service.character_row 20%Z p) (Normalized.characters (Service.normalize j))
        /\ forall q, q <> p ->
             Client.characters_of
               (db (snd (Service.saveStructuredPackageData no_faults 20%Z "c1"
                           (Some Samples.new_cast) Samples.finished))) q
             = Client.characters_of (db Samples.finished) q)
    /\ (Normalized.characters (Service.normalize j) = [] ->
        mystery_characters
          (db (snd (Service.saveStructuredPackageData no_faults 20%Z "c1"
                      (Some Samples.new_cast) Samples.finished)))
        = mystery_characters (db Samples.finished)).
Proof.
  apply (saveStructuredPackageData_replaces_characters no_faults 20%Z "c1"
           (Some Samples.new_cast) Samples.finished).
  reflexivity.
Defined.

(** *** The e-mail functions *)

(** C10.  Whatever the request, the key and the answers of the provider,
    both e-mail functions answer with HTTP status 200.  When the key is
    missing, when the provider answers with an error, and when the body of
    the request cannot be read, the status is still 200 and the failure
    shows only in the body, as [success: false]: in the status, a failed
    send is the same as a successful one. *)
Theorem email_functions_always_answer_200 :
  (forall key resend req,
      Email.status (Email.send_character_email key resend req) = 200)
  /\ (forall key guide detective first req,
         Email.status (Email.send_host_email key guide detective first req) = 200)
  /\ (forall resend o,
         Email.send_character_email None resend
           {| Email.method := "POST"; Email.json := inr o |}
         = {| Email.status := 200;
              Email.body := Email.Json false "RESEND_API_KEY not configured" |})
  /\ (forall key code text json_error o,
         Email.configured (Some key) = true ->
         Email.send_character_email (Some key)
           (Email.HttpResponse false code text json_error)
           {| Email.method := "POST"; Email.json := inr o |}
         = {| Email.status := 200;
              Email.body := Email.Json false ("Failed to send email: "
                                              ++ Email.decimal code) |})
  /\ (forall key resend reason,
         Email.send_character_email key resend
           {| Email.method := "POST"; Email.json := inl reason |}
         = {| Email.status := 200; Email.body := Email.Json false reason |})
  /\ (forall guide detective first o,
         Email.send_host_email None guide detective first
           {| Email.method := "POST"; Email.json := inr o |}
         = {| Email.status := 200;
              Email.body := Email.Json false "RESEND_API_KEY not configured" |})
  /\ (forall key code text json_error detective o,
         Email.configured (Some key) = true ->
         Email.send_host_email (Some key)
           (Email.HttpResponse false code text json_error) detective false
           {| Email.method := "POST"; Email.json := inr o |}
         = {| Email.status := 200;
              Email.body := Email.Json false ("Failed to send email: "
                                              ++ Email.decimal code ++ " - " ++ text) |})
  /\ (forall key guide detective first reason,
         Email.send_host_email key guide detective first
           {| Email.method := "POST"; Email.json := inl reason |}
         = {| Email.status := 200; Email.body := Email.Json false reason |})
  /\ (forall key resend o,
         Email.status
           (Email.send_character_email (Some key) (Email.HttpResponse true 200 "" None)
              {| Email.method := "POST"; Email.json := inr o |})
         = Email.status
             (Email.send_character_email None resend
                {| Email.method := "POST"; Email.json := inr o |})).
Proof.
  assert (Hc : forall key resend req,
             Email.status (Email.send_character_email key resend req) = 200).
  { intros key resend req. unfold Email.send_character_email.
    destruct (Email.method req =? "OPTIONS"); [reflexivity|].
    destruct (Email.json req); [reflexivity|].
    destruct (negb (Email.configured key)); [reflexivity|].
    destruct resend as [reason|ok code text json_error]; [reflexivity|].
    destruct (negb ok); [reflexivity|]. destruct json_error; reflexivity. }
  assert (Hh : forall key guide detective first req,
             Email.status (Email.send_host_email key guide detective first req) = 200).
  { intros key guide detective first req. unfold Email.send_host_email.
    destruct (Email.method req =? "OPTIONS"); [reflexivity|].
    destruct (Email.json req); [reflexivity|].
    destruct (negb (Email.configured key)); [reflexivity|].
    destruct (Email.promise_all _ _ _); reflexivity. }
  split; [exact Hc|]. split; [exact Hh|].
  split; [reflexivity|].
  split.
  { intros key code text json_error o K. unfold Email.send_character_email.
    cbn [Email.method Email.json]. rewrite K. reflexivity. }
  split; [reflexivity|]. split; [reflexivity|].
  split.
  { intros key code text json_error detective o K. unfold Email.send_host_email.
    cbn [Email.method Email.json]. rewrite K. cbn [negb Email.sendEmail].
    destruct (Email.sendEmail detective); reflexivity. }
  split; [reflexivity|].
  intros key resend o. now rewrite !Hc.
Qed.

Lemma email_functions_always_answer_200_witness :
  Email.send_character_email (Some "re_key") (Email.HttpResponse false 422 "bad" None)
    {| Email.method := "POST"; Email.json := inr [] |}
  = {| Email.status := 200;
       Email.body := Email.Json false "Failed to send email: 422" |}
  /\ Email.send_host_email (Some "re_key") (Email.HttpResponse false 500 "down" None)
       (Email.HttpResponse true 200 "" None) false
       {| Email.method := "POST"; Email.json := inr [] |}
     = {| Email.status := 200;
          Email.body := Email.Json false "Failed to send email: 500 - down" |}.
Proof.
  split.
  - apply (proj1 (proj2 (proj2 (proj2 email_functions_always_answer_200)))
             "re_key" 422 "bad" None []).
    reflexivity.
  - apply (proj1 (proj2 (proj2 (proj2 (proj2 (proj2
             (proj2 email_functions_always_answer_200))))))
             "re_key" 500 "down" None (Email.HttpResponse true 200 "" None) []).
    reflexivity.
Defined.

(** ** Further properties of the package service *)

(** *** [getPackageGenerationStatus]: what a call can do *)

(** A call leaves the world as it is, or sends the corrective write, which
    takes effect or not. *)
Lemma status_world_effect faults now mysteryId w :
  let w' := snd (Service.getPackageGenerationStatus faults now mysteryId w) in
  w' = w
  \/ w' = Client.log_event
            (StoreWrite (UpdatePackageByConversation mysteryId
                           (SObject Service.completedStatus_json))) w
  \/ w' = Client.with_db
            (Client.set_packages
               (Client.update_where (Client.of_conversation mysteryId)
                  (fun r => Service.with_job r (SObject Service.completedStatus_json)
                              (generation_started_at r) (Some now) now)))
            (Client.log_event
               (StoreWrite (UpdatePackageByConversation mysteryId
                              (SObject Service.completedStatus_json))) w).
Proof.
  unfold_status. destruct (faults StatusFetch); simpl; [now left|].
  destruct (Client.latest_package (db w) mysteryId) as [r|]; simpl; [|now left].
  match goal with |- context [if ?c then _ else _] => destruct c end; simpl.
  - destruct (faults StatusCorrect); simpl.
    + right; left. destruct (generation_status r); simpl; try reflexivity;
        repeat match goal with |- context [if ?c then _ else _] => destruct c end;
        reflexivity.
    + right; right. reflexivity.
  - left. destruct (generation_status r); simpl; try reflexivity;
      repeat match goal with |- context [if ?c then _ else _] => destruct c end;
      reflexivity.
Qed.

(** The value returned for a row that needs no correction. *)
Lemma status_settled_row faults now mysteryId w r :
  faults StatusFetch = None ->
  Client.latest_package (db w) mysteryId = Some r ->
  Service.contentComplete
    {| Service.row := r; Service.characters := Service.characters_count (db w) (id r) |}
  && Service.json_truthy (generation_status r)
  && negb (Service.status_is (generation_status r) "completed") = false ->
  Service.getPackageGenerationStatus faults now mysteryId w
  = (Returned
       match generation_status r with
       | SObject o => Service.normalizedStatus o
       | _ =>
           if Service.isSome (generation_completed_at r)
              || Service.contentComplete
                   {| Service.row := r;
                      Service.characters := Service.characters_count (db w) (id r) |}
           then Service.completedStatus
           else if Service.isSome (generation_started_at r)
                then Service.inProgressStatus
                else Service.notStartedStatus
       end, w).
Proof.
  intros F L C. unfold_status. rewrite F. cbn [data reply_error]. rewrite L.
  cbv beta iota. cbn [Service.row]. rewrite C.
  destruct (generation_status r); try reflexivity;
    repeat match goal with |- context [if ?c then _ else _] => destruct c end;
    reflexivity.
Qed.

(** X1.  Running [getPackageGenerationStatus] twice is the same as running
    it once: whatever the store holds, when the read and the corrective
    write of the first call succeed and the read of the second call
    succeeds, the second call returns what the first returned and leaves
    the store and the log as the first call left them. *)
Theorem getPackageGenerationStatus_idempotent
  faults1 faults2 now1 now2 mysteryId w :
  faults1 StatusFetch = None ->
  faults1 StatusCorrect = None ->
  faults2 StatusFetch = None ->
  Service.getPackageGenerationStatus faults2 now2 mysteryId
    (snd (Service.getPackageGenerationStatus faults1 now1 mysteryId w))
  = Service.getPackageGenerationStatus faults1 now1 mysteryId w.
Proof.
  intros F1 F2 F3.
  destruct (Client.latest_package (db w) mysteryId) as [r|] eqn:L.
  - destruct (Service.contentComplete
                {| Service.row := r;
                   Service.characters := Service.characters_count (db w) (id r) |}
              && Service.json_truthy (generation_status r)
              && negb (Service.status_is (generation_status r) "completed")) eqn:C.
    + apply andb_prop in C. destruct C as [C C3]. apply andb_prop in C.
      destruct C as [C1 C2]. apply negb_true_iff in C3.
      rewrite (status_drifted_row faults1 now1 mysteryId w r F1 L C1 C2 C3), F2.
      cbn [snd].
      destruct (latest_after_correction now1 mysteryId (db w) r L) as [r1 [L1 G1]].
      match goal with |- Service.getPackageGenerationStatus _ _ _ ?w1 = _ =>
        destruct (status_completed_row faults2 now2 mysteryId w1 r1 F3 L1)
          as [o [Go [Run _]]]
      end.
      { rewrite G1. reflexivity. }
      rewrite Run. rewrite G1 in Go. inversion Go. reflexivity.
    + rewrite (status_settled_row faults1 now1 mysteryId w r F1 L C). cbn [snd].
      apply (status_settled_row faults2 now2 mysteryId w r F3 L C).
  - rewrite (status_no_row faults1 now1 mysteryId w F1 L). cbn [snd].
    apply status_no_row; assumption.
Qed.

Lemma getPackageGenerationStatus_idempotent_witness :
  Service.getPackageGenerationStatus no_faults 20%Z "c1"
    (snd (Service.getPackageGenerationStatus no_faults 10%Z "c1" Samples.paid_started))
  = Service.getPackageGenerationStatus no_faults 10%Z "c1" Samples.paid_started.
Proof.
  apply (getPackageGenerationStatus_idempotent no_faults no_faults 10%Z 20%Z "c1"
           Samples.paid_started); reflexivity.
Defined.

(** X2.  Content is a higher authority than the status field: when the
    latest package row has a title, a host guide and at least one
    character, and the read succeeds, the status returned is [completed]
    whatever the [generation_status] column holds (nothing, a value that
    is not an object, an object without status, an unknown status),
    provided the corrective write succeeds or the stored value is not an
    object. *)
Theorem getPackageGenerationStatus_content_wins faults now mysteryId w r :
  faults StatusFetch = None ->
  Client.latest_package (db w) mysteryId = Some r ->
  Js.present (title (content r)) = true ->
  Js.present (host_guide (content r)) = true ->
  0 < length (Client.characters_of (db w) (id r)) ->
  faults StatusCorrect = None \/ (forall o, generation_status r <> SObject o) ->
  exists s w',
    Service.getPackageGenerationStatus faults now mysteryId w = (Returned s, w')
    /\ status s = "completed"
    /\ (Service.status_of (generation_status r) <> Some "completed" ->
        s = Service.completedStatus).
Proof.
  intros F L T G N H.
  assert (Hc : Service.contentComplete
                 {| Service.row := r;
                    Service.characters := Service.characters_count (db w) (id r) |} = true).
  { unfold Service.contentComplete, Service.hasContent, Service.hasCharacters. simpl.
    rewrite T, G. reflexivity. }
  destruct (Service.json_truthy (generation_status r)
            && negb (Service.status_is (generation_status r) "completed")) eqn:C.
  - apply andb_prop in C. destruct C as [C2 C3]. apply negb_true_iff in C3.
    rewrite (status_drifted_row faults now mysteryId w r F L Hc C2 C3).
    destruct (faults StatusCorrect) eqn:Fc.
    + destruct H as [H|H]; [discriminate|].
      destruct (generation_status r) as [| t | o]; [| |exfalso; now apply (H o)];
        eexists; eexists; repeat split.
    + eexists; eexists. repeat split.
  - rewrite (status_settled_row faults now mysteryId w r F L)
      by (rewrite Hc; exact C).
    rewrite Hc, orb_true_r.
    destruct (generation_status r) as [| t | o] eqn:E;
      try (eexists; eexists; repeat split; fail).
    cbn [Service.json_truthy andb] in C. apply negb_false_iff in C.
    unfold Service.status_is in C. cbn [Service.status_of] in C.
    destruct (Stored.status o) as [s|] eqn:S; [|discriminate].
    apply String.eqb_eq in C. subst s.
    eexists; eexists. split; [reflexivity|]. split.
    + unfold Service.normalizedStatus. cbn [status]. rewrite S. reflexivity.
    + intros Hn. exfalso. apply Hn. cbn [Service.status_of]. exact S.
Qed.

Lemma getPackageGenerationStatus_content_wins_witness :
  exists s w',
    Service.getPackageGenerationStatus no_faults 10%Z "c1" More.paused = (Returned s, w')
    /\ status s = "completed"
    /\ (Service.status_of (generation_status More.paused_row) <> Some "completed" ->
        s = Service.completedStatus).
Proof.
  apply (getPackageGenerationStatus_content_wins no_faults 10%Z "c1" More.paused
           More.paused_row); try reflexivity.
  - simpl. lia.
  - left. reflexivity.
Defined.

Lemma store_writes_app l e :
  store_writes (l ++ [e]) = store_writes l + (if is_outbound e then 0 else 1).
Proof.
  unfold store_writes. rewrite filter_app, length_app. simpl.
  destruct (is_outbound e); reflexivity.
Qed.

Lemma filter_update_where_untouched {R} (keep sel : R -> bool) (change : R -> R)
  (rows : list R) :
  (forall r, In r rows -> sel r = true -> keep r = false) ->
  (forall r, keep (change r) = keep r) ->
  filter keep (Client.update_where sel change rows) = filter keep rows.
Proof.
  intros Hsel Hkeep. unfold Client.update_where.
  induction rows as [|a rows IH]; simpl; [reflexivity|].
  rewrite IH by (intros r Hr; apply Hsel; now right).
  destruct (sel a) eqn:E; [|reflexivity].
  rewrite Hkeep, (Hsel a (or_introl eq_refl) E). reflexivity.
Qed.

(** X3.  A call of [getPackageGenerationStatus] never calls the external
    trigger and sends at most one write request; it never changes the
    characters, the conversations, or the package rows of another
    conversation. *)
Theorem getPackageGenerationStatus_frame faults now mysteryId w :
  let w' := snd (Service.getPackageGenerationStatus faults now mysteryId w) in
  outbound_calls (log w') = outbound_calls (log w)
  /\ store_writes (log w') <= store_writes (log w) + 1
  /\ mystery_characters (db w') = mystery_characters (db w)
  /\ conversations (db w') = conversations (db w)
  /\ filter (fun r => negb (Client.of_conversation mysteryId r)) (mystery_packages (db w'))
     = filter (fun r => negb (Client.of_conversation mysteryId r)) (mystery_packages (db w)).
Proof.
  intros w'. subst w'.
  destruct (status_world_effect faults now mysteryId w) as [E|[E|E]]; rewrite E.
  - repeat split; lia.
  - simpl. rewrite outbound_calls_app, store_writes_app. simpl.
    repeat split; lia.
  - simpl. rewrite outbound_calls_app, store_writes_app. simpl.
    repeat split; try lia.
    apply filter_update_where_untouched.
    + intros r _ Hr. now rewrite Hr.
    + intros r. reflexivity.
Qed.

(** X4.  The corrective write is by conversation, not by row: when it is
    sent and succeeds, every package row of the conversation, the latest
    one and the older ones alike, is stored as [completed] with the
    completion date and the update date of the call, the other columns
    being kept; the table keeps its rows in number and order. *)
Theorem getPackageGenerationStatus_corrects_every_row faults now mysteryId w r :
  faults StatusFetch = None ->
  faults StatusCorrect = None ->
  Client.latest_package (db w) mysteryId = Some r ->
  Service.contentComplete
    {| Service.row := r; Service.characters := Service.characters_count (db w) (id r) |}
  = true ->
  Service.json_truthy (generation_status r) = true ->
  Service.status_is (generation_status r) "completed" = false ->
  Forall2
    (fun before after =>
       if conversation_id before =? mysteryId
       then after
            = {| id := id before;
                 conversation_id := conversation_id before;
                 content := content before;
                 generation_status := SObject Service.completedStatus_json;
                 generation_started_at := generation_started_at before;
                 generation_completed_at := Some now;
                 created_at := created_at before;
                 updated_at := now |}
       else after = before)
    (mystery_packages (db w))
    (mystery_packages
       (db (snd (Service.getPackageGenerationStatus faults now mysteryId w)))).
Proof.
  intros F Fc L C T S.
  rewrite (status_drifted_row faults now mysteryId w r F L C T S), Fc. simpl.
  unfold Client.update_where.
  induction (mystery_packages (db w)) as [|a rows IH]; simpl; constructor; auto.
  unfold Client.of_conversation. destruct (conversation_id a =? mysteryId); reflexivity.
Qed.

Lemma getPackageGenerationStatus_corrects_every_row_witness :
  Forall2
    (fun before after =>
       if conversation_id before =? "c1"
       then after
            = {| id := id before;
                 conversation_id := conversation_id before;
                 content := content before;
                 generation_status := SObject Service.completedStatus_json;
                 generation_started_at := generation_started_at before;
                 generation_completed_at := Some 10%Z;
                 created_at := created_at before;
                 updated_at := 10%Z |}
       else after = before)
    (mystery_packages (db More.crowded))
    (mystery_packages
       (db (snd (Service.getPackageGenerationStatus no_faults 10%Z "c1" More.crowded)))).
Proof.
  apply (getPackageGenerationStatus_corrects_every_row no_faults 10%Z "c1"
           More.crowded More.new_row); reflexivity.
Defined.

(** *** [generateCompletePackage]: what a call can do *)

Lemma update_where_same {R} (sel : R -> bool) (rows : list R) :
  Client.update_where sel (fun r => r) rows = rows.
Proof.
  unfold Client.update_where. induction rows as [|a rows IH]; simpl; [reflexivity|].
  rewrite IH. destruct (sel a); reflexivity.
Qed.

Lemma updated_by_id_refl p d : Effects.updated_by_id p d d.
Proof.
  split; [reflexivity|]. split; [reflexivity|].
  exists (fun r => r). split; [auto|]. now rewrite update_where_same.
Qed.

Lemma updated_by_id_trans p d1 d2 d3 :
  Effects.updated_by_id p d1 d2 -> Effects.updated_by_id p d2 d3 ->
  Effects.updated_by_id p d1 d3.
Proof.
  intros [C1 [V1 [g1 [H1 E1]]]] [C2 [V2 [g2 [H2 E2]]]].
  split; [congruence|]. split; [congruence|].
  exists (fun r => g2 (g1 r)). split.
  - intros x. destruct (H1 x) as [A B]. destruct (H2 (g1 x)) as [A' B'].
    split; congruence.
  - rewrite E2, E1. apply update_where_twice.
    intros r. destruct (H1 r) as [A _]. now rewrite A.
Qed.

Lemma update_status_by_id_step faults now site p s w :
  exists w',
    Service.update_status_by_id faults now site p s w = (Returned (faults site), w')
    /\ log w' = (log w ++ [StoreWrite (UpdatePackageById p (SObject s))])%list
    /\ Effects.updated_by_id p (db w) (db w').
Proof.
  unfold Service.update_status_by_id, Client.write.
  destruct (faults site) eqn:F; eexists; (split; [reflexivity|]);
    (split; [reflexivity|]); simpl.
  - apply updated_by_id_refl.
  - split; [reflexivity|]. split; [reflexivity|].
    eexists. split; [|reflexivity]. intros x. split; reflexivity.
Qed.

Lemma calls_app l l' : Effects.calls (l ++ l') = (Effects.calls l ++ Effects.calls l')%list.
Proof. apply filter_app. Qed.

(** The call of the trigger and the write that follows it. *)
Lemma call_trigger_step faults now p mysteryId testMode fr :
  exists o w1 after,
    Service.call_trigger faults now p mysteryId testMode fr
    = (o, {| Service.packageId := Service.packageId fr; Service.world := w1 |})
    /\ log w1
       = (log (Service.world fr)
          ++ Invoke "mystery-webhook-trigger" mysteryId testMode :: after)%list
    /\ Effects.calls after = []
    /\ Effects.updated_by_id p (db (Service.world fr)) (db w1)
    /\ (o = Returned None
        \/ exists e, faults GenWebhook = Some e
                     /\ o = Thrown ("Failed to trigger generation: " ++ message e)).
Proof.
  unfold Service.call_trigger, Service.in_world, Client.functions_invoke, bind, throw, ret.
  cbn [Service.world Service.packageId].
  destruct (faults GenWebhook) as [e|] eqn:F; cbn [Service.world Service.packageId].
  - destruct (update_status_by_id_step faults now GenFailedUpdate p
                (Service.triggerFailedStatus (message e))
                (Client.log_event (Invoke "mystery-webhook-trigger" mysteryId testMode)
                   (Service.world fr))) as [w1 [Run [Hlog Hdb]]].
    rewrite Run. eexists _, w1, [_]. split; [reflexivity|]. split.
    { rewrite Hlog. simpl. rewrite <- app_assoc. reflexivity. }
    split; [reflexivity|]. split; [exact Hdb|]. right. exists e. auto.
  - destruct (update_status_by_id_step faults now GenProgressUpdate p
                Service.processingStatus
                (Client.log_event (Invoke "mystery-webhook-trigger" mysteryId testMode)
                   (Service.world fr))) as [w1 [Run [Hlog Hdb]]].
    rewrite Run. eexists _, w1, [_]. split; [reflexivity|]. split.
    { rewrite Hlog. simpl. rewrite <- app_assoc. reflexivity. }
    split; [reflexivity|]. split; [exact Hdb|]. left. reflexivity.
Qed.

Lemma generate_catch_step faults now reason p w :
  exists w2 after,
    Service.generate_catch faults now reason
      {| Service.packageId := Some p; Service.world := w |}
    = (Thrown ("Package generation failed: " ++ reason),
       {| Service.packageId := Some p; Service.world := w2 |})
    /\ log w2 = (log w ++ after)%list
    /\ Effects.calls after = []
    /\ Effects.updated_by_id p (db w) (db w2).
Proof.
  unfold Service.generate_catch, Service.read_packageId, Service.in_world, bind, ret, throw.
  cbn [Service.world Service.packageId].
  destruct (update_status_by_id_step faults now GenCatchUpdate p
              (Service.unexpectedFailedStatus reason) w) as [w2 [Run [Hlog Hdb]]].
  rewrite Run. exists w2. eexists [_]. split; [reflexivity|]. split; [exact Hlog|].
  split; [reflexivity|exact Hdb].
Qed.

(** The creation or update of the package row, with what it does to the
    store. *)
Lemma create_or_update_package_step faults now mysteryId w :
  exists o w1 before,
    Service.create_or_update_package faults now mysteryId
      {| Service.packageId := None; Service.world := w |}
    = (o, {| Service.packageId :=
               match o with
               | Returned p => Some p
               | Thrown _ => None
               end;
             Service.world := w1 |})
    /\ log w1 = (log w ++ before)%list
    /\ Effects.calls before = []
    /\ match o with
       | Returned p =>
           (exists r, Client.latest_package (db w) mysteryId = Some r /\ p = id r
                      /\ Effects.updated_by_id p (db w) (db w1))
           \/ (exists row, id row = p /\ Effects.inserted mysteryId row (db w) (db w1))
       | Thrown _ => db w1 = db w
       end.
Proof.
  unfold Service.create_or_update_package, Service.in_world, Service.assign_packageId,
    Client.select_latest_package, Client.read_latest_package, Client.insert_package,
    Client.write, bind, ret, throw.
  cbn [Service.world Service.packageId].
  assert (Hinsert :
            exists row,
              id row = Client.fresh_id (mystery_packages (db w))
              /\ Effects.inserted mysteryId row (db w)
                   (Client.set_packages
                      (fun rows =>
                         (rows ++ [{| id := Client.fresh_id (mystery_packages (db w));
                                      conversation_id := mysteryId;
                                      content := Service.no_content;
                                      generation_status := SObject Service.initialStatus;
                                      generation_started_at := Some now;
                                      generation_completed_at := None;
                                      created_at := now;
                                      updated_at := now |}])%list)
                      (db w))).
  { exists {| id := Client.fresh_id (mystery_packages (db w));
              conversation_id := mysteryId;
              content := Service.no_content;
              generation_status := SObject Service.initialStatus;
              generation_started_at := Some now;
              generation_completed_at := None;
              created_at := now;
              updated_at := now |}.
    split; [reflexivity|]. unfold Effects.inserted. simpl. auto. }
  destruct (faults GenCheckPackage) as [checkError|] eqn:F; cbn [reply_error data].
  - destruct (negb (code checkError =? "PGRST116")).
    + exists (Thrown "Failed to check existing package"), w, [].
      rewrite app_nil_r. auto.
    + cbn [Service.world Service.packageId].
      destruct (faults GenCreatePackage) eqn:Fc; cbn [reply_error data].
      * eexists (Thrown _), _, [_]. repeat split.
      * eexists (Returned _), _, [_]. split; [reflexivity|].
        split; [reflexivity|]. split; [reflexivity|]. right.
        unfold Client.with_db, Client.log_event; cbn [db Service.world].
        exact Hinsert.
  - destruct (Client.latest_package (db w) mysteryId) as [r|] eqn:L;
      cbn [Service.world Service.packageId].
    + destruct (faults GenInitialUpdate) eqn:Fi.
      * eexists (Returned _), _, [_]. split; [reflexivity|].
        split; [reflexivity|]. split; [reflexivity|]. left.
        exists r. split; [reflexivity|]. split; [reflexivity|].
        apply updated_by_id_refl.
      * eexists (Returned _), _, [_]. split; [reflexivity|].
        split; [reflexivity|]. split; [reflexivity|]. left.
        exists r. split; [reflexivity|]. split; [reflexivity|].
        unfold Client.with_db, Client.log_event; cbn [db Service.world].
        split; [reflexivity|]. split; [reflexivity|].
        eexists. split; [|reflexivity]. intros x. split; reflexivity.
    + destruct (faults GenCreatePackage) eqn:Fc; cbn [reply_error data].
      * eexists (Thrown _), _, [_]. repeat split.
      * eexists (Returned _), _, [_]. split; [reflexivity|].
        split; [reflexivity|]. split; [reflexivity|]. right.
        unfold Client.with_db, Client.log_event; cbn [db Service.world].
        exact Hinsert.
Qed.

(** The three ways a call of [generateCompletePackage] can go: it stops at
    the guard; it throws before the trigger is reached; or it creates or
    updates the job row and calls the trigger once. *)
Lemma generate_effect faults now mysteryId testMode w :
  exists o w',
    Service.generateCompletePackage faults now mysteryId testMode w = (o, w')
    /\ (((o = Returned "already_completed" \/ o = Returned "already_in_progress")
         /\ w' = w)
        \/ (exists m before,
               o = Thrown ("Package generation failed: " ++ m)
               /\ log w' = (log w ++ before)%list
               /\ Effects.calls before = []
               /\ db w' = db w)
        \/ (exists p before after d1,
               (o = Returned "Package generation started successfully"
                \/ exists m, o = Thrown ("Package generation failed: " ++ m))
               /\ log w'
                  = (log w ++ before
                     ++ Invoke "mystery-webhook-trigger" mysteryId testMode :: after)%list
               /\ Effects.calls before = []
               /\ Effects.calls after = []
               /\ ((exists r, Client.latest_package (db w) mysteryId = Some r
                              /\ p = id r /\ d1 = db w)
                   \/ (exists row, id row = p
                                   /\ Effects.inserted mysteryId row (db w) d1))
               /\ Effects.updated_by_id p d1 (db w'))).
Proof.
  unfold Service.generateCompletePackage, Service.generate_try.
  unfold try_catch, bind, Service.in_world, Client.select_latest_package,
    Client.select_conversation.
  cbn [Service.world Service.packageId].
  destruct (Service.duplicate_guard
              (Client.read_latest_package faults GenExistingPackage (db w) mysteryId))
    as [answer|] eqn:G.
  { cbn. eexists _, w. split; [reflexivity|]. left. split; [|reflexivity].
    unfold Service.duplicate_guard in G.
    destruct (reply_error _); [discriminate|]. destruct (data _); [|discriminate].
    destruct (Service.status_is _ "completed"); [inversion G; auto|].
    destruct (Service.status_is _ "in_progress"); [inversion G; auto|discriminate]. }
  cbn [Service.world Service.packageId].
  destruct (Service.isSome
              (reply_error (Client.read_conversation faults GenConversation (db w) mysteryId))
            || negb (Service.isSome
                       (data (Client.read_conversation faults GenConversation (db w)
                                mysteryId)))).
  { cbn. eexists _, w. split; [reflexivity|]. right; left.
    eexists _, []. rewrite app_nil_r. auto. }
  destruct (create_or_update_package_step faults now mysteryId w)
    as [o [w1 [before [Run [Hlog [Hout Hdb]]]]]].
  rewrite Run. destruct o as [p|reason].
  - destruct (call_trigger_step faults now p mysteryId testMode
                {| Service.packageId := Some p; Service.world := w1 |})
      as [o2 [w2 [after [Run2 [Hlog2 [Hout2 [Hdb2 Ho2]]]]]]].
    rewrite Run2. cbn [Service.world Service.packageId] in *.
    assert (Hfrom : exists d1,
               ((exists r, Client.latest_package (db w) mysteryId = Some r
                           /\ p = id r /\ d1 = db w)
                \/ (exists row, id row = p
                                /\ Effects.inserted mysteryId row (db w) d1))
               /\ Effects.updated_by_id p d1 (db w2)).
    { destruct Hdb as [[r [L [Hp Hu]]]|[row [Hid Hins]]].
      - exists (db w). split; [left; exists r; auto|].
        now apply (updated_by_id_trans p _ (db w1)).
      - exists (db w1). split; [right; exists row; auto|exact Hdb2]. }
    destruct Hfrom as [d1 [Hd1 Hu]].
    destruct Ho2 as [->|[e [Fe ->]]].
    + cbn. eexists _, w2. split; [reflexivity|]. right; right.
      exists p, before, after, d1. split; [left; reflexivity|].
      split; [rewrite Hlog2, Hlog, <- app_assoc; reflexivity|]. auto.
    + destruct (generate_catch_step faults now
                  ("Failed to trigger generation: " ++ message e) p w2)
        as [w3 [after3 [Run3 [Hlog3 [Hout3 Hdb3]]]]].
      rewrite Run3. cbn. eexists _, w3. split; [reflexivity|]. right; right.
      exists p, before, (after ++ after3)%list, d1.
      split; [right; eexists; reflexivity|].
      split.
      { rewrite Hlog3, Hlog2, Hlog, <- !app_assoc. reflexivity. }
      split; [exact Hout|]. split; [rewrite calls_app, Hout2, Hout3; reflexivity|].
      split; [exact Hd1|]. now apply (updated_by_id_trans p _ (db w2)).
  - cbn [Service.world Service.packageId]. rewrite generate_catch_without_package.
    cbn. eexists _, w1. split; [reflexivity|]. right; left.
    exists reason, before. auto.
Qed.

(** X5.  Every call of [generateCompletePackage] ends in one of three
    ways, whatever the store holds and whichever calls fail: it returns
    "already_completed" or "already_in_progress" and has then changed
    nothing at all; or it returns "Package generation started
    successfully" after exactly one call of the trigger
    "mystery-webhook-trigger", with the id of the conversation and the test
    mode given; or it throws a message that starts with "Package generation
    failed: ", after no call of the trigger or one.  No call of
    [generateCompletePackage] calls the trigger twice. *)
Theorem generateCompletePackage_outcomes faults now mysteryId testMode w :
  exists o w',
    Service.generateCompletePackage faults now mysteryId testMode w = (o, w')
    /\ (((o = Returned "already_completed" \/ o = Returned "already_in_progress")
         /\ w' = w)
        \/ (o = Returned "Package generation started successfully"
            /\ Effects.calls (log w')
               = (Effects.calls (log w)
                  ++ [Invoke "mystery-webhook-trigger" mysteryId testMode])%list)
        \/ (exists m,
               o = Thrown ("Package generation failed: " ++ m)
               /\ (Effects.calls (log w') = Effects.calls (log w)
                   \/ Effects.calls (log w')
                      = (Effects.calls (log w)
                         ++ [Invoke "mystery-webhook-trigger" mysteryId testMode])%list))).
Proof.
  destruct (generate_effect faults now mysteryId testMode w)
    as [o [w' [Run [H|[H|H]]]]]; exists o, w'; (split; [exact Run|]).
  - left. exact H.
  - destruct H as [m [before [Ho [Hlog [Hout _]]]]]. right; right.
    exists m. split; [exact Ho|]. left.
    rewrite Hlog, calls_app, Hout, app_nil_r. reflexivity.
  - destruct H as [p [before [after [d1 [Ho [Hlog [Hb [Ha _]]]]]]]].
    assert (Hcalls : Effects.calls (log w')
                     = (Effects.calls (log w)
                        ++ [Invoke "mystery-webhook-trigger" mysteryId testMode])%list).
    { rewrite Hlog, !calls_app, Hb.
      change (Effects.calls
                (Invoke "mystery-webhook-trigger" mysteryId testMode :: after))
        with (Invoke "mystery-webhook-trigger" mysteryId testMode
                :: Effects.calls after).
      rewrite Ha. reflexivity. }
    destruct Ho as [->|[m ->]].
    + right; left. split; [reflexivity|exact Hcalls].
    + right; right. exists m. split; [reflexivity|]. right. exact Hcalls.
Qed.

(** X6.  Without a readable conversation nothing is started: when the
    read of the conversation fails or there is no such conversation, a call
    of [generateCompletePackage] either stops at the guard or throws
    "Package generation failed: Failed to fetch conversation data"; in both
    cases it writes nothing, does not call the trigger and leaves the
    store as it is. *)
Theorem generateCompletePackage_needs_conversation faults now mysteryId testMode w :
  faults GenConversation <> None \/ Client.find_conversation (db w) mysteryId = None ->
  Service.generateCompletePackage faults now mysteryId testMode w
  = (Returned "already_completed", w)
  \/ Service.generateCompletePackage faults now mysteryId testMode w
     = (Returned "already_in_progress", w)
  \/ Service.generateCompletePackage faults now mysteryId testMode w
     = (Thrown "Package generation failed: Failed to fetch conversation data", w).
Proof.
  intros H. unfold Service.generateCompletePackage, Service.generate_try.
  unfold try_catch, bind, Service.in_world, Client.select_latest_package,
    Client.select_conversation.
  cbn [Service.world Service.packageId].
  destruct (Service.duplicate_guard
              (Client.read_latest_package faults GenExistingPackage (db w) mysteryId))
    as [answer|] eqn:G.
  { cbn. unfold Service.duplicate_guard in G.
    destruct (reply_error _); [discriminate|]. destruct (data _); [|discriminate].
    destruct (Service.status_is _ "completed"); [inversion G; auto|].
    destruct (Service.status_is _ "in_progress"); [inversion G; auto|discriminate]. }
  cbn [Service.world Service.packageId].
  assert (Hc : Service.isSome
                 (reply_error (Client.read_conversation faults GenConversation (db w)
                                 mysteryId)) = true).
  { unfold Client.read_conversation.
    destruct (faults GenConversation) as [e|]; [reflexivity|].
    destruct H as [H|H]; [now elim H|]. rewrite H. reflexivity. }
  rewrite Hc. cbn. right; right. reflexivity.
Qed.

Lemma generateCompletePackage_needs_conversation_witness :
  Service.generateCompletePackage no_faults 10%Z "c9" false Samples.fresh
  = (Returned "already_completed", Samples.fresh)
  \/ Service.generateCompletePackage no_faults 10%Z "c9" false Samples.fresh
     = (Returned "already_in_progress", Samples.fresh)
  \/ Service.generateCompletePackage no_faults 10%Z "c9" false Samples.fresh
     = (Thrown "Package generation failed: Failed to fetch conversation data",
        Samples.fresh).
Proof.
  apply (generateCompletePackage_needs_conversation no_faults 10%Z "c9" false
           Samples.fresh).
  right. reflexivity.
Defined.

Lemma fresh_id_is_new (rows : list PackageRow) (x : PackageRow) :
  In x rows -> id x <> Client.fresh_id rows.
Proof.
  intros Hin. unfold Client.fresh_id.
  assert (H : id x <= list_max (map id rows)).
  { pose proof (proj1 (list_max_le (map id rows) (list_max (map id rows)))
                  (Nat.le_refl _)) as HF.
    rewrite Forall_forall in HF. apply HF. now apply in_map. }
  lia.
Qed.

Lemma unique_id_same_row (rows : list PackageRow) (x y : PackageRow) :
  NoDup (map id rows) -> In x rows -> In y rows -> id x = id y -> x = y.
Proof.
  induction rows as [|a rows IH]; simpl; intros Hn Hx Hy E; [contradiction|].
  inversion Hn as [|? ? Hnot Hrest]; subst.
  destruct Hx as [<-|Hx], Hy as [<-|Hy]; auto.
  - exfalso. apply Hnot. rewrite E. now apply in_map.
  - exfalso. apply Hnot. rewrite <- E. now apply in_map.
Qed.

(** X7.  A call of [generateCompletePackage] never changes the characters
    or the conversations, and, the ids of the package rows being unique, it
    never changes a package row of another conversation. *)
Theorem generateCompletePackage_frame faults now mysteryId testMode w :
  let w' := snd (Service.generateCompletePackage faults now mysteryId testMode w) in
  mystery_characters (db w') = mystery_characters (db w)
  /\ conversations (db w') = conversations (db w)
  /\ (NoDup (map id (mystery_packages (db w))) ->
      filter (fun r => negb (Client.of_conversation mysteryId r))
        (mystery_packages (db w'))
      = filter (fun r => negb (Client.of_conversation mysteryId r))
          (mystery_packages (db w))).
Proof.
  intros w'. subst w'.
  destruct (generate_effect faults now mysteryId testMode w)
    as [o [w' [Run [H|[H|H]]]]]; rewrite Run; cbn [snd].
  - destruct H as [_ ->]. auto.
  - destruct H as [m [before [_ [_ [_ ->]]]]]. auto.
  - destruct H as [p [before [after [d1 [_ [_ [_ [_ [Hd1 Hu]]]]]]]]].
    destruct Hu as [C [V [change [Hchange E]]]].
    assert (Hkeep : forall x,
               negb (Client.of_conversation mysteryId (change x))
               = negb (Client.of_conversation mysteryId x)).
    { intros x. unfold Client.of_conversation.
      destruct (Hchange x) as [_ ->]. reflexivity. }
    destruct Hd1 as [[r [L [Hp ->]]]|[row [Hid [C1 [V1 [Hfresh [Hconv E1]]]]]]].
    + split; [exact C|]. split; [exact V|]. intros Hn. rewrite E.
      apply filter_update_where_untouched; [|exact Hkeep].
      intros x Hx Hsel. apply Nat.eqb_eq in Hsel.
      apply latest_package_in in L. destruct L as [Lin Lconv].
      assert (x = r) by (apply (unique_id_same_row _ x r Hn Hx Lin); congruence).
      subst x. unfold Client.of_conversation. rewrite Lconv, String.eqb_refl.
      reflexivity.
    + split; [congruence|]. split; [congruence|]. intros _. rewrite E, E1.
      rewrite filter_update_where_untouched; [|idtac|exact Hkeep].
      * rewrite filter_app. simpl. unfold Client.of_conversation at 2.
        rewrite Hconv, String.eqb_refl. simpl. apply app_nil_r.
      * intros x Hx Hsel. apply Nat.eqb_eq in Hsel. apply in_app_or in Hx.
        destruct Hx as [Hx|[<-|[]]].
        -- exfalso. apply (fresh_id_is_new _ x Hx). congruence.
        -- unfold Client.of_conversation. rewrite Hconv, String.eqb_refl. reflexivity.
Qed.

Lemma generateCompletePackage_frame_witness :
  filter (fun r => negb (Client.of_conversation "c1" r))
    (mystery_packages
       (db (snd (Service.generateCompletePackage Samples.guard_read_fails 10%Z "c1"
                   false More.crowded))))
  = [More.other_row].
Proof.
  apply (proj2 (proj2 (generateCompletePackage_frame Samples.guard_read_fails 10%Z
                         "c1" false More.crowded))).
  vm_compute. repeat constructor; simpl; intuition discriminate.
Defined.

(** *** A failed trigger can be retried *)

Lemma generate_failed_existing faults now mysteryId testMode w r c e :
  (forall site, site <> GenWebhook -> faults site = None) ->
  faults GenWebhook = Some e ->
  Client.find_conversation (db w) mysteryId = Some c ->
  Client.latest_package (db w) mysteryId = Some r ->
  Service.duplicate_guard {| data := Some r; reply_error := None |} = None ->
  Service.generateCompletePackage faults now mysteryId testMode w
  = (Thrown ("Package generation failed: Failed to trigger generation: " ++ message e),
     {| db :=
          Client.set_packages
            (fun rows =>
               Client.update_where (fun x => (id x =? id r)%nat)
                 (fun x =>
                    Service.with_job x
                      (SObject (Service.unexpectedFailedStatus
                                  ("Failed to trigger generation: " ++ message e)))
                      (generation_started_at x) (generation_completed_at x) now)
                 (Client.update_where (fun x => (id x =? id r)%nat)
                    (fun x =>
                       Service.with_job x
                         (SObject (Service.triggerFailedStatus (message e)))
                         (generation_started_at x) (generation_completed_at x) now)
                    (Client.update_where (fun x => (id x =? id r)%nat)
                       (fun x =>
                          Service.with_job x (SObject Service.initialStatus)
                            (Some now) (generation_completed_at x) now) rows)))
            (db w);
        log :=
          (log w
           ++ [StoreWrite (UpdatePackageById (id r) (SObject Service.initialStatus))]
           ++ [Invoke "mystery-webhook-trigger" mysteryId testMode]
           ++ [StoreWrite (UpdatePackageById (id r)
                             (SObject (Service.triggerFailedStatus (message e))))]
           ++ [StoreWrite (UpdatePackageById (id r)
                             (SObject (Service.unexpectedFailedStatus
                                         ("Failed to trigger generation: "
                                          ++ message e)%string)))])%list
     |}).
Proof.
  intros F Fw C L G. unfold_generate.
  rewrite Fw.
  rewrite (F GenExistingPackage), (F GenConversation), (F GenCheckPackage),
    (F GenInitialUpdate), (F GenFailedUpdate), (F GenCatchUpdate) by discriminate.
  cbn [Service.world]. rewrite L, G. cbn [Service.world]. rewrite C.
  cbn -[Client.latest_package Client.update_where Nat.eqb append].
  rewrite L. cbn -[Client.latest_package Client.update_where Nat.eqb append].
  unfold Client.with_db, Client.log_event, Client.set_packages.
  cbn -[Client.latest_package Client.update_where Nat.eqb append].
  rewrite <- !app_assoc. reflexivity.
Qed.

Lemma generate_failed_fresh faults now mysteryId testMode w c e :
  (forall site, site <> GenWebhook -> faults site = None) ->
  faults GenWebhook = Some e ->
  Client.find_conversation (db w) mysteryId = Some c ->
  Client.latest_package (db w) mysteryId = None ->
  Service.generateCompletePackage faults now mysteryId testMode w
  = (Thrown ("Package generation failed: Failed to trigger generation: " ++ message e),
     {| db :=
          Client.set_packages
            (fun rows =>
               Client.update_where (fun x => (id x =? Client.fresh_id rows)%nat)
                 (fun x =>
                    Service.with_job x
                      (SObject (Service.unexpectedFailedStatus
                                  ("Failed to trigger generation: " ++ message e)))
                      (generation_started_at x) (generation_completed_at x) now)
                 (Client.update_where (fun x => (id x =? Client.fresh_id rows)%nat)
                    (fun x =>
                       Service.with_job x
                         (SObject (Service.triggerFailedStatus (message e)))
                         (generation_started_at x) (generation_completed_at x) now)
                    (rows ++ [{| id := Client.fresh_id rows;
                                 conversation_id := mysteryId;
                                 content := Service.no_content;
                                 generation_status := SObject Service.initialStatus;
                                 generation_started_at := Some now;
                                 generation_completed_at := None;
                                 created_at := now;
                                 updated_at := now |}])))
            (db w);
        log :=
          (log w
           ++ [StoreWrite (InsertPackage mysteryId (SObject Service.initialStatus))]
           ++ [Invoke "mystery-webhook-trigger" mysteryId testMode]
           ++ [StoreWrite (UpdatePackageById (Client.fresh_id (mystery_packages (db w)))
                             (SObject (Service.triggerFailedStatus (message e))))]
           ++ [StoreWrite (UpdatePackageById (Client.fresh_id (mystery_packages (db w)))
                             (SObject (Service.unexpectedFailedStatus
                                         ("Failed to trigger generation: "
                                          ++ message e)%string)))])%list
     |}).
Proof.
  intros F Fw C L. unfold_generate.
  rewrite Fw.
  rewrite (F GenExistingPackage), (F GenConversation), (F GenCheckPackage),
    (F GenCreatePackage), (F GenFailedUpdate), (F GenCatchUpdate) by discriminate.
  cbn [Service.world]. rewrite L.
  cbn [Service.duplicate_guard reply_error data Service.world]. rewrite C.
  cbn -[Client.latest_package Client.update_where Nat.eqb Client.fresh_id append].
  rewrite L.
  cbn -[Client.latest_package Client.update_where Nat.eqb Client.fresh_id append].
  unfold Client.with_db, Client.log_event, Client.set_packages.
  cbn -[Client.latest_package Client.update_where Nat.eqb Client.fresh_id append].
  rewrite <- !app_assoc. reflexivity.
Qed.

Lemma failed_passes_guard r reason :
  generation_status r = SObject (Service.unexpectedFailedStatus reason) ->
  Service.duplicate_guard {| data := Some r; reply_error := None |} = None.
Proof.
  intros G. unfold Service.duplicate_guard, Service.status_is. simpl.
  rewrite G. reflexivity.
Qed.

Lemma calls_two l a b c d e :
  is_outbound a = false -> is_outbound b = true -> is_outbound c = false ->
  is_outbound d = false -> is_outbound e = true ->
  forall f g, is_outbound f = false -> is_outbound g = false ->
  Effects.calls
    ((l ++ [a] ++ [b] ++ [c] ++ [d]) ++ [f] ++ [e] ++ [g])
  = (Effects.calls l ++ [b; e])%list.
Proof.
  intros Ha Hb Hc Hd He f g Hf Hg. unfold Effects.calls.
  rewrite !filter_app. simpl. rewrite Ha, Hb, Hc, Hd, He, Hf, Hg. simpl.
  rewrite <- ?app_assoc. reflexivity.
Qed.

(** X8.  A failed trigger can be retried.  When the guard lets a call of
    [generateCompletePackage] through, the conversation exists, its instant
    is later than the last update of every package row of the
    conversation, and the call of the trigger is the only call that fails,
    the call throws and leaves the job stored as [failed]; a call of
    [resumePackageGeneration] in which nothing fails then passes the
    guard, calls the trigger again, with test mode off, and returns
    "Package generation started successfully". *)
Theorem resumePackageGeneration_after_failure
  faults1 faults2 now1 now2 mysteryId testMode w c e :
  (forall site, site <> GenWebhook -> faults1 site = None) ->
  faults1 GenWebhook = Some e ->
  (forall site, faults2 site = None) ->
  Client.find_conversation (db w) mysteryId = Some c ->
  Service.duplicate_guard
    {| data := Client.latest_package (db w) mysteryId; reply_error := None |} = None ->
  (forall x, In x (mystery_packages (db w)) -> conversation_id x = mysteryId ->
             (updated_at x < now1)%Z) ->
  exists w1 w2,
    Service.generateCompletePackage faults1 now1 mysteryId testMode w
    = (Thrown ("Package generation failed: Failed to trigger generation: "
               ++ message e), w1)
    /\ Service.resumePackageGeneration faults2 now2 mysteryId w1
       = (Returned "Package generation started successfully", w2)
    /\ Effects.calls (log w2)
       = (Effects.calls (log w)
          ++ [Invoke "mystery-webhook-trigger" mysteryId testMode;
              Invoke "mystery-webhook-trigger" mysteryId false])%list
    /\ exists r1,
         Client.latest_package (db w1) mysteryId = Some r1
         /\ generation_status r1
            = SObject (Service.unexpectedFailedStatus
                         ("Failed to trigger generation: " ++ message e)).
Proof.
  intros F1 Fw F2 C G Hclock. unfold Service.resumePackageGeneration.
  destruct (Client.latest_package (db w) mysteryId) as [r|] eqn:L.
  - rewrite (generate_failed_existing faults1 now1 mysteryId testMode w r c e F1 Fw C L G).
    match goal with |- exists w1 w2, (_, ?W) = _ /\ _ => exists W end.
    unfold Client.latest_package in L.
    destruct (latest_after_update_by_id mysteryId
                (fun x =>
                   Service.with_job
                     (Service.with_job
                        (Service.with_job x (SObject Service.initialStatus)
                           (Some now1) (generation_completed_at x) now1)
                        (SObject (Service.triggerFailedStatus (message e)))
                        (Some now1) (generation_completed_at x) now1)
                     (SObject (Service.unexpectedFailedStatus
                                 ("Failed to trigger generation: " ++ message e)))
                     (Some now1) (generation_completed_at x) now1)
                now1
                (SObject (Service.unexpectedFailedStatus
                            ("Failed to trigger generation: " ++ message e)))
                (mystery_packages (db w)) r) as [r1 [L1 G1]]; auto.
    match goal with |- exists w2, (_, ?w1) = _ /\ _ =>
      assert (L1' : Client.latest_package (db w1) mysteryId = Some r1)
    end.
    { unfold Client.latest_package. cbn [db Client.set_packages mystery_packages].
      rewrite update_where_twice by reflexivity.
      rewrite update_where_twice by reflexivity. exact L1. }
    match goal with |- exists w2, (_, ?w1) = _ /\ _ =>
      pose proof (generate_started_existing faults2 now2 mysteryId false w1 r1 c F2 C
                    L1' (failed_passes_guard r1 _ G1)) as Run2
    end.
    eexists. split; [reflexivity|]. split; [exact Run2|].
    split; [cbn [log]; apply calls_two; reflexivity|].
    exists r1. split; assumption.
  - rewrite (generate_failed_fresh faults1 now1 mysteryId testMode w c e F1 Fw C L).
    match goal with |- exists w1 w2, (_, ?W) = _ /\ _ => exists W end.
    match goal with |- exists w2, (_, ?w1) = _ /\ _ =>
      assert (L1' : exists r1,
                 Client.latest_package (db w1) mysteryId = Some r1
                 /\ generation_status r1
                    = SObject (Service.unexpectedFailedStatus
                                 ("Failed to trigger generation: " ++ message e)))
    end.
    { unfold Client.latest_package in *. cbn [db Client.set_packages mystery_packages].
      rewrite update_where_twice by reflexivity.
      rewrite filter_update_where_commute by reflexivity.
      rewrite filter_app. apply latest_none in L. rewrite L. simpl.
      unfold Client.of_conversation at 1. simpl. rewrite String.eqb_refl. simpl.
      rewrite Nat.eqb_refl. eexists. split; reflexivity. }
    destruct L1' as [r1 [L1' G1]].
    match goal with |- exists w2, (_, ?w1) = _ /\ _ =>
      pose proof (generate_started_existing faults2 now2 mysteryId false w1 r1 c F2 C
                    L1' (failed_passes_guard r1 _ G1)) as Run2
    end.
    eexists. split; [reflexivity|]. split; [exact Run2|].
    split; [cbn [log]; apply calls_two; reflexivity|].
    exists r1. split; assumption.
Qed.

Lemma resumePackageGeneration_after_failure_witness :
  exists w1 w2,
    Service.generateCompletePackage Samples.webhook_fails 10%Z "c2" true Samples.fresh
    = (Thrown "Package generation failed: Failed to trigger generation: timeout", w1)
    /\ Service.resumePackageGeneration no_faults 20%Z "c2" w1
       = (Returned "Package generation started successfully", w2)
    /\ Effects.calls (log w2)
       = (Effects.calls (log Samples.fresh)
          ++ [Invoke "mystery-webhook-trigger" "c2" true;
              Invoke "mystery-webhook-trigger" "c2" false])%list
    /\ exists r1,
         Client.latest_package (db w1) "c2" = Some r1
         /\ generation_status r1
            = SObject (Service.unexpectedFailedStatus
                         ("Failed to trigger generation: " ++ message Samples.timeout)).
Proof.
  apply (resumePackageGeneration_after_failure Samples.webhook_fails no_faults
           10%Z 20%Z "c2" true Samples.fresh (Samples.talk "c2" false) Samples.timeout).
  - intros site H. destruct site; try reflexivity. now elim H.
  - reflexivity.
  - intros site. reflexivity.
  - reflexivity.
  - reflexivity.
  - intros x [].
Defined.

(** *** [saveStructuredPackageData]: what a call does to the store *)

Ltac unfold_save :=
  unfold Service.saveStructuredPackageData, Service.throw_on,
    Client.select_latest_package, Client.read_latest_package, Client.insert_package,
    Client.write, try_catch, bind, ret, throw.

(** The packages and the conversations after a successful save. *)
Lemma save_success_effect faults now mysteryId jsonData w w' :
  Service.saveStructuredPackageData faults now mysteryId jsonData w
  = (Returned tt, w') ->
  exists j,
    jsonData = Some j
    /\ mystery_packages (db w')
       = match Client.latest_package (db w) mysteryId with
         | Some r =>
             Client.update_where (fun x => (id x =? id r)%nat)
               (fun x =>
                  {| id := id x;
                     conversation_id := conversation_id x;
                     content := Service.saved_content (Service.normalize j) (content x);
                     generation_status := SObject Service.savedStatus;
                     generation_started_at := generation_started_at x;
                     generation_completed_at := Some now;
                     created_at := created_at x;
                     updated_at := now |})
               (mystery_packages (db w))
         | None =>
             (mystery_packages (db w)
              ++ [{| id := Client.fresh_id (mystery_packages (db w));
                     conversation_id := mysteryId;
                     content := Service.saved_content (Service.normalize j)
                                  Service.no_content;
                     generation_status := SObject Service.savedStatus;
                     generation_started_at := None;
                     generation_completed_at := Some now;
                     created_at := now;
                     updated_at := now |}])%list
         end
    /\ conversations (db w')
       = Client.update_where (fun c => conversation c =? mysteryId)
           (Service.purchased now) (conversations (db w))
    /\ Effects.calls (log w') = Effects.calls (log w).
Proof.
  unfold_save.
  destruct jsonData as [j|]; [|discriminate].
  destruct (faults SaveFetchPackage); cbn [reply_error data]; [discriminate|].
  destruct (Client.latest_package (db w) mysteryId) as [r|] eqn:L.
  - destruct (faults SaveUpdatePackage); [discriminate|].
    destruct (Normalized.characters (Service.normalize j)) as [|ch chs] eqn:C.
    + destruct (faults SaveUpdateConversation); [discriminate|].
      intros H. inversion H; subst w'; clear H. exists j.
      split; [reflexivity|]. split; [reflexivity|]. split; [reflexivity|].
      simpl. unfold Effects.calls. rewrite !filter_app. simpl.
      now rewrite !app_nil_r.
    + destruct (faults SaveDeleteCharacters); [discriminate|].
      destruct (faults SaveInsertCharacters); [discriminate|].
      destruct (faults SaveUpdateConversation); [discriminate|].
      intros H. inversion H; subst w'; clear H. exists j.
      split; [reflexivity|]. split; [reflexivity|]. split; [reflexivity|].
      simpl. unfold Effects.calls. rewrite !filter_app. simpl.
      now rewrite !app_nil_r.
  - destruct (faults SaveCreatePackage); cbn [reply_error data]; [discriminate|].
    destruct (Normalized.characters (Service.normalize j)) as [|ch chs] eqn:C.
    + destruct (faults SaveUpdateConversation); [discriminate|].
      intros H. inversion H; subst w'; clear H. exists j.
      split; [reflexivity|]. split; [reflexivity|]. split; [reflexivity|].
      simpl. unfold Effects.calls. rewrite !filter_app. simpl.
      now rewrite !app_nil_r.
    + destruct (faults SaveDeleteCharacters); [discriminate|].
      destruct (faults SaveInsertCharacters); [discriminate|].
      destruct (faults SaveUpdateConversation); [discriminate|].
      intros H. inversion H; subst w'; clear H. exists j.
      split; [reflexivity|]. split; [reflexivity|]. split; [reflexivity|].
      simpl. unfold Effects.calls. rewrite !filter_app. simpl.
      now rewrite !app_nil_r.
Qed.

(** X9.  Saving the content settles the status: after a successful call of
    [saveStructuredPackageData] whose instant is later than the last
    update of every package row of the conversation, a call of
    [getPackageGenerationStatus] whose read succeeds returns [completed],
    progress 100, "Package generation completed", with no section flag,
    and writes nothing; the save has made no call of the trigger. *)
Theorem saveStructuredPackageData_then_status
  faults faults' now now' mysteryId jsonData w w' :
  Service.saveStructuredPackageData faults now mysteryId jsonData w
  = (Returned tt, w') ->
  (forall x, In x (mystery_packages (db w)) -> conversation_id x = mysteryId ->
             (updated_at x < now)%Z) ->
  faults' StatusFetch = None ->
  Service.getPackageGenerationStatus faults' now' mysteryId w'
  = (Returned {| status := "completed"; progress := 100;
                 currentStep := "Package generation completed";
                 resumable := None; sections := [] |}, w')
  /\ Effects.calls (log w') = Effects.calls (log w).
Proof.
  intros Hsave Hclock F.
  destruct (save_success_effect _ _ _ _ _ _ Hsave) as [j [_ [Hp [_ Hcalls]]]].
  split; [|exact Hcalls].
  assert (L1 : exists r1,
             Client.latest_package (db w') mysteryId = Some r1
             /\ generation_status r1 = SObject Service.savedStatus).
  { unfold Client.latest_package. rewrite Hp.
    destruct (Client.latest_package (db w) mysteryId) as [r|] eqn:L;
      unfold Client.latest_package in L.
    - apply (latest_after_update_by_id mysteryId _ now); auto.
    - rewrite filter_app. apply latest_none in L. rewrite L. simpl.
      unfold Client.of_conversation. simpl. rewrite String.eqb_refl.
      eexists. split; reflexivity. }
  destruct L1 as [r1 [L1 G1]].
  destruct (status_completed_row faults' now' mysteryId w' r1 F L1) as [o [Go [Run _]]].
  { rewrite G1. reflexivity. }
  rewrite Run. rewrite G1 in Go. inversion Go. reflexivity.
Qed.

Lemma saveStructuredPackageData_then_status_witness :
  Service.getPackageGenerationStatus no_faults 30%Z "c1"
    (snd (Service.saveStructuredPackageData no_faults 20%Z "c1"
            (Some Samples.new_cast) More.crowded))
  = (Returned {| status := "completed"; progress := 100;
                 currentStep := "Package generation completed";
                 resumable := None; sections := [] |},
     snd (Service.saveStructuredPackageData no_faults 20%Z "c1"
            (Some Samples.new_cast) More.crowded))
  /\ Effects.calls
       (log (snd (Service.saveStructuredPackageData no_faults 20%Z "c1"
                    (Some Samples.new_cast) More.crowded)))
     = Effects.calls (log More.crowded).
Proof.
  apply (saveStructuredPackageData_then_status no_faults no_faults 20%Z 30%Z "c1"
           (Some Samples.new_cast) More.crowded).
  - reflexivity.
  - intros x [<-|[<-|[<-|[]]]] _; reflexivity.
  - reflexivity.
Defined.

Lemma save_failure_keeps_conversations faults now mysteryId jsonData w w' m :
  Service.saveStructuredPackageData faults now mysteryId jsonData w = (Thrown m, w') ->
  conversations (db w') = conversations (db w).
Proof.
  unfold_save.
  destruct jsonData as [j|]; [|intros H; inversion H; reflexivity].
  destruct (faults SaveFetchPackage); cbn [reply_error data];
    [intros H; inversion H; reflexivity|].
  destruct (Client.latest_package (db w) mysteryId) as [r|].
  - destruct (faults SaveUpdatePackage); [intros H; inversion H; reflexivity|].
    destruct (Normalized.characters (Service.normalize j)) as [|ch chs].
    + destruct (faults SaveUpdateConversation); intros H; inversion H; reflexivity.
    + destruct (faults SaveDeleteCharacters); [intros H; inversion H; reflexivity|].
      destruct (faults SaveInsertCharacters); [intros H; inversion H; reflexivity|].
      destruct (faults SaveUpdateConversation); intros H; inversion H; reflexivity.
  - destruct (faults SaveCreatePackage); cbn [reply_error data];
      [intros H; inversion H; reflexivity|].
    destruct (Normalized.characters (Service.normalize j)) as [|ch chs].
    + destruct (faults SaveUpdateConversation); intros H; inversion H; reflexivity.
    + destruct (faults SaveDeleteCharacters); [intros H; inversion H; reflexivity|].
      destruct (faults SaveInsertCharacters); [intros H; inversion H; reflexivity|].
      destruct (faults SaveUpdateConversation); intros H; inversion H; reflexivity.
Qed.

Lemma Forall2_update_where_exact {R} (sel : R -> bool) (change : R -> R)
  (rows : list R) :
  Forall2 (fun before after => if sel before then after = change before else after = before)
    rows (Client.update_where sel change rows).
Proof.
  unfold Client.update_where.
  induction rows as [|a rows IH]; simpl; constructor; [|exact IH].
  destruct (sel a); reflexivity.
Qed.

(** X10.  The conversation is marked as purchased exactly when the save
    succeeds: after a successful call of [saveStructuredPackageData] the row
    of the conversation has [has_complete_package] and [is_paid] true,
    [needs_package_generation] false and [display_status] "purchased", the
    other conversations being untouched; after a call that throws, the
    table of conversations is what it was. *)
Theorem saveStructuredPackageData_marks_purchased
  faults now mysteryId jsonData w o w' :
  Service.saveStructuredPackageData faults now mysteryId jsonData w = (o, w') ->
  match o with
  | Returned _ =>
      Forall2
        (fun before after =>
           if conversation before =? mysteryId
           then after
                = {| conversation := conversation before;
                     needs_package_generation := false;
                     has_complete_package := true;
                     is_paid := true;
                     display_status := Some "purchased";
                     conversation_status := conversation_status before;
                     conversation_updated_at := now |}
           else after = before)
        (conversations (db w)) (conversations (db w'))
  | Thrown _ => conversations (db w') = conversations (db w)
  end.
Proof.
  intros Run. destruct o as [[]|m].
  - destruct (save_success_effect _ _ _ _ _ _ Run) as [j [_ [_ [Hc _]]]].
    rewrite Hc.
    apply (Forall2_update_where_exact (fun c => conversation c =? mysteryId)
             (Service.purchased now)).
  - exact (save_failure_keeps_conversations _ _ _ _ _ _ _ Run).
Qed.

Lemma saveStructuredPackageData_marks_purchased_witness :
  Forall2
    (fun before after =>
       if conversation before =? "c1"
       then after
            = {| conversation := conversation before;
                 needs_package_generation := false;
                 has_complete_package := true;
                 is_paid := true;
                 display_status := Some "purchased";
                 conversation_status := conversation_status before;
                 conversation_updated_at := 20%Z |}
       else after = before)
    (conversations (db More.crowded))
    (conversations
       (db (snd (Service.saveStructuredPackageData no_faults 20%Z "c1"
                   (Some Samples.new_cast) More.crowded)))).
Proof.
  apply (saveStructuredPackageData_marks_purchased no_faults 20%Z "c1"
           (Some Samples.new_cast) More.crowded (Returned tt)).
  reflexivity.
Defined.

(** X11.  The replacement of the characters is not atomic.  When the
    package row is saved and the former characters are deleted but the
    insertion of the new ones is refused, the call throws "Failed to save
    characters data: ..." and leaves the package without any character,
    while its row is already stored as [completed]; the conversation is
    not marked. *)
Theorem saveStructuredPackageData_insert_failure faults now mysteryId j w e :
  faults SaveFetchPackage = None ->
  faults SaveUpdatePackage = None ->
  faults SaveCreatePackage = None ->
  faults SaveDeleteCharacters = None ->
  faults SaveInsertCharacters = Some e ->
  Normalized.characters (Service.normalize j) <> [] ->
  exists w',
    Service.saveStructuredPackageData faults now mysteryId (Some j) w
    = (Thrown ("Failed to save characters data: " ++ message e), w')
    /\ (let p := match Client.latest_package (db w) mysteryId with
                 | Some r => id r
                 | None => Client.fresh_id (mystery_packages (db w))
                 end in
        Client.characters_of (db w') p = []
        /\ exists r, In r (mystery_packages (db w')) /\ id r = p
                     /\ conversation_id r = mysteryId
                     /\ generation_status r = SObject Service.savedStatus)
    /\ conversations (db w') = conversations (db w).
Proof.
  intros F1 F2 F3 F4 F5 Hne. unfold_save. rewrite F1. cbn [reply_error data].
  destruct (Normalized.characters (Service.normalize j)) as [|ch chs] eqn:C;
    [now elim Hne|].
  destruct (Client.latest_package (db w) mysteryId) as [r|] eqn:L.
  - rewrite F2. cbv beta iota. rewrite F4. cbv beta iota. rewrite F5.
    eexists. split; [reflexivity|]. split; [|reflexivity].
    cbv zeta. split.
    + unfold Client.characters_of. simpl.
      apply (filter_out_then_in (fun c => (package_id c =? id r)%nat)).
    + apply latest_package_in in L. destruct L as [L1 L2].
      destruct (in_update_where_kept (fun x => (id x =? id r)%nat)
                  (fun x =>
                     {| id := id x;
                        conversation_id := conversation_id x;
                        content := Service.saved_content (Service.normalize j) (content x);
                        generation_status := SObject Service.savedStatus;
                        generation_started_at := generation_started_at x;
                        generation_completed_at := Some now;
                        created_at := created_at x;
                        updated_at := now |})
                  (mystery_packages (db w))
                  (fun x => id x = id r /\ conversation_id x = mysteryId) r)
        as [r' [Hin [Hq Hc]]]; auto.
      exists (if (id r =? id r)%nat
              then {| id := id r;
                      conversation_id := conversation_id r;
                      content := Service.saved_content (Service.normalize j) (content r);
                      generation_status := SObject Service.savedStatus;
                      generation_started_at := generation_started_at r;
                      generation_completed_at := Some now;
                      created_at := created_at r;
                      updated_at := now |}
              else r).
      split.
      * simpl. unfold Client.update_where. apply in_map_iff. exists r. auto.
      * rewrite Nat.eqb_refl. simpl. auto.
  - rewrite F3. cbn [reply_error data]. cbv beta iota. rewrite F4.
    cbv beta iota. rewrite F5.
    eexists. split; [reflexivity|]. split; [|reflexivity].
    cbv zeta. split.
    + unfold Client.characters_of. simpl.
      apply (filter_out_then_in
               (fun c => (package_id c =? Client.fresh_id (mystery_packages (db w)))%nat)).
    + eexists. split; [simpl; apply in_or_app; right; left; reflexivity|].
      simpl. auto.
Qed.

Lemma saveStructuredPackageData_insert_failure_witness :
  exists w',
    Service.saveStructuredPackageData More.insert_fails 20%Z "c1"
      (Some Samples.new_cast) Samples.finished
    = (Thrown "Failed to save characters data: timeout", w')
    /\ (let p := match Client.latest_package (db Samples.finished) "c1" with
                 | Some r => id r
                 | None => Client.fresh_id (mystery_packages (db Samples.finished))
                 end in
        Client.characters_of (db w') p = []
        /\ exists r, In r (mystery_packages (db w')) /\ id r = p
                     /\ conversation_id r = "c1"
                     /\ generation_status r = SObject Service.savedStatus)
    /\ conversations (db w') = conversations (db Samples.finished).
Proof.
  apply (saveStructuredPackageData_insert_failure More.insert_fails 20%Z "c1"
           Samples.new_cast Samples.finished Samples.timeout); try reflexivity.
  discriminate.
Defined.

(** ** Further properties of the package tab view *)

Lemma string_append_nil_r (a : string) : a ++ "" = a.
Proof. induction a as [|x a IH]; simpl; [reflexivity|]. now rewrite IH. Qed.

Lemma concat_empty_cons (x : string) (l : list string) :
  String.concat "" (x :: l) = x ++ String.concat "" l.
Proof.
  destruct l as [|y l]; cbn [String.concat].
  - now rewrite string_append_nil_r.
  - reflexivity.
Qed.

Ltac other_character c H :=
  destruct c as [[] [] [] [] [] [] [] []]; try reflexivity; exfalso; apply H; reflexivity.

Lemma has_escape_eq (c : ascii) (t : string) :
  Text.has_escape (String c t)
  = ((c =? "\")%char && Text.starts_with "n" t) || Text.has_escape t.
Proof.
  destruct (Ascii.eqb_spec c "\"%char) as [->|Hc].
  - destruct t as [|d t]; [reflexivity|].
    cbn [Text.starts_with andb].
    destruct (Ascii.eqb_spec d "n"%char) as [->|Hd]; [reflexivity|].
    other_character d Hd.
  - other_character c Hc.
Qed.

Lemma unescape_newlines_eq (c : ascii) (t : string) :
  TabView.unescape_newlines (String c t)
  = if ((c =? "\")%char && Text.starts_with "n" t)
    then String TabView.lf (TabView.unescape_newlines (Text.tail t))
    else String c (TabView.unescape_newlines t).
Proof.
  destruct (Ascii.eqb_spec c "\"%char) as [->|Hc].
  - destruct t as [|d t]; [reflexivity|].
    cbn [Text.starts_with andb Text.tail].
    destruct (Ascii.eqb_spec d "n"%char) as [->|Hd]; [reflexivity|].
    other_character d Hd.
  - other_character c Hc.
Qed.

Lemma unescape_newlines_start (s : string) :
  Text.starts_with "n" (TabView.unescape_newlines s) = Text.starts_with "n" s.
Proof.
  destruct s as [|c t]; [reflexivity|].
  rewrite unescape_newlines_eq.
  destruct (Ascii.eqb_spec c "\"%char) as [->|Hc]; cbn [andb].
  - destruct (Text.starts_with "n" t); reflexivity.
  - reflexivity.
Qed.

Lemma unescape_newlines_leaves_none (s : string) :
  Text.has_escape (TabView.unescape_newlines s) = false.
Proof.
  assert (H : forall n s, String.length s <= n ->
                          Text.has_escape (TabView.unescape_newlines s) = false).
  { clear s. induction n as [|n IH]; intros s Hs.
    - destruct s; [reflexivity|]. cbn [String.length] in Hs. lia.
    - destruct s as [|c t]; [reflexivity|].
      cbn [String.length] in Hs.
      rewrite unescape_newlines_eq.
      destruct (Ascii.eqb_spec c "\"%char) as [->|Hc]; cbn [andb].
      + destruct (Text.starts_with "n" t) eqn:St.
        * rewrite has_escape_eq. change ((TabView.lf =? "\")%char) with false.
          cbn [andb orb]. apply IH.
          destruct t; cbn [Text.tail String.length] in *; lia.
        * rewrite has_escape_eq, unescape_newlines_start, St.
          rewrite andb_false_r. cbn [orb]. apply IH. lia.
      + rewrite has_escape_eq.
        destruct (Ascii.eqb_spec c "\"%char) as [->|_]; [contradiction|].
        cbn [andb orb]. apply IH. lia. }
  apply (H (String.length s)). lia.
Qed.

Lemma unescape_newlines_nothing_to_do (s : string) :
  Text.has_escape s = false -> TabView.unescape_newlines s = s.
Proof.
  induction s as [|c t IH]; intros Hs; [reflexivity|].
  rewrite has_escape_eq in Hs. apply orb_false_iff in Hs. destruct Hs as [Hc Ht].
  rewrite unescape_newlines_eq, Hc. now rewrite IH.
Qed.

(** X12.  The character guide never contains a backslash followed by the
    letter n, whatever the fields of the character hold, and replacing the
    escaped line feeds of a guide once more changes nothing. *)
Theorem buildCharacterGuideContent_no_escaped_newline (character : TabView.MysteryCharacter) :
  Text.has_escape (TabView.buildCharacterGuideContent character) = false
  /\ TabView.unescape_newlines (TabView.buildCharacterGuideContent character)
     = TabView.buildCharacterGuideContent character.
Proof.
  assert (H : Text.has_escape (TabView.buildCharacterGuideContent character) = false).
  { unfold TabView.buildCharacterGuideContent. cbv zeta.
    apply unescape_newlines_leaves_none. }
  split; [exact H|]. now apply unescape_newlines_nothing_to_do.
Qed.

Lemma add_paragraphs (content : string) (field : option string) :
  TabView.add content field = fold_left Text.paragraph (TabView.text_of field) content.
Proof.
  unfold TabView.add, TabView.text_of.
  destruct field as [text|]; [|reflexivity].
  destruct (text =? ""); reflexivity.
Qed.

Lemma add_relationships_paragraphs (content : string) (r : TabView.Relationships) :
  TabView.add_relationships content r
  = fold_left Text.paragraph (TabView.relationships_text r) content.
Proof.
  unfold TabView.add_relationships, TabView.relationships_text.
  destruct r as [|text|items]; try reflexivity.
  destruct (text =? ""); reflexivity.
Qed.

Lemma unescape_newlines_blank_line (a : string) :
  TabView.unescape_newlines (a ++ TabView.blank_line)
  = TabView.unescape_newlines a ++ TabView.blank_line.
Proof.
  unfold TabView.blank_line.
  rewrite unescape_newlines_app by (vm_compute; discriminate).
  reflexivity.
Qed.

Lemma unescape_newlines_after_blank_line (a b : string) :
  TabView.unescape_newlines ((a ++ TabView.blank_line) ++ b)
  = TabView.unescape_newlines (a ++ TabView.blank_line) ++ TabView.unescape_newlines b.
Proof.
  rewrite unescape_newlines_blank_line, !string_append_assoc.
  unfold TabView.blank_line. cbn [append].
  rewrite unescape_newlines_app by (vm_compute; discriminate).
  reflexivity.
Qed.

Lemma unescape_newlines_paragraphs (l : list string) (a : string) :
  TabView.unescape_newlines (fold_left Text.paragraph l (a ++ TabView.blank_line))
  = TabView.unescape_newlines a ++ TabView.blank_line
    ++ String.concat ""
         (map (fun text => TabView.unescape_newlines text ++ TabView.blank_line) l).
Proof.
  revert a. induction l as [|text l IH]; intros a.
  - cbn [fold_left map String.concat].
    rewrite unescape_newlines_blank_line. now rewrite string_append_nil_r.
  - cbn [fold_left map]. rewrite concat_empty_cons.
    unfold Text.paragraph at 2.
    rewrite <- (string_append_assoc (a ++ TabView.blank_line) text TabView.blank_line).
    rewrite IH, unescape_newlines_after_blank_line, unescape_newlines_blank_line.
    now rewrite !string_append_assoc.
Qed.

Lemma guide_by_paragraph (character : TabView.MysteryCharacter) :
  TabView.buildCharacterGuideContent character
  = TabView.unescape_newlines
      ("# " ++ TabView.character_name character ++ " - Character Guide")
    ++ TabView.blank_line
    ++ String.concat ""
         (map (fun text => TabView.unescape_newlines text ++ TabView.blank_line)
              (TabView.paragraphs character)).
Proof.
  unfold TabView.buildCharacterGuideContent. cbv zeta.
  rewrite ?add_paragraphs, add_relationships_paragraphs, ?add_paragraphs.
  rewrite <- !fold_left_app.
  replace ("# " ++ TabView.character_name character ++ " - Character Guide"
           ++ TabView.blank_line)
    with (("# " ++ TabView.character_name character ++ " - Character Guide")
          ++ TabView.blank_line)
    by (now rewrite !string_append_assoc).
  rewrite <- unescape_newlines_paragraphs.
  reflexivity.
Qed.

Lemma text_of_present (text : string) :
  text <> "" -> TabView.text_of (Some text) = [text].
Proof.
  intros H. unfold TabView.text_of.
  destruct (String.eqb_spec text ""); [contradiction|reflexivity].
Qed.

(** C8.  The character guide is an order-preserving concatenation.  For
    every character it is the title line, a blank line and then each
    field that is present and not empty, in the fixed order of the
    fields, followed by a blank line, with its escaped line feeds
    replaced.  So for every name and all non-empty texts d, b and s, the
    guide of the character whose description is d, background b and
    secret s, every other optional field being absent, is the title line,
    a blank line, d, a blank line, b, a blank line, s and a blank line, in
    this order and with nothing else: no text stands for an absent field.
    With the texts "D", "B" and "S" it is the title line followed by "D",
    "B" and "S", each followed by a blank line. *)
Theorem buildCharacterGuideContent_in_order :
  (forall character,
      TabView.buildCharacterGuideContent character
      = TabView.unescape_newlines
          ("# " ++ TabView.character_name character ++ " - Character Guide")
        ++ TabView.blank_line
        ++ String.concat ""
             (map (fun text => TabView.unescape_newlines text ++ TabView.blank_line)
                  (TabView.paragraphs character)))
  /\ (forall name d b s,
         d <> "" -> b <> "" -> s <> "" ->
         TabView.buildCharacterGuideContent (Samples.described name d b s)
         = TabView.unescape_newlines ("# " ++ name ++ " - Character Guide")
           ++ TabView.blank_line
           ++ TabView.unescape_newlines d ++ TabView.blank_line
           ++ TabView.unescape_newlines b ++ TabView.blank_line
           ++ TabView.unescape_newlines s ++ TabView.blank_line)
  /\ (forall name,
         TabView.buildCharacterGuideContent (Samples.dbs name)
         = TabView.unescape_newlines ("# " ++ name ++ " - Character Guide")
           ++ TabView.blank_line ++ "D" ++ TabView.blank_line
           ++ "B" ++ TabView.blank_line ++ "S" ++ TabView.blank_line).
Proof.
  assert (H : forall name d b s,
             d <> "" -> b <> "" -> s <> "" ->
             TabView.buildCharacterGuideContent (Samples.described name d b s)
             = TabView.unescape_newlines ("# " ++ name ++ " - Character Guide")
               ++ TabView.blank_line
               ++ TabView.unescape_newlines d ++ TabView.blank_line
               ++ TabView.unescape_newlines b ++ TabView.blank_line
               ++ TabView.unescape_newlines s ++ TabView.blank_line).
  { intros name d b s Hd Hb Hs. rewrite guide_by_paragraph.
    unfold TabView.paragraphs, Samples.described.
    cbn [TabView.character_name TabView.description TabView.background
         TabView.relationships TabView.rumors TabView.secret TabView.introduction
         TabView.round2_questions TabView.round2_innocent TabView.round2_guilty
         TabView.round3_questions TabView.round3_innocent TabView.round3_guilty
         TabView.round4_questions TabView.round4_innocent TabView.round4_guilty
         TabView.final_innocent TabView.final_guilty].
    rewrite !text_of_present by assumption.
    cbn [TabView.text_of TabView.relationships_text app map String.concat append].
    now rewrite !string_append_assoc. }
  split; [apply guide_by_paragraph|]. split; [exact H|].
  intros name.
  exact (H name "D" "B" "S" ltac:(discriminate) ltac:(discriminate) ltac:(discriminate)).
Qed.

Lemma buildCharacterGuideContent_in_order_witness :
  TabView.buildCharacterGuideContent (Samples.described "Ann" "D" "B" "S")
  = TabView.unescape_newlines ("# " ++ "Ann" ++ " - Character Guide")
    ++ TabView.blank_line
    ++ TabView.unescape_newlines "D" ++ TabView.blank_line
    ++ TabView.unescape_newlines "B" ++ TabView.blank_line
    ++ TabView.unescape_newlines "S" ++ TabView.blank_line.
Proof.
  apply (proj1 (proj2 buildCharacterGuideContent_in_order) "Ann" "D" "B" "S");
    discriminate.
Defined.

(** X13.  For every character the guide is the title line followed by a
    blank line and then, in the fixed order of the fields, each field that
    is present and not empty followed by a blank line; the escaped line
    feeds are replaced within the title and within each field separately,
    so that the end of one field and the start of the next never combine
    into a line feed. *)
Theorem buildCharacterGuideContent_by_paragraph (character : TabView.MysteryCharacter) :
  TabView.buildCharacterGuideContent character
  = TabView.unescape_newlines
      ("# " ++ TabView.character_name character ++ " - Character Guide")
    ++ TabView.blank_line
    ++ String.concat ""
         (map (fun text => TabView.unescape_newlines text ++ TabView.blank_line)
              (TabView.paragraphs character)).
Proof.
  unfold TabView.buildCharacterGuideContent. cbv zeta.
  rewrite ?add_paragraphs, add_relationships_paragraphs, ?add_paragraphs.
  rewrite <- !fold_left_app.
  replace ("# " ++ TabView.character_name character ++ " - Character Guide"
           ++ TabView.blank_line)
    with (("# " ++ TabView.character_name character ++ " - Character Guide")
          ++ TabView.blank_line)
    by (now rewrite !string_append_assoc).
  rewrite <- unescape_newlines_paragraphs.
  reflexivity.
Qed.

Lemma add_keeps_start (h content : string) (field : option string) :
  (exists rest, content = h ++ rest) ->
  exists rest, TabView.add content field = h ++ rest.
Proof.
  intros [rest ->]. unfold TabView.add.
  destruct field as [text|]; [|now exists rest].
  destruct (text =? ""); [now exists rest|].
  exists (rest ++ text ++ TabView.blank_line). now rewrite string_append_assoc.
Qed.

(** X14.  Once package data is loaded, the host guide shown is the
    assembled one, which starts with the heading "# Host Guide" and a blank
    line whatever the data holds and whatever was extracted from the
    package content; so [canShareMystery] holds even when every field of
    the data is empty and there are no characters. *)
Theorem canShareMystery_with_package_data (d : TabView.PackageData.t)
  (mysteryTitle extracted script cards : string)
  (characters : list TabView.MysteryCharacter) :
  (exists rest,
      TabView.hostGuide (Some d) mysteryTitle extracted
      = "# Host Guide" ++ TabView.blank_line ++ rest)
  /\ TabView.hostGuide (Some d) mysteryTitle extracted
     = TabView.buildCompleteHostGuide (Some d) ""
  /\ TabView.canShareMystery (Some d)
       (TabView.hostGuide (Some d) mysteryTitle extracted) script cards characters
     = true.
Proof.
  assert (H : exists rest,
             TabView.hostGuide (Some d) mysteryTitle extracted
             = "# Host Guide" ++ TabView.blank_line ++ rest).
  { assert (A : forall content field,
               (exists rest, content = ("# Host Guide" ++ TabView.blank_line) ++ rest) ->
               exists rest, TabView.add content field
                            = ("# Host Guide" ++ TabView.blank_line) ++ rest)
      by (intros; now apply add_keeps_start).
    assert (B : exists rest,
               TabView.add
                 (TabView.add
                    (TabView.add
                       (TabView.add
                          (TabView.add
                             (TabView.add ("# Host Guide" ++ TabView.blank_line)
                                (TabView.PackageData.gameOverview d))
                             (TabView.PackageData.materials d))
                          (TabView.PackageData.preparation d))
                       (TabView.PackageData.timeline d))
                    (TabView.PackageData.hostGuide d))
                 (TabView.PackageData.hostingTips d)
               = ("# Host Guide" ++ TabView.blank_line) ++ rest).
    { do 6 apply A. exists "". now rewrite string_append_nil_r. }
    destruct B as [rest B]. exists rest.
    rewrite <- string_append_assoc. exact B. }
  split; [exact H|]. split; [reflexivity|].
  destruct H as [rest ->]. reflexivity.
Qed.

(** ** Further properties of the status check of the view *)

Lemma status_returns faults now mysteryId w :
  exists s w',
    Service.getPackageGenerationStatus faults now mysteryId w = (Returned s, w').
Proof.
  unfold_status. destruct (faults StatusFetch); simpl; [eauto|].
  destruct (Client.latest_package (db w) mysteryId) as [r|]; simpl; [|eauto].
  match goal with |- context [if ?c then _ else _] => destruct c end; simpl.
  - destruct (faults StatusCorrect); simpl; [|eauto].
    destruct (generation_status r); simpl; eauto;
      repeat match goal with |- context [if ?c then _ else _] => destruct c end;
      simpl; eauto.
  - destruct (generation_status r); simpl; eauto;
      repeat match goal with |- context [if ?c then _ else _] => destruct c end;
      simpl; eauto.
Qed.

Lemma latest_map_same_time (change : PackageRow -> PackageRow)
  (rows : list PackageRow) :
  (forall x, updated_at (change x) = updated_at x) ->
  Client.latest (map change rows) = option_map change (Client.latest rows).
Proof.
  intros Hf. induction rows as [|a rows IH]; [reflexivity|].
  cbn [map Client.latest]. rewrite IH.
  destruct (Client.latest rows) as [r'|]; cbn [option_map]; [|reflexivity].
  rewrite !Hf. destruct (updated_at a <? updated_at r')%Z; reflexivity.
Qed.

Lemma not_throttled (now last : Time) :
  (10000 <= now - last)%Z -> (now - last <? 10000)%Z = false.
Proof. intros H. apply Z.ltb_ge. lia. Qed.

Lemma check_completion faults now mysteryId v w :
  (10000 <= now - View.lastStatusCheck v)%Z ->
  View.hasActualContent
    (data (Client.read_latest_package faults ViewFetchPackage (db w) mysteryId))
  || View.conversationIndicatesComplete
       (data (Client.read_conversation faults ViewFetchConversation (db w) mysteryId))
  || View.packageStatusComplete
       (data (Client.read_latest_package faults ViewFetchPackage (db w) mysteryId))
  = true ->
  exists v' w',
    View.checkGenerationStatus faults now (Some mysteryId) v w
    = (Some View.completedStatus, v', w')
    /\ View.generationStatus v' = Some View.completedStatus
    /\ View.lastStatusCheck v' = now
    /\ View.generating v' = (View.previously v "completed" && View.generating v)
    /\ mystery_packages (db w')
       = match data (Client.read_latest_package faults ViewFetchPackage (db w) mysteryId),
               faults ViewForceUpdate with
         | Some p, None =>
             Client.update_where (fun r => (id r =? id p)%nat)
               (fun r => Service.with_job r (SObject View.completedStatus_json)
                           (generation_started_at r) (generation_completed_at r)
                           (updated_at r))
               (mystery_packages (db w))
         | _, _ => mystery_packages (db w)
         end
    /\ conversations (db w')
       = (if View.previously v "completed" then conversations (db w)
          else match faults ViewUpdateConversation with
               | None =>
                   Client.update_where (fun c => conversation c =? mysteryId)
                     View.marked_purchased (conversations (db w))
               | Some _ => conversations (db w)
               end)
    /\ mystery_characters (db w') = mystery_characters (db w)
    /\ Effects.calls (log w') = Effects.calls (log w)
    /\ store_writes (log w') <= store_writes (log w) + 2.
Proof.
  intros Hnow Hcond. unfold View.checkGenerationStatus.
  rewrite (not_throttled _ _ Hnow). cbv zeta. rewrite Hcond.
  unfold Client.write.
  destruct (data (Client.read_latest_package faults ViewFetchPackage (db w) mysteryId))
    as [p|];
    destruct (View.previously v "completed");
    destruct (faults ViewForceUpdate); destruct (faults ViewUpdateConversation);
    cbn [snd andb];
    (eexists; eexists; split; [reflexivity|]);
    cbn [View.generationStatus View.lastStatusCheck View.generating db log
         Client.with_db Client.log_event Client.set_packages Client.set_conversations
         mystery_packages conversations mystery_characters];
    rewrite ?calls_app, ?store_writes_app;
    cbn [Effects.calls filter is_outbound];
    rewrite ?app_nil_r; repeat split; try reflexivity; try lia;
    destruct (View.generating v); reflexivity.
Qed.

Lemma check_captured faults now mysteryId v w s v1 w1 :
  (10000 <= now - View.lastStatusCheck v)%Z ->
  View.checkGenerationStatus faults now (Some mysteryId) v w = (Some s, v1, w1) ->
  View.generationStatus v1 = Some s
  /\ View.captured v1 = View.recaptured v s
  /\ View.lastStatusCheck v1 = now.
Proof.
  intros Hnow. unfold View.checkGenerationStatus.
  rewrite (not_throttled _ _ Hnow). cbv zeta.
  match goal with |- context [if ?c then _ else _] => destruct c end.
  - destruct (View.previously v "completed"); intros H; inversion H; subst;
      repeat split.
  - destruct (Service.getPackageGenerationStatus faults now mysteryId w) as [[s'|m] w'];
      intros H; inversion H; subst; repeat split.
Qed.

Lemma recaptured_status v s :
  View.status_dependency (View.captured v)
  = View.status_dependency (View.generationStatus v) ->
  exists c,
    View.recaptured v s = Some c
    /\ status c = status s
    /\ (View.status_dependency (View.generationStatus v) <> Some (status s) -> c = s).
Proof.
  intros Hinv. unfold View.recaptured.
  destruct (View.same_dependency (View.status_dependency (View.generationStatus v))
              (Some (status s))) eqn:D.
  - destruct (View.generationStatus v) as [g|]; cbn in D; [|discriminate].
    apply String.eqb_eq in D.
    destruct (View.captured v) as [c|]; cbn in Hinv; [|discriminate].
    exists c. split; [reflexivity|]. inversion Hinv as [Hc]. split; [congruence|].
    intros Hne. exfalso. apply Hne. cbn. now rewrite D.
  - exists s. repeat split.
Qed.

(** X15.  A status check that went to the store is followed, for the next
    ten seconds, by checks that send no request and leave the view and
    the store as they were, whatever the store would have answered.  Such
    a check returns the status object that the memoised callback holds:
    its status value is that of the last answer, and it is the last
    answer itself when the status value has just changed; otherwise its
    progress and step may be older.  The callback in use is taken to be
    that of the latest render. *)
Theorem checkGenerationStatus_throttle faults faults' now now' mysteryId v w :
  (10000 <= now - View.lastStatusCheck v)%Z ->
  (now <= now' < now + 10000)%Z ->
  View.status_dependency (View.captured v)
  = View.status_dependency (View.generationStatus v) ->
  exists s v1 w1,
    View.checkGenerationStatus faults now (Some mysteryId) v w = (Some s, v1, w1)
    /\ View.generationStatus v1 = Some s
    /\ exists c,
         View.checkGenerationStatus faults' now' (Some mysteryId) v1 w1
         = (Some c, v1, w1)
         /\ status c = status s
         /\ (View.status_dependency (View.generationStatus v) <> Some (status s) ->
             c = s).
Proof.
  intros Hnow Hnext Hinv.
  assert (Run : exists s v1 w1,
             View.checkGenerationStatus faults now (Some mysteryId) v w
             = (Some s, v1, w1)).
  { destruct (View.hasActualContent
                (data (Client.read_latest_package faults ViewFetchPackage (db w)
                         mysteryId))
              || View.conversationIndicatesComplete
                   (data (Client.read_conversation faults ViewFetchConversation (db w)
                            mysteryId))
              || View.packageStatusComplete
                   (data (Client.read_latest_package faults ViewFetchPackage (db w)
                            mysteryId))) eqn:Hcond.
    - destruct (check_completion faults now mysteryId v w Hnow Hcond)
        as (v' & w' & Run & _).
      now exists View.completedStatus, v', w'.
    - unfold View.checkGenerationStatus.
      rewrite (not_throttled _ _ Hnow). cbv zeta. rewrite Hcond.
      destruct (status_returns faults now mysteryId w) as (s & w1 & Run). rewrite Run.
      eexists; eexists; eexists. reflexivity. }
  destruct Run as (s & v1 & w1 & Run).
  destruct (check_captured _ _ _ _ _ _ _ _ Hnow Run) as (Hs & Hc & Hl).
  destruct (recaptured_status v s Hinv) as (c & Hr & Hst & Hsame).
  exists s, v1, w1. split; [exact Run|]. split; [exact Hs|].
  exists c. split; [|split; assumption].
  unfold View.checkGenerationStatus. rewrite Hl, Hc, Hr.
  replace (now' - now <? 10000)%Z with true; [reflexivity|].
  symmetry. apply Z.ltb_lt. lia.
Qed.

Lemma checkGenerationStatus_throttle_witness :
  exists s v1 w1,
    View.checkGenerationStatus Samples.fetch_fails 20000%Z (Some "c1")
      Samples.idle_view Samples.running = (Some s, v1, w1)
    /\ View.generationStatus v1 = Some s
    /\ exists c,
         View.checkGenerationStatus no_faults 25000%Z (Some "c1") v1 w1
         = (Some c, v1, w1)
         /\ status c = status s
         /\ (View.status_dependency (View.generationStatus Samples.idle_view)
             <> Some (status s) -> c = s).
Proof.
  apply (checkGenerationStatus_throttle Samples.fetch_fails no_faults 20000%Z 25000%Z
           "c1" Samples.idle_view Samples.running).
  - simpl. lia.
  - lia.
  - reflexivity.
Defined.

(** A view that shows the job in progress at 10 percent checks the store,
    where the job is in progress at 20 percent: the check answers 20
    percent, and the check that follows within ten seconds answers 10
    percent, the status value being unchanged. *)
Example throttled_check_answers_older_progress :
  exists v1 w1,
    View.checkGenerationStatus no_faults 20000%Z (Some "c1") More.watching_view
      Samples.running
    = (Some (Service.normalizedStatus Service.processingStatus), v1, w1)
    /\ View.checkGenerationStatus no_faults 25000%Z (Some "c1") v1 w1
       = (Some More.watched_status, v1, w1)
    /\ progress (Service.normalizedStatus Service.processingStatus) = 20%Z
    /\ progress More.watched_status = 10%Z.
Proof. eexists; eexists. repeat split. Qed.

Lemma marked_purchased_rows mysteryId (rows : list ConversationRow) c :
  In c (Client.update_where (fun c => conversation c =? mysteryId)
          View.marked_purchased rows) ->
  conversation c = mysteryId ->
  exists c0, In c0 rows /\ c = View.marked_purchased c0.
Proof.
  unfold Client.update_where. intros Hin Hc.
  apply in_map_iff in Hin. destruct Hin as (c0 & E & Hin).
  exists c0. split; [exact Hin|].
  destruct (conversation c0 =? mysteryId) eqn:S; [now symmetry|].
  subst c. apply String.eqb_neq in S. contradiction.
Qed.

(** X16.  When the conversation is read as paid, or as having a complete
    package, the check of the view answers completed, with the three
    sections and resumable false, whatever the package rows hold and even
    when there is none or when they cannot be read; no generation is
    triggered; and unless the view already showed completed, the indicator
    of generation is switched off and, once the write is accepted, every
    row of the conversation is stored as purchased, paid and complete. *)
Theorem checkGenerationStatus_paid_is_completed faults now mysteryId v w c :
  (10000 <= now - View.lastStatusCheck v)%Z ->
  faults ViewFetchConversation = None ->
  Client.find_conversation (db w) mysteryId = Some c ->
  is_paid c = true \/ has_complete_package c = true ->
  exists v' w',
    View.checkGenerationStatus faults now (Some mysteryId) v w
    = (Some View.completedStatus, v', w')
    /\ View.generationStatus v' = Some View.completedStatus
    /\ Effects.calls (log w') = Effects.calls (log w)
    /\ (View.previously v "completed" = false ->
        View.generating v' = false
        /\ (faults ViewUpdateConversation = None ->
            forall c', In c' (conversations (db w')) -> conversation c' = mysteryId ->
                       exists c0, In c0 (conversations (db w))
                                  /\ c' = View.marked_purchased c0)).
Proof.
  intros Hnow F Hc Hpaid.
  assert (Hcond : View.hasActualContent
                    (data (Client.read_latest_package faults ViewFetchPackage (db w)
                             mysteryId))
                  || View.conversationIndicatesComplete
                       (data (Client.read_conversation faults ViewFetchConversation
                                (db w) mysteryId))
                  || View.packageStatusComplete
                       (data (Client.read_latest_package faults ViewFetchPackage (db w)
                                mysteryId)) = true).
  { unfold Client.read_conversation. rewrite F, Hc. cbn [data].
    unfold View.conversationIndicatesComplete.
    destruct Hpaid as [-> | ->]; rewrite ?orb_true_r; reflexivity. }
  destruct (check_completion faults now mysteryId v w Hnow Hcond)
    as (v' & w' & Run & Hs & _ & Hg & _ & Hconv & _ & Hcalls & _).
  exists v', w'. repeat split; try assumption.
  - rewrite Hg, H. reflexivity.
  - intros FU c' Hin Hid. rewrite Hconv, H, FU in Hin.
    now apply marked_purchased_rows with (mysteryId := mysteryId).
Qed.

Lemma checkGenerationStatus_paid_is_completed_witness :
  exists v' w',
    View.checkGenerationStatus no_faults 20000%Z (Some "c1") Samples.idle_view
      Samples.paid_started
    = (Some View.completedStatus, v', w')
    /\ View.generationStatus v' = Some View.completedStatus
    /\ Effects.calls (log w') = Effects.calls (log Samples.paid_started)
    /\ (View.previously Samples.idle_view "completed" = false ->
        View.generating v' = false
        /\ (no_faults ViewUpdateConversation = None ->
            forall c', In c' (conversations (db w')) -> conversation c' = "c1" ->
                       exists c0, In c0 (conversations (db Samples.paid_started))
                                  /\ c' = View.marked_purchased c0)).
Proof.
  apply (checkGenerationStatus_paid_is_completed no_faults 20000%Z "c1"
           Samples.idle_view Samples.paid_started (Samples.talk "c1" true)).
  - simpl. lia.
  - reflexivity.
  - reflexivity.
  - left. reflexivity.
Defined.

(** X17.  When the latest package row of the conversation has a title, a
    host guide or a completion date, the check of the view answers
    completed and, the write being accepted, stores its own completed
    status in that row; the package service, asked afterwards for the
    status of the conversation, then returns exactly the status of the
    view, with its three sections, and changes nothing. *)
Theorem checkGenerationStatus_then_service faults faults' now now' mysteryId v w p :
  (10000 <= now - View.lastStatusCheck v)%Z ->
  faults ViewFetchPackage = None ->
  faults ViewForceUpdate = None ->
  Client.latest_package (db w) mysteryId = Some p ->
  View.hasActualContent (Some p) = true ->
  faults' StatusFetch = None ->
  exists v' w',
    View.checkGenerationStatus faults now (Some mysteryId) v w
    = (Some View.completedStatus, v', w')
    /\ Client.latest_package (db w') mysteryId
       = Some (Service.with_job p (SObject View.completedStatus_json)
                 (generation_started_at p) (generation_completed_at p) (updated_at p))
    /\ Service.getPackageGenerationStatus faults' now' mysteryId w'
       = (Returned View.completedStatus, w').
Proof.
  intros Hnow F1 F2 Hp Hcontent F3.
  assert (Hread : data (Client.read_latest_package faults ViewFetchPackage (db w)
                          mysteryId) = Some p).
  { unfold Client.read_latest_package. rewrite F1. exact Hp. }
  assert (Hcond : View.hasActualContent
                    (data (Client.read_latest_package faults ViewFetchPackage (db w)
                             mysteryId))
                  || View.conversationIndicatesComplete
                       (data (Client.read_conversation faults ViewFetchConversation
                                (db w) mysteryId))
                  || View.packageStatusComplete
                       (data (Client.read_latest_package faults ViewFetchPackage (db w)
                                mysteryId)) = true).
  { rewrite Hread, Hcontent. reflexivity. }
  destruct (check_completion faults now mysteryId v w Hnow Hcond)
    as (v' & w' & Run & _ & _ & _ & Hrows & _).
  rewrite Hread, F2 in Hrows.
  exists v', w'. split; [exact Run|].
  assert (Hlatest : Client.latest_package (db w') mysteryId
                    = Some (Service.with_job p (SObject View.completedStatus_json)
                              (generation_started_at p) (generation_completed_at p)
                              (updated_at p))).
  { unfold Client.latest_package in *. rewrite Hrows.
    rewrite filter_update_where_commute by reflexivity.
    unfold Client.update_where. rewrite latest_map_same_time.
    - rewrite Hp. cbn [option_map]. now rewrite Nat.eqb_refl.
    - intros x. destruct (id x =? id p)%nat; reflexivity. }
  split; [exact Hlatest|].
  destruct (status_completed_row faults' now' mysteryId w' _ F3 Hlatest eq_refl)
    as (o & Ho & Run' & _).
  cbn [Service.with_job generation_status] in Ho. inversion Ho; subst o.
  exact Run'.
Qed.

Lemma checkGenerationStatus_then_service_witness :
  exists v' w',
    View.checkGenerationStatus no_faults 20000%Z (Some "c1") Samples.idle_view
      Samples.drifted
    = (Some View.completedStatus, v', w')
    /\ Client.latest_package (db w') "c1"
       = Some (Service.with_job Samples.drifted_row (SObject View.completedStatus_json)
                 (generation_started_at Samples.drifted_row)
                 (generation_completed_at Samples.drifted_row)
                 (updated_at Samples.drifted_row))
    /\ Service.getPackageGenerationStatus no_faults 20001%Z "c1" w'
       = (Returned View.completedStatus, w').
Proof.
  apply (checkGenerationStatus_then_service no_faults no_faults 20000%Z 20001%Z "c1"
           Samples.idle_view Samples.drifted Samples.drifted_row);
    try reflexivity.
  simpl. lia.
Defined.

(** X18.  Whatever the store holds or answers, a status check of the view
    triggers no generation, leaves the characters as they are and sends at
    most two write requests; and a view that already shows completed never
    rewrites the conversation. *)
Theorem checkGenerationStatus_frame faults now mysteryId v w :
  let w' := snd (View.checkGenerationStatus faults now mysteryId v w) in
  Effects.calls (log w') = Effects.calls (log w)
  /\ mystery_characters (db w') = mystery_characters (db w)
  /\ store_writes (log w') <= store_writes (log w) + 2
  /\ (View.previously v "completed" = true ->
      conversations (db w') = conversations (db w)).
Proof.
  cbv zeta. destruct mysteryId as [mysteryId|]; [|cbn; repeat split; lia].
  destruct (now - View.lastStatusCheck v <? 10000)%Z eqn:T.
  { unfold View.checkGenerationStatus. rewrite T. cbn. repeat split; lia. }
  apply Z.ltb_ge in T.
  destruct (View.hasActualContent
              (data (Client.read_latest_package faults ViewFetchPackage (db w) mysteryId))
            || View.conversationIndicatesComplete
                 (data (Client.read_conversation faults ViewFetchConversation (db w)
                          mysteryId))
            || View.packageStatusComplete
                 (data (Client.read_latest_package faults ViewFetchPackage (db w)
                          mysteryId))) eqn:Hcond.
  - assert (Hnow : (10000 <= now - View.lastStatusCheck v)%Z) by lia.
    destruct (check_completion faults now mysteryId v w Hnow Hcond)
      as (v' & w' & Run & _ & _ & _ & _ & Hconv & Hchars & Hcalls & Hwrites).
    rewrite Run. cbn [snd]. repeat split; try assumption.
    intros P. now rewrite Hconv, P.
  - unfold View.checkGenerationStatus.
    rewrite (proj2 (Z.ltb_ge _ _) T). cbv zeta. rewrite Hcond.
    pose proof (status_world_effect faults now mysteryId w) as E. cbv zeta in E.
    destruct (Service.getPackageGenerationStatus faults now mysteryId w) as [[s|m] w1];
      cbn [snd] in *;
      (destruct E as [-> | [-> | ->]];
       cbn [db log Client.with_db Client.log_event Client.set_packages
            mystery_characters conversations];
       rewrite ?calls_app, ?store_writes_app; cbn [Effects.calls filter is_outbound];
       rewrite ?app_nil_r; repeat split; lia).
Qed.

Lemma checkGenerationStatus_frame_witness :
  View.previously More.completed_view "completed" = true
  /\ conversations
       (db (snd (View.checkGenerationStatus no_faults 20000%Z (Some "c1")
                   More.completed_view Samples.finished)))
     = conversations (db Samples.finished).
Proof.
  split; [reflexivity|].
  apply (proj2 (proj2 (proj2
           (checkGenerationStatus_frame no_faults 20000%Z (Some "c1")
              More.completed_view Samples.finished)))).
  reflexivity.
Defined.

(** ** The title of the mystery *)

Lemma has_bold_eq (c : ascii) (t : string) :
  Text.has_bold (String c t)
  = ((c =? "*")%char && Text.starts_with "*" t) || Text.has_bold t.
Proof.
  destruct (Ascii.eqb_spec c "*"%char) as [->|Hc].
  - destruct t as [|d t]; [reflexivity|].
    cbn [Text.starts_with andb].
    destruct (Ascii.eqb_spec d "*"%char) as [->|Hd]; [reflexivity|].
    other_character d Hd.
  - other_character c Hc.
Qed.

Lemma remove_bold_eq (c : ascii) (t : string) :
  View.remove_bold (String c t)
  = if ((c =? "*")%char && Text.starts_with "*" t)
    then View.remove_bold (Text.tail t)
    else String c (View.remove_bold t).
Proof.
  destruct (Ascii.eqb_spec c "*"%char) as [->|Hc].
  - destruct t as [|d t]; [reflexivity|].
    cbn [Text.starts_with andb Text.tail].
    destruct (Ascii.eqb_spec d "*"%char) as [->|Hd]; [reflexivity|].
    other_character d Hd.
  - other_character c Hc.
Qed.

Lemma remove_bold_start (s : string) :
  Text.starts_with "*" s = false ->
  Text.starts_with "*" (View.remove_bold s) = false.
Proof.
  destruct s as [|c t]; [reflexivity|].
  cbn [Text.starts_with]. intros Hc.
  rewrite remove_bold_eq, Hc. exact Hc.
Qed.

Lemma remove_bold_leaves_none (s : string) :
  Text.has_bold (View.remove_bold s) = false.
Proof.
  assert (H : forall n s, String.length s <= n ->
                          Text.has_bold (View.remove_bold s) = false).
  { clear s. induction n as [|n IH]; intros s Hs.
    - destruct s; [reflexivity|]. cbn [String.length] in Hs. lia.
    - destruct s as [|c t]; [reflexivity|].
      cbn [String.length] in Hs.
      rewrite remove_bold_eq.
      destruct ((c =? "*")%char) eqn:Hc; cbn [andb].
      + destruct (Text.starts_with "*" t) eqn:St.
        * apply IH. destruct t; cbn [Text.tail String.length] in *; lia.
        * rewrite has_bold_eq, Hc, (remove_bold_start _ St).
          cbn [andb orb]. apply IH. lia.
      + rewrite has_bold_eq, Hc. cbn [andb orb]. apply IH. lia. }
  apply (H (String.length s)). lia.
Qed.

Lemma remove_bold_nothing_to_do (s : string) :
  Text.has_bold s = false -> View.remove_bold s = s.
Proof.
  induction s as [|c t IH]; intros Hs; [reflexivity|].
  rewrite has_bold_eq in Hs. apply orb_false_iff in Hs. destruct Hs as [Hc Ht].
  rewrite remove_bold_eq, Hc. now rewrite IH.
Qed.

(** X19.  The title of the mystery never contains two stars in a row,
    whichever of the title extracted from the messages, the title of the
    conversation, the theme or the default it comes from, and removing
    the pairs of stars once more changes nothing; a title without two
    stars in a row is shown as it is. *)
Theorem getMysteryTitle_no_bold_marks (aiGeneratedTitle mysteryTitle theme : option string) :
  Text.has_bold (View.getMysteryTitle aiGeneratedTitle mysteryTitle theme) = false
  /\ View.remove_bold (View.getMysteryTitle aiGeneratedTitle mysteryTitle theme)
     = View.getMysteryTitle aiGeneratedTitle mysteryTitle theme
  /\ (forall text, text <> "" -> Text.has_bold text = false ->
                   View.getMysteryTitle (Some text) mysteryTitle theme = text).
Proof.
  assert (H : Text.has_bold (View.getMysteryTitle aiGeneratedTitle mysteryTitle theme)
              = false)
    by (unfold View.getMysteryTitle; apply remove_bold_leaves_none).
  split; [exact H|]. split; [now apply remove_bold_nothing_to_do|].
  intros text Hne Hb. unfold View.getMysteryTitle, View.or_else.
  destruct (String.eqb_spec text ""); [contradiction|].
  now apply remove_bold_nothing_to_do.
Qed.

Lemma getMysteryTitle_no_bold_marks_witness :
  View.getMysteryTitle (Some "The *Last* Waltz") None (Some "**Noir**")
  = "The *Last* Waltz".
Proof.
  apply (proj2 (proj2 (getMysteryTitle_no_bold_marks (Some "The *Last* Waltz") None
                         (Some "**Noir**")))).
  - discriminate.
  - reflexivity.
Defined.

(** ** The answers of the e-mail functions *)

(** X20.  To a request other than OPTIONS the host function answers
    success exactly when the body of the request could be read, the key of
    the provider is configured and both messages, the host guide and the
    detective script, were accepted by the provider with a readable
    answer: one message refused makes the answer a failure although the
    other may have been sent.  The character function answers success
    exactly when its one message was accepted. *)
Theorem email_success_needs_every_message key guide detective first resend req :
  Email.method req <> "OPTIONS" ->
  (Email.failed (Email.send_host_email key guide detective first req) = false
   <-> (exists o, Email.json req = inr o)
       /\ Email.configured key = true
       /\ (exists code text, guide = Email.HttpResponse true code text None)
       /\ (exists code text, detective = Email.HttpResponse true code text None))
  /\ (Email.failed (Email.send_character_email key resend req) = false
      <-> (exists o, Email.json req = inr o)
          /\ Email.configured key = true
          /\ (exists code text, resend = Email.HttpResponse true code text None)).
Proof.
  intros Hm. apply String.eqb_neq in Hm.
  unfold Email.send_host_email, Email.send_character_email, Email.failed.
  rewrite Hm. split; split.
  - destruct (Email.json req) as [reason|o]; cbn; [discriminate|].
    destruct (Email.configured key); cbn; [|discriminate].
    destruct guide as [r1|[] c1 t1 [j1|]]; destruct detective as [r2|[] c2 t2 [j2|]];
      cbn; try discriminate.
    intros _. repeat split; eauto.
  - intros ((o & ->) & -> & (c1 & t1 & ->) & (c2 & t2 & ->)). reflexivity.
  - destruct (Email.json req) as [reason|o]; cbn; [discriminate|].
    destruct (Email.configured key); cbn; [|discriminate].
    destruct resend as [r1|[] c1 t1 [j1|]]; cbn; try discriminate.
    intros _. repeat split; eauto.
  - intros ((o & ->) & -> & (c1 & t1 & ->)). reflexivity.
Qed.

Lemma email_success_needs_every_message_witness :
  Email.failed
    (Email.send_host_email (Some "key") (Email.HttpResponse true 200 "" None)
       (Email.HttpResponse false 422 "refused" None) false
       {| Email.method := "POST"; Email.json := inr [] |}) = true.
Proof.
  destruct (proj1 (email_success_needs_every_message (Some "key")
                     (Email.HttpResponse true 200 "" None)
                     (Email.HttpResponse false 422 "refused" None) false
                     (Email.NetworkError "")
                     {| Email.method := "POST"; Email.json := inr [] |}
                     ltac:(discriminate))) as [H _].
  destruct (Email.failed _); [reflexivity|].
  destruct (H eq_refl) as (_ & _ & _ & (code & text & E)). discriminate E.
Defined.

(** ** Refusals of the save *)

(** X21.  Given no data, the save throws "No JSON data provided"; when
    the package of the conversation cannot be read, it throws "Failed to
    fetch package record: " followed by the message of the store; in both
    cases nothing was asked of the store to change.  And whatever it is
    given and however it ends, the save triggers no generation. *)
Theorem saveStructuredPackageData_refusals faults now mysteryId w :
  Service.saveStructuredPackageData faults now mysteryId None w
  = (Thrown "No JSON data provided", w)
  /\ (forall j e, faults SaveFetchPackage = Some e ->
                  Service.saveStructuredPackageData faults now mysteryId (Some j) w
                  = (Thrown ("Failed to fetch package record: " ++ message e), w))
  /\ (forall jsonData,
         Effects.calls
           (log (snd (Service.saveStructuredPackageData faults now mysteryId jsonData w)))
         = Effects.calls (log w)).
Proof.
  split; [reflexivity|]. split.
  - intros j e F. unfold_save. rewrite F. reflexivity.
  - intros jsonData. unfold_save.
    destruct jsonData as [j|]; [|reflexivity].
    destruct (faults SaveFetchPackage); cbn [reply_error data]; [reflexivity|].
    destruct (Client.latest_package (db w) mysteryId) as [r|];
      [destruct (faults SaveUpdatePackage)|destruct (faults SaveCreatePackage)];
      cbn [reply_error data snd log Client.log_event Client.with_db];
      rewrite ?calls_app; cbn [Effects.calls filter is_outbound];
      rewrite ?app_nil_r; try reflexivity;
      (destruct (Normalized.characters (Service.normalize j)) as [|ch chs];
       [|destruct (faults SaveDeleteCharacters);
         [|destruct (faults SaveInsertCharacters)]];
       try destruct (faults SaveUpdateConversation);
       cbn [snd log Client.log_event Client.with_db];
       rewrite ?calls_app; cbn [Effects.calls filter is_outbound];
       rewrite ?app_nil_r; reflexivity).
Qed.

Lemma saveStructuredPackageData_refusals_witness :
  Service.saveStructuredPackageData More.save_read_fails 20%Z "c1"
    (Some Samples.new_cast) Samples.finished
  = (Thrown "Failed to fetch package record: timeout", Samples.finished).
Proof.
  apply (proj1 (proj2 (saveStructuredPackageData_refusals More.save_read_fails 20%Z
                         "c1" Samples.finished))
           Samples.new_cast Samples.timeout).
  reflexivity.
Defined.
